(** * aio_iotccsdk.camera: the high level camera client, embedded in Rocq

    The development follows [src/aio_iotccsdk/camera.py].  Python [str]
    values are [string]s, Python lists are [list]s, [None]-able values are
    [option]s.  Every [async] method of [CameraClient] becomes a computation
    in a small monad that threads the client object, records the calls made
    to the collaborators (transport, stream decoder, logger) as a trace of
    events, and either returns a value or raises a Python exception. *)

From Stdlib Require Import String Ascii List ZArith Bool Lia.
Import ListNotations.
Open Scope string_scope.
Open Scope list_scope.

(** ** Python string operations used by the client *)

Module PyStr.

(** [sub in s] for two strings. *)
Fixpoint contains (sub s : string) : bool :=
  prefix sub s ||
  match s with
  | EmptyString => false
  | String _ t => contains sub t
  end.

(** [s.rfind(sub)]: the highest index at which [sub] starts, if any.
    [s.rindex(sub)] is the same lookup and raises [ValueError] where
    [rfind] has no index. *)
Fixpoint rfind (sub s : string) : option nat :=
  match s with
  | EmptyString => if prefix sub s then Some 0%nat else None
  | String _ t =>
      match rfind sub t with
      | Some i => Some (S i)
      | None => if prefix sub s then Some 0%nat else None
      end
  end.

(** [s[i:]] for an index [0 <= i]. *)
Fixpoint slice_from (i : nat) (s : string) : string :=
  match i, s with
  | O, _ => s
  | S _, EmptyString => EmptyString
  | S j, String _ t => slice_from j t
  end.

(** [c.lower()] on one character: only [A]..[Z] have a lower-case form
    among the code points below 128; the client compares the result with
    ["on"] and ["off"] only, and no other code point lowers to one of
    [o], [n], [f]. *)
Definition lower_ascii (c : ascii) : ascii :=
  let n := nat_of_ascii c in
  if (65 <=? n)%nat && (n <=? 90)%nat then ascii_of_nat (n + 32) else c.

Fixpoint lower (s : string) : string :=
  match s with
  | EmptyString => EmptyString
  | String c t => String (lower_ascii c) (lower t)
  end.

(** [s.replace(old, new)] for a non-empty [old]: occurrences are replaced
    from the left and do not overlap.  [skip] counts the characters of an
    occurrence that has just been replaced and are still to be dropped. *)
Fixpoint replace_from (skip : nat) (old new s : string) : string :=
  match s with
  | EmptyString => EmptyString
  | String c t =>
      match skip with
      | S k => replace_from k old new t
      | O =>
          if prefix old s
          then (new ++ replace_from (Nat.pred (String.length old)) old new t)%string
          else String c (replace_from O old new t)
      end
  end.

(** With an empty [old] Python puts [new] before every character and at
    the end. *)
Fixpoint interleave (new s : string) : string :=
  match s with
  | EmptyString => new
  | String c t => (new ++ String c (interleave new t))%string
  end.

Definition replace (old new s : string) : string :=
  match old with
  | EmptyString => interleave new s
  | String _ _ => replace_from O old new s
  end.

End PyStr.

(** ** Exceptions, outcomes and the trace of collaborator calls *)

(** The Python exceptions that can travel through the client.  The first
    six are raised by the client's own code or by the interpreter on its
    behalf; [CollaboratorError] stands for any [Exception] raised by the
    transport, the stream decoder or the caller's code inside a scope;
    [CancelledError] and [KeyboardInterrupt] derive from [BaseException]
    only. *)
Inductive exn : Type :=
| EOFError (msg : string)
| ValueError
| TypeError
| AttributeError
| IndexError
| UnboundLocalError (name : string)
| CollaboratorError (what : string)
| CancelledError
| KeyboardInterrupt.

(** [isinstance(e, Exception)]: what [except Exception] captures. *)
Definition is_Exception (e : exn) : bool :=
  match e with
  | CancelledError | KeyboardInterrupt => false
  | _ => true
  end.

Inductive outcome (A : Type) : Type :=
| Return (a : A)
| Raise (e : exn).
Arguments Return {A} a.
Arguments Raise {A} e.

(** Request payloads built by the client (Python dict literals). *)
Inductive payload : Type :=
| Empty
| SwitchStatus (switchStatus : bool)
| SwitchStatusVam (switchStatus : bool) (vamconfig : string)
| VideoSelect (resolutionSelectVal encodeModeSelectVal bitRateSelectVal
               fpsSelectVal : nat) (displayOut : Z).

(** Modelled from the spec: the transport ([ipcprovider.py]) is not part of
    the sources, so a response is the mapping of the interface table: a
    boolean [status], a [url] that may be absent, the capability lists with
    their selected indices for [/video], and [Error] and [Data] for
    [/captureimage]. *)
Record response : Type := {
  status : bool;
  url : option string;
  resolution : list string;
  resolutionSelectVal : Z;
  encodeMode : list string;
  encodeModeSelectVal : Z;
  bitRate : list string;
  bitRateSelectVal : Z;
  fps : list Z;
  fpsSelectVal : Z;
  displayOut : Z;
  Error : string;
  Data : string
}.

(** Modelled from the spec: the transport collaborator, consumed through
    [connect], [get], [post], [logout] and its [ip_address] attribute.
    Each of the four calls is awaited and ends with its result or with an
    exception: a request is answered by a response or raises, and so does
    [logout], whose result is the flag the client's [logout] returns.

    A value of this type is the transport as it answers while one method
    runs: no method of the client sends the same verb and path twice, and
    the block of a scope is an arbitrary computation on the client.  What
    the device answers may change from one call of a method to the next;
    a statement about two calls lets the second one run against another
    value (see [answering]). *)
Module IpcProvider.
Record t : Type := {
  ip_address : string;
  connect : outcome unit;
  get : string -> payload -> outcome response;
  post : string -> payload -> outcome response;
  logout : outcome bool
}.
End IpcProvider.

(** Modelled from the spec: the stream decoder ([frame_iterators.py]) is
    not part of the sources; an iterator object is the pair of dimensions
    it was constructed with. *)
Module VideoInferenceIterator.
Record t : Type := { width : Z; height : Z }.
End VideoInferenceIterator.

(** Values handed to the logger as the argument of a ["%s"] format. *)
Inductive logarg : Type :=
| LNone
| LStr (s : string)
| LInt (z : Z)
| LStrList (l : list string)
| LIntList (l : list Z)
| LResponse (r : response).

Inductive event : Type :=
| EvConnect
| EvLogout
| EvGet (path : string) (p : payload)
| EvPost (path : string) (p : payload)
| EvStart (it : VideoInferenceIterator.t) (vam_url : string)
| EvStop (it : VideoInferenceIterator.t)
| EvLogInfo (fmt : string) (args : list logarg)
| EvLogError (fmt : string) (args : list logarg)
| EvLogException (e : exn).

Definition is_request (ev : event) : bool :=
  match ev with
  | EvGet _ _ | EvPost _ _ => true
  | _ => false
  end.

(** ** The client object *)

Definition DOCKER_IP_PREFIX : string := "172.17".
Definition NULL_IP : string := "0.0.0.0".
Definition LOOPBACK_IP : string := "127.0.0.1".

(** The attributes of a [CameraClient].  [preview_url] and [vam_url] hold a
    string or [None]. *)
Record CameraClient : Type := {
  ipc_provider : IpcProvider.t;
  preview_running : bool;
  preview_url : option string;
  vam_running : bool;
  vam_url : option string;
  record_running : bool;
  resolutions : list string;
  encodetype : list string;
  bitrates : list string;
  framerates : list Z;
  cur_resolution : string;
  cur_codec : string;
  cur_bitrate : string;
  cur_framerate : Z;
  display_out : Z
}.

(** [CameraClient.__init__] *)
Definition __init__ (ipc : IpcProvider.t) : CameraClient := {|
  ipc_provider := ipc;
  preview_running := false;
  preview_url := Some "";
  vam_running := false;
  vam_url := Some "";
  record_running := false;
  resolutions := [];
  encodetype := [];
  bitrates := [];
  framerates := [];
  cur_resolution := "";
  cur_codec := "";
  cur_bitrate := "";
  cur_framerate := 0%Z;
  display_out := 0%Z
|}.

(** Attribute assignment [self.f = v], one setter per attribute. *)
Definition set_preview_running (v : bool) (self : CameraClient) : CameraClient := {|
  ipc_provider := ipc_provider self;
  preview_running := v;
  preview_url := preview_url self;
  vam_running := vam_running self;
  vam_url := vam_url self;
  record_running := record_running self;
  resolutions := resolutions self;
  encodetype := encodetype self;
  bitrates := bitrates self;
  framerates := framerates self;
  cur_resolution := cur_resolution self;
  cur_codec := cur_codec self;
  cur_bitrate := cur_bitrate self;
  cur_framerate := cur_framerate self;
  display_out := display_out self
|}.

Definition set_preview_url (v : option string) (self : CameraClient) : CameraClient := {|
  ipc_provider := ipc_provider self;
  preview_running := preview_running self;
  preview_url := v;
  vam_running := vam_running self;
  vam_url := vam_url self;
  record_running := record_running self;
  resolutions := resolutions self;
  encodetype := encodetype self;
  bitrates := bitrates self;
  framerates := framerates self;
  cur_resolution := cur_resolution self;
  cur_codec := cur_codec self;
  cur_bitrate := cur_bitrate self;
  cur_framerate := cur_framerate self;
  display_out := display_out self
|}.

Definition set_vam_running (v : bool) (self : CameraClient) : CameraClient := {|
  ipc_provider := ipc_provider self;
  preview_running := preview_running self;
  preview_url := preview_url self;
  vam_running := v;
  vam_url := vam_url self;
  record_running := record_running self;
  resolutions := resolutions self;
  encodetype := encodetype self;
  bitrates := bitrates self;
  framerates := framerates self;
  cur_resolution := cur_resolution self;
  cur_codec := cur_codec self;
  cur_bitrate := cur_bitrate self;
  cur_framerate := cur_framerate self;
  display_out := display_out self
|}.

Definition set_vam_url (v : option string) (self : CameraClient) : CameraClient := {|
  ipc_provider := ipc_provider self;
  preview_running := preview_running self;
  preview_url := preview_url self;
  vam_running := vam_running self;
  vam_url := v;
  record_running := record_running self;
  resolutions := resolutions self;
  encodetype := encodetype self;
  bitrates := bitrates self;
  framerates := framerates self;
  cur_resolution := cur_resolution self;
  cur_codec := cur_codec self;
  cur_bitrate := cur_bitrate self;
  cur_framerate := cur_framerate self;
  display_out := display_out self
|}.

Definition set_record_running (v : bool) (self : CameraClient) : CameraClient := {|
  ipc_provider := ipc_provider self;
  preview_running := preview_running self;
  preview_url := preview_url self;
  vam_running := vam_running self;
  vam_url := vam_url self;
  record_running := v;
  resolutions := resolutions self;
  encodetype := encodetype self;
  bitrates := bitrates self;
  framerates := framerates self;
  cur_resolution := cur_resolution self;
  cur_codec := cur_codec self;
  cur_bitrate := cur_bitrate self;
  cur_framerate := cur_framerate self;
  display_out := display_out self
|}.

Definition set_resolutions (v : list string) (self : CameraClient) : CameraClient := {|
  ipc_provider := ipc_provider self;
  preview_running := preview_running self;
  preview_url := preview_url self;
  vam_running := vam_running self;
  vam_url := vam_url self;
  record_running := record_running self;
  resolutions := v;
  encodetype := encodetype self;
  bitrates := bitrates self;
  framerates := framerates self;
  cur_resolution := cur_resolution self;
  cur_codec := cur_codec self;
  cur_bitrate := cur_bitrate self;
  cur_framerate := cur_framerate self;
  display_out := display_out self
|}.

Definition set_encodetype (v : list string) (self : CameraClient) : CameraClient := {|
  ipc_provider := ipc_provider self;
  preview_running := preview_running self;
  preview_url := preview_url self;
  vam_running := vam_running self;
  vam_url := vam_url self;
  record_running := record_running self;
  resolutions := resolutions self;
  encodetype := v;
  bitrates := bitrates self;
  framerates := framerates self;
  cur_resolution := cur_resolution self;
  cur_codec := cur_codec self;
  cur_bitrate := cur_bitrate self;
  cur_framerate := cur_framerate self;
  display_out := display_out self
|}.

Definition set_bitrates (v : list string) (self : CameraClient) : CameraClient := {|
  ipc_provider := ipc_provider self;
  preview_running := preview_running self;
  preview_url := preview_url self;
  vam_running := vam_running self;
  vam_url := vam_url self;
  record_running := record_running self;
  resolutions := resolutions self;
  encodetype := encodetype self;
  bitrates := v;
  framerates := framerates self;
  cur_resolution := cur_resolution self;
  cur_codec := cur_codec self;
  cur_bitrate := cur_bitrate self;
  cur_framerate := cur_framerate self;
  display_out := display_out self
|}.

Definition set_framerates (v : list Z) (self : CameraClient) : CameraClient := {|
  ipc_provider := ipc_provider self;
  preview_running := preview_running self;
  preview_url := preview_url self;
  vam_running := vam_running self;
  vam_url := vam_url self;
  record_running := record_running self;
  resolutions := resolutions self;
  encodetype := encodetype self;
  bitrates := bitrates self;
  framerates := v;
  cur_resolution := cur_resolution self;
  cur_codec := cur_codec self;
  cur_bitrate := cur_bitrate self;
  cur_framerate := cur_framerate self;
  display_out := display_out self
|}.

Definition set_cur_resolution (v : string) (self : CameraClient) : CameraClient := {|
  ipc_provider := ipc_provider self;
  preview_running := preview_running self;
  preview_url := preview_url self;
  vam_running := vam_running self;
  vam_url := vam_url self;
  record_running := record_running self;
  resolutions := resolutions self;
  encodetype := encodetype self;
  bitrates := bitrates self;
  framerates := framerates self;
  cur_resolution := v;
  cur_codec := cur_codec self;
  cur_bitrate := cur_bitrate self;
  cur_framerate := cur_framerate self;
  display_out := display_out self
|}.

Definition set_cur_codec (v : string) (self : CameraClient) : CameraClient := {|
  ipc_provider := ipc_provider self;
  preview_running := preview_running self;
  preview_url := preview_url self;
  vam_running := vam_running self;
  vam_url := vam_url self;
  record_running := record_running self;
  resolutions := resolutions self;
  encodetype := encodetype self;
  bitrates := bitrates self;
  framerates := framerates self;
  cur_resolution := cur_resolution self;
  cur_codec := v;
  cur_bitrate := cur_bitrate self;
  cur_framerate := cur_framerate self;
  display_out := display_out self
|}.

Definition set_cur_bitrate (v : string) (self : CameraClient) : CameraClient := {|
  ipc_provider := ipc_provider self;
  preview_running := preview_running self;
  preview_url := preview_url self;
  vam_running := vam_running self;
  vam_url := vam_url self;
  record_running := record_running self;
  resolutions := resolutions self;
  encodetype := encodetype self;
  bitrates := bitrates self;
  framerates := framerates self;
  cur_resolution := cur_resolution self;
  cur_codec := cur_codec self;
  cur_bitrate := v;
  cur_framerate := cur_framerate self;
  display_out := display_out self
|}.

Definition set_cur_framerate (v : Z) (self : CameraClient) : CameraClient := {|
  ipc_provider := ipc_provider self;
  preview_running := preview_running self;
  preview_url := preview_url self;
  vam_running := vam_running self;
  vam_url := vam_url self;
  record_running := record_running self;
  resolutions := resolutions self;
  encodetype := encodetype self;
  bitrates := bitrates self;
  framerates := framerates self;
  cur_resolution := cur_resolution self;
  cur_codec := cur_codec self;
  cur_bitrate := cur_bitrate self;
  cur_framerate := v;
  display_out := display_out self
|}.

Definition set_display_out (v : Z) (self : CameraClient) : CameraClient := {|
  ipc_provider := ipc_provider self;
  preview_running := preview_running self;
  preview_url := preview_url self;
  vam_running := vam_running self;
  vam_url := vam_url self;
  record_running := record_running self;
  resolutions := resolutions self;
  encodetype := encodetype self;
  bitrates := bitrates self;
  framerates := framerates self;
  cur_resolution := cur_resolution self;
  cur_codec := cur_codec self;
  cur_bitrate := cur_bitrate self;
  cur_framerate := cur_framerate self;
  display_out := v
|}.

(** ** The monad of client methods

    A method runs on the client object, returns or raises, leaves the
    object in a new state (attribute writes made before an exception stay),
    and emits the events of the collaborator calls it made, oldest first. *)

Definition M (A : Type) : Type :=
  CameraClient -> outcome A * CameraClient * list event.

Definition ret {A} (a : A) : M A := fun self => (Return a, self, []).

Definition raise {A} (e : exn) : M A := fun self => (Raise e, self, []).

Definition bind {A B} (m : M A) (k : A -> M B) : M B :=
  fun self =>
    match m self with
    | (Return a, self', tr) =>
        let '(o, self'', tr') := k a self' in (o, self'', tr ++ tr')
    | (Raise e, self', tr) => (Raise e, self', tr)
    end.

Declare Scope py_scope.
Delimit Scope py_scope with py.
Notation "x <- m ;; k" := (bind m (fun x => k))
  (at level 61, m at next level, right associativity) : py_scope.
Notation "m ;; k" := (bind m (fun _ => k))
  (at level 61, right associativity) : py_scope.
Open Scope py_scope.

Definition get_self : M CameraClient := fun self => (Return self, self, []).

Definition assign (f : CameraClient -> CameraClient) : M unit :=
  fun self => (Return tt, f self, []).

Definition emit (ev : event) : M unit := fun self => (Return tt, self, [ev]).

Definition when (b : bool) (m : M unit) : M unit := if b then m else ret tt.

(** [try: m  except Exception as e: h e] *)
Definition try_except {A} (m : M A) (h : exn -> M A) : M A :=
  fun self =>
    match m self with
    | (Raise e, self', tr) =>
        if is_Exception e
        then let '(o, self'', tr') := h e self' in (o, self'', tr ++ tr')
        else (Raise e, self', tr)
    | r => r
    end.

(** [try: m  finally: fin]: [fin] runs on every way out of [m]; the outcome
    of [m] stands unless [fin] raises itself, and then the exception of
    [fin] is the outcome, whether [m] returned or raised. *)
Definition try_finally {A} (m : M A) (fin : M unit) : M A :=
  fun self =>
    let '(o, self', tr) := m self in
    match fin self' with
    | (Return _, self'', tr') => (o, self'', tr ++ tr')
    | (Raise e, self'', tr') => (Raise e, self'', tr ++ tr')
    end.

(** The collaborator calls. *)
Definition ipc_get (path : string) (p : payload) : M response :=
  fun self => (IpcProvider.get (ipc_provider self) path p, self, [EvGet path p]).

Definition ipc_post (path : string) (p : payload) : M response :=
  fun self => (IpcProvider.post (ipc_provider self) path p, self, [EvPost path p]).

(** [await self.ipc_provider.logout()] *)
Definition ipc_logout : M bool :=
  fun self => (IpcProvider.logout (ipc_provider self), self, [EvLogout]).

(** [await ipc.logout()] on a transport object [ipc] held in a local
    variable, as in the [finally] clause of [connect]. *)
Definition logout_on (ipc : IpcProvider.t) : M bool :=
  fun self => (IpcProvider.logout ipc, self, [EvLogout]).

Definition log_info (fmt : string) (args : list logarg) : M unit :=
  emit (EvLogInfo fmt args).

Definition log_error (fmt : string) (args : list logarg) : M unit :=
  emit (EvLogError fmt args).

Definition log_exception (e : exn) : M unit := emit (EvLogException e).

(** ** Python list operations *)

(** [l.index(x)]; [None] where Python raises [ValueError]. *)
Fixpoint py_index {A} (eqb : A -> A -> bool) (x : A) (l : list A) : option nat :=
  match l with
  | [] => None
  | y :: t => if eqb y x then Some O else option_map S (py_index eqb x t)
  end.

(** [x in l] *)
Definition py_in {A} (eqb : A -> A -> bool) (x : A) (l : list A) : bool :=
  existsb (fun y => eqb y x) l.

(** [l[i]] for an integer [i], negative indices counting from the end;
    [None] where Python raises [IndexError]. *)
Definition py_getitem {A} (l : list A) (i : Z) : option A :=
  let n := Z.of_nat (List.length l) in
  if (0 <=? i)%Z then nth_error l (Z.to_nat i)
  else if (- n <=? i)%Z then nth_error l (Z.to_nat (n + i))
  else None.

Definition index_of {A} (eqb : A -> A -> bool) (x : A) (l : list A) : M nat :=
  match py_index eqb x l with
  | Some i => ret i
  | None => raise ValueError
  end.

Definition getitem {A} (l : list A) (i : Z) : M A :=
  match py_getitem l i with
  | Some x => ret x
  | None => raise IndexError
  end.

(** Truth value of an argument: [None], [""] and [0] are false. *)
Definition truthy_str (o : option string) : bool :=
  match o with
  | Some s => negb (s =? "")
  | None => false
  end.

Definition truthy_int (o : option Z) : bool :=
  match o with
  | Some z => negb (z =? 0)%Z
  | None => false
  end.

Definition nonempty {A} (l : list A) : bool :=
  match l with
  | [] => false
  | _ :: _ => true
  end.

Definition opt_str (o : option string) : logarg :=
  match o with
  | Some s => LStr s
  | None => LNone
  end.


(** ** The methods of [CameraClient] *)

(** [configure_preview], lines 233-248: the same four lines choose the
    index of each field.  The requested value is used when it is true,
    the capability list is non-empty and holds it; the current value is
    looked up otherwise.  [list.index] raises [ValueError] on a value the
    list does not hold. *)
Definition select_index {A} (eqb : A -> A -> bool) (truthy : option A -> bool)
    (requested : option A) (caps : list A) (cur : A) : M nat :=
  match requested with
  | Some v =>
      if truthy requested && nonempty caps && py_in eqb v caps
      then index_of eqb v caps
      else index_of eqb cur caps
  | None => index_of eqb cur caps
  end.

(** [configure_preview], lines 250-253: [display_out not in [0, 1]]. *)
Definition select_display_out (requested : option Z) (cur : Z) : M Z :=
  match requested with
  | Some d =>
      if py_in Z.eqb d [0; 1]%Z then ret d
      else log_error "Invalid value: display_out should 0/1 got: %s" [LInt d] ;;
           ret cur
  | None =>
      log_error "Invalid value: display_out should 0/1 got: %s" [LNone] ;;
      ret cur
  end.

(** [configure_preview], lines 265-279: after the acknowledgement each
    mirrored value is read back from its capability list at the index that
    was submitted, and written (and logged) where it differs. *)
Definition update_current (res enc bit fps : nat) (display_out' : Z) : M unit :=
  self <- get_self ;;
  new_res <- getitem (resolutions self) (Z.of_nat res) ;;
  when (negb (cur_resolution self =? new_res))
    (assign (set_cur_resolution new_res) ;;
     log_info "resolution now: %s" [LStr new_res]) ;;
  new_enc <- getitem (encodetype self) (Z.of_nat enc) ;;
  when (negb (cur_codec self =? new_enc))
    (assign (set_cur_codec new_enc) ;;
     log_info "encodetype now: %s" [LStr new_enc]) ;;
  new_bit <- getitem (bitrates self) (Z.of_nat bit) ;;
  when (negb (cur_bitrate self =? new_bit))
    (assign (set_cur_bitrate new_bit) ;;
     log_info "bitrate now : %s" [LStr new_bit]) ;;
  new_fps <- getitem (framerates self) (Z.of_nat fps) ;;
  when (negb (cur_framerate self =? new_fps)%Z)
    (assign (set_cur_framerate new_fps) ;;
     log_info "framerate now: %s" [LInt new_fps]) ;;
  when (negb (display_out self =? display_out')%Z)
    (assign (set_display_out display_out') ;;
     log_info "display_out now: %s" [LInt display_out']).

Definition configure_preview (resolution encode bitrate : option string)
    (framerate : option Z) (display_out_arg : option Z) : M bool :=
  self <- get_self ;;
  res <- select_index String.eqb truthy_str resolution
           (resolutions self) (cur_resolution self) ;;
  enc <- select_index String.eqb truthy_str encode
           (encodetype self) (cur_codec self) ;;
  bit <- select_index String.eqb truthy_str bitrate
           (bitrates self) (cur_bitrate self) ;;
  fps <- select_index Z.eqb truthy_int framerate
           (framerates self) (cur_framerate self) ;;
  display_out' <- select_display_out display_out_arg (display_out self) ;;
  let path := "/video" in
  let payload := VideoSelect res enc bit fps display_out' in
  response <- ipc_post path payload ;;
  when (status response) (update_current res enc bit fps display_out') ;;
  ret (status response).

Definition _get_supported_params : M bool :=
  let path := "/video" in
  response <- ipc_get path Empty ;;
  when (status response)
    (assign (set_resolutions (resolution response)) ;;
     r <- getitem (resolution response) (resolutionSelectVal response) ;;
     assign (set_cur_resolution r) ;;
     assign (set_encodetype (encodeMode response)) ;;
     e <- getitem (encodeMode response) (encodeModeSelectVal response) ;;
     assign (set_cur_codec e) ;;
     assign (set_bitrates (bitRate response)) ;;
     b <- getitem (bitRate response) (bitRateSelectVal response) ;;
     assign (set_cur_bitrate b) ;;
     assign (set_framerates (fps response)) ;;
     f <- getitem (fps response) (fpsSelectVal response) ;;
     assign (set_cur_framerate f) ;;
     assign (set_display_out (displayOut response)) ;;
     log_info "resolutions: %s" [LStrList (resolution response)] ;;
     log_info "encodetype: %s" [LStrList (encodeMode response)] ;;
     log_info "bitrates: %s" [LStrList (bitRate response)] ;;
     log_info "framerates: %s" [LIntList (fps response)] ;;
     log_info "Current preview settings:" [] ;;
     log_info "resolution: %s" [LStr r] ;;
     log_info "encodetype: %s" [LStr e] ;;
     log_info "bitrate: %s" [LStr b] ;;
     log_info "framerate: %s" [LInt f] ;;
     log_info "display_out: %s" [LInt (displayOut response)]) ;;
  ret (status response).

(** Lines 371-376 and 429-434: the URL kept for a response that carries
    one.  [url.rindex(":")] comes first and raises [ValueError] on a URL
    without a colon; the URL is rebuilt around the address of the device
    unless that address contains [DOCKER_IP_PREFIX]. *)
Definition resolve (raw_url device_ip : string) : M string :=
  match PyStr.rfind ":" raw_url with
  | None => raise ValueError
  | Some e_idx =>
      if negb (PyStr.contains DOCKER_IP_PREFIX device_ip)
      then ret ("rtsp://" ++ device_ip ++ PyStr.slice_from e_idx raw_url)%string
      else ret raw_url
  end.

Definition _get_preview_info : M (option string) :=
  let path := "/preview" in
  response <- ipc_get path Empty ;;
  self <- get_self ;;
  match url response with
  | Some raw =>
      u <- resolve raw (IpcProvider.ip_address (ipc_provider self)) ;;
      assign (set_preview_url (Some u))
  | None => assign (set_preview_url None)
  end ;;
  self <- get_self ;;
  log_info "preview url: %s" [opt_str (preview_url self)] ;;
  assign (set_preview_running (status response)) ;;
  ret (preview_url self).

Definition _get_vam_info : M (option string) :=
  let path := "/vam" in
  response <- ipc_get path Empty ;;
  log_info "RESPONSE: %s: " [LResponse response] ;;
  self <- get_self ;;
  match url response with
  | Some raw =>
      u <- resolve raw (IpcProvider.ip_address (ipc_provider self)) ;;
      assign (set_vam_url (Some u))
  | None => assign (set_vam_url None)
  end ;;
  assign (set_vam_running (status response)) ;;
  self <- get_self ;;
  log_info "vam url: %s" [opt_str (vam_url self)] ;;
  ret (vam_url self).

(** The first lines of the four switches: the local [status] (written
    [status'] below, next to the response field of that name) is bound to
    [True] for ["on"], to [False] for ["off"], and stays unbound ([None]
    here) after the error is logged for any other token. *)
Definition parse_state (state : string) : M (option bool) :=
  if PyStr.lower state =? "on" then ret (Some true)
  else if PyStr.lower state =? "off" then ret (Some false)
  else log_error "Invalid state: %s should be on/off" [LStr state] ;;
       ret None.

(** Reading the local [status] into the payload: an unbound local raises
    [UnboundLocalError]. *)
Definition read_status (status : option bool) : M bool :=
  match status with
  | Some b => ret b
  | None => raise (UnboundLocalError "status")
  end.

Definition set_preview_state (state : string) : M bool :=
  status' <- parse_state state ;;
  let path := "/preview" in
  b <- read_status status' ;;
  let payload := SwitchStatus b in
  response <- ipc_post path payload ;;
  let was_success := status response in
  _get_preview_info ;;
  ret was_success.

Definition set_analytics_state (state : string) : M bool :=
  status' <- parse_state state ;;
  b <- read_status status' ;;
  let payload := SwitchStatusVam b "MD" in
  let path := "/vam" in
  response <- ipc_post path payload ;;
  let was_success := status response in
  _get_vam_info ;;
  ret was_success.

Definition set_recording_state (state : string) : M bool :=
  status' <- parse_state state ;;
  let path := "/recording" in
  b <- read_status status' ;;
  let payload := SwitchStatus b in
  response <- ipc_post path payload ;;
  assign (set_record_running (status response)) ;;
  self <- get_self ;;
  ret (record_running self).

(** [set_overlay_state(state=None)]: [None.lower()] raises
    [AttributeError]. *)
Definition set_overlay_state (state : option string) : M bool :=
  match state with
  | None => raise AttributeError
  | Some state =>
      status' <- parse_state state ;;
      let path := "/overlay" in
      b <- read_status status' ;;
      let payload := SwitchStatus b in
      response <- ipc_post path payload ;;
      ret (status response)
  end.

Definition captureimage : M (option string) :=
  let path := "/captureimage" in
  response <- ipc_post path Empty ;;
  if negb (Error response =? "none")
  then log_error (Error response) [] ;; ret None
  else ret (Some (Data response)).

Definition logout : M bool :=
  status' <- ipc_logout ;;
  ret status'.

(** ** The two scoped acquisitions

    An [@asynccontextmanager] generator runs up to its [yield], hands the
    yielded value to the block of the caller's [async with], and is resumed
    at the [yield] when the block is left: normally (also after [break] or
    [return] in the block) or with the exception the block raised, thrown in
    at the [yield].  The block is the parameter [body]: it runs where the
    [yield] stands. *)

Section Scopes.

(** Modelled from the spec: what [VideoInferenceIterator.start(url)]
    returns, the sequence of inference frames, and how [start] ends for
    an iterator and a URL.  [stop] is taken to return. *)
Variable Frames : Type.
Variable start : VideoInferenceIterator.t -> string -> outcome Frames.

Definition iterator_start (it : VideoInferenceIterator.t) (vam_url : string)
  : M Frames :=
  fun self => (start it vam_url, self, [EvStart it vam_url]).

Definition iterator_stop (it : VideoInferenceIterator.t) : M unit :=
  emit (EvStop it).

(** [get_inferences], lines 174-185: no branch binds [preview_width] and
    [preview_height] for another resolution. *)
Definition preview_dimensions (cur_resolution : string) : option (Z * Z) :=
  if cur_resolution =? "4K" then Some (3840, 2160)%Z
  else if cur_resolution =? "1080P" then Some (1920, 1080)%Z
  else if cur_resolution =? "720P" then Some (1280, 720)%Z
  else if cur_resolution =? "480P" then Some (640, 480)%Z
  else None.

(** [get_inferences], lines 191-196: the block under [try].  In line 194
    the result of [replace] is not bound to anything; [start] receives
    [self.vam_url].  [NULL_IP in None] raises [TypeError]. *)
Definition inference_scope {B} (inference_iterator : VideoInferenceIterator.t)
    (body : Frames -> M B) : M B :=
  self <- get_self ;;
  when (match vam_url self with Some u => u =? "" | None => false end)
    (_get_vam_info ;; ret tt) ;;
  self <- get_self ;;
  match vam_url self with
  | None => raise TypeError
  | Some u =>
      when (PyStr.contains NULL_IP u)
        (let _ := PyStr.replace NULL_IP LOOPBACK_IP u in ret tt) ;;
      frames <- iterator_start inference_iterator u ;;
      body frames
  end.

Definition get_inferences {B} (body : Frames -> M B) : M B :=
  self <- get_self ;;
  if negb (preview_running self) then raise (EOFError "preview not started")
  else if negb (vam_running self) then raise (EOFError "VAM not started")
  else
    match preview_dimensions (cur_resolution self) with
    | None => raise (UnboundLocalError "preview_width")
    | Some (preview_width, preview_height) =>
        let inference_iterator :=
          {| VideoInferenceIterator.width := preview_width;
             VideoInferenceIterator.height := preview_height |} in
        try_finally
          (try_except (inference_scope inference_iterator body)
             (fun e => log_exception e ;; raise e))
          (iterator_stop inference_iterator)
    end.

(** [connect], lines 114-116: the block under [try]. *)
Definition connect_scope {B} (body : M B) : M B :=
  _get_supported_params ;;
  body.

(** [CameraClient.connect] for a given transport.  The client exists once
    [ipc_provider.connect()] has returned; the result holds the client as
    the scope left it, or [None] when it was never constructed.  The
    [finally] clause awaits [logout] on the local [ipc_provider]: when that
    call raises, its exception is what the scope raises. *)
Definition connect {B} (ipc_provider : IpcProvider.t) (body : M B)
  : outcome B * option CameraClient * list event :=
  match IpcProvider.connect ipc_provider with
  | Raise e => (Raise e, None, [EvConnect])
  | Return _ =>
      let '(o, camera_client, tr) :=
        try_finally
          (try_except (connect_scope body)
             (fun e => log_exception e ;; raise e))
          (logout_on ipc_provider ;; ret tt)
          (__init__ ipc_provider) in
      (o, Some camera_client, EvConnect :: tr)
  end.

End Scopes.

Arguments iterator_start {Frames} start it vam_url.
Arguments get_inferences {Frames} start {B} body.
Arguments inference_scope {Frames} start {B} inference_iterator body.

(** ** Vocabulary of the properties *)

(** A requested value that is absent or that the capability list does not
    hold. *)
Definition absent_or_not_member {A} (eqb : A -> A -> bool)
    (requested : option A) (caps : list A) : Prop :=
  match requested with
  | None => True
  | Some v => py_in eqb v caps = false
  end.

(** The value whose index [select_index] looks up. *)
Definition looked_up {A} (eqb : A -> A -> bool) (truthy : option A -> bool)
    (requested : option A) (caps : list A) (cur : A) : A :=
  match requested with
  | Some v => if truthy requested && nonempty caps && py_in eqb v caps then v else cur
  | None => cur
  end.

(** The client after an acknowledged [configure_preview] that submitted
    the indices [res], [enc], [bit], [fps] and the flag [d]. *)
Definition mirrors (self self' : CameraClient) (res enc bit fps : nat) (d : Z)
  : Prop :=
  exists r e b f,
    nth_error (resolutions self) res = Some r /\
    nth_error (encodetype self) enc = Some e /\
    nth_error (bitrates self) bit = Some b /\
    nth_error (framerates self) fps = Some f /\
    self' = set_display_out d (set_cur_framerate f (set_cur_bitrate b
              (set_cur_codec e (set_cur_resolution r self)))).

Definition no_request (tr : list event) : Prop :=
  forallb (fun ev => negb (is_request ev)) tr = true.

(** What the handler [except Exception as e: logger.exception(e); raise]
    adds to the trace for an outcome of the block under [try]. *)
Definition captured {A} (o : outcome A) : list event :=
  match o with
  | Return _ => []
  | Raise e => if is_Exception e then [EvLogException e] else []
  end.

(** The outcome of [try: ... finally: release] when the part under [try]
    ended as [o] and the release as [l]: an exception of the release
    replaces [o]. *)
Definition released {A B} (o : outcome A) (l : outcome B) : outcome A :=
  match l with
  | Return _ => o
  | Raise e => Raise e
  end.

(** ** A sample device

    Concrete collaborators on which the methods can be run: a camera that
    reports four resolutions, two codecs, three bitrates and two frame
    rates, answers every [POST] with the status [ok], and reports the
    stream URL [stream_url] for preview and analytics. *)

Definition ack (ok : bool) : response := {|
  status := ok; url := None;
  resolution := []; resolutionSelectVal := 0;
  encodeMode := []; encodeModeSelectVal := 0;
  bitRate := []; bitRateSelectVal := 0;
  fps := []; fpsSelectVal := 0;
  displayOut := 0; Error := "none"; Data := ""
|}.

Definition video_info : response := {|
  status := true; url := None;
  resolution := ["4K"; "1080P"; "720P"; "480P"]; resolutionSelectVal := 1;
  encodeMode := ["HEVC/H.265"; "AVC/H.264"]; encodeModeSelectVal := 1;
  bitRate := ["512Kbps"; "768Kbps"; "1Mbps"]; bitRateSelectVal := 2;
  fps := [24; 30]%Z; fpsSelectVal := 1;
  displayOut := 0; Error := "none"; Data := ""
|}.

Definition stream_info (running : bool) (stream_url : string) : response := {|
  status := running; url := Some stream_url;
  resolution := []; resolutionSelectVal := 0;
  encodeMode := []; encodeModeSelectVal := 0;
  bitRate := []; bitRateSelectVal := 0;
  fps := []; fpsSelectVal := 0;
  displayOut := 0; Error := "none"; Data := ""
|}.

Definition capture_reply (error data : string) : response := {|
  status := true; url := None;
  resolution := []; resolutionSelectVal := 0;
  encodeMode := []; encodeModeSelectVal := 0;
  bitRate := []; bitRateSelectVal := 0;
  fps := []; fpsSelectVal := 0;
  displayOut := 0; Error := error; Data := data
|}.

Definition sample_camera (ip stream_url : string) (ok : bool) : IpcProvider.t := {|
  IpcProvider.ip_address := ip;
  IpcProvider.connect := Return tt;
  IpcProvider.get := fun path _ =>
    if path =? "/video" then Return video_info
    else Return (stream_info true stream_url);
  IpcProvider.post := fun path _ =>
    if path =? "/captureimage" then Return (capture_reply "none" "/9j/4AAQ")
    else Return (ack ok);
  IpcProvider.logout := Return true
|}.

(** A camera whose snapshot request fails with the error [error]. *)
Definition busy_camera (error : string) : IpcProvider.t := {|
  IpcProvider.ip_address := "203.0.113.9";
  IpcProvider.connect := Return tt;
  IpcProvider.get := fun _ _ => Return video_info;
  IpcProvider.post := fun _ _ => Return (capture_reply error "");
  IpcProvider.logout := Return true
|}.

(** The transport [ipc] on a session that cannot be closed: [logout]
    raises [e]. *)
Definition failing_logout (e : exn) (ipc : IpcProvider.t) : IpcProvider.t := {|
  IpcProvider.ip_address := IpcProvider.ip_address ipc;
  IpcProvider.connect := IpcProvider.connect ipc;
  IpcProvider.get := IpcProvider.get ipc;
  IpcProvider.post := IpcProvider.post ipc;
  IpcProvider.logout := Raise e
|}.

(** The client of the sample camera after the capability refresh of
    [connect]. *)
Definition refreshed (ip stream_url : string) (ok : bool) : CameraClient :=
  snd (fst (_get_supported_params (__init__ (sample_camera ip stream_url ok)))).

(** The client of the sample camera once preview and analytics have been
    switched on. *)
Definition streaming (ip stream_url : string) : CameraClient :=
  snd (fst ((set_preview_state "on" ;; set_analytics_state "on")
              (refreshed ip stream_url true))).

(** A decoder that starts on every URL and yields one frame list. *)
Definition sample_start (_ : VideoInferenceIterator.t) (_ : string)
  : outcome (list nat) := Return [7%nat].

(** ** The overlay configuration

    [configure_overlay] and its two helpers read and write no attribute
    of the client: they build a payload, post it and return the [status] of
    the answer.  They are embedded on their own, as the outcome of the call
    and the list of the calls made to the transport and to the logger. *)

Module Overlay.

(** The payload of [/overlayconfig] (a Python dict literal); [ov_usertext]
    holds the caller's [text], which may be [None]. *)
Record payload : Type := {
  ov_type_SelectVal : Z;
  ov_position_SelectVal : Z;
  ov_color : string;
  ov_usertext : option string;
  ov_start_x : Z;
  ov_start_y : Z;
  ov_width : Z;
  ov_height : Z
}.

Inductive event : Type :=
| EvPost (path : string) (p : payload)
| EvLogError (msg : string).

Section Methods.

(** Modelled from the spec: [ipc_provider.post] on an overlay payload,
    answered by a response or by an exception. *)
Variable post : string -> payload -> outcome response.

Definition _configure_inference_overlay : outcome bool * list event :=
  let path := "/overlayconfig" in
  let payload := {|
    ov_type_SelectVal := 5;
    ov_position_SelectVal := 0;
    ov_color := "869007615";
    ov_usertext := Some "Text";
    ov_start_x := 0;
    ov_start_y := 0;
    ov_width := 0;
    ov_height := 0
  |} in
  match post path payload with
  | Return response => (Return (status response), [EvPost path payload])
  | Raise e => (Raise e, [EvPost path payload])
  end.

Definition _configure_text_overlay (text : option string)
  : outcome bool * list event :=
  let path := "/overlayconfig" in
  let payload := {|
    ov_type_SelectVal := 0;
    ov_position_SelectVal := 0;
    ov_color := "869007615";
    ov_usertext := text;
    ov_start_x := 0;
    ov_start_y := 0;
    ov_width := 0;
    ov_height := 0
  |} in
  match post path payload with
  | Return response => (Return (status response), [EvPost path payload])
  | Raise e => (Raise e, [EvPost path payload])
  end.

(** The value returned by a helper, as [configure_overlay] returns it. *)
Definition returned (r : outcome bool * list event)
  : outcome (option bool) * list event :=
  match r with
  | (Return b, tr) => (Return (Some b), tr)
  | (Raise e, tr) => (Raise e, tr)
  end.

(** [configure_overlay(type=None, text=None)]: the last branch logs and
    falls off the end of the function, which returns [None]. *)
Definition configure_overlay (type text : option string)
  : outcome (option bool) * list event :=
  match type with
  | Some kind =>
      if kind =? "inference" then returned _configure_inference_overlay
      else if kind =? "text" then returned (_configure_text_overlay text)
      else (Return None, [EvLogError "Invalid overlay type use (inference/text)"])
  | None => (Return None, [EvLogError "Invalid overlay type use (inference/text)"])
  end.

End Methods.

Definition posts (tr : list event) : list event :=
  filter (fun ev => match ev with EvPost _ _ => true | _ => false end) tr.

End Overlay.

(** ** The sample driver: [Inference]

    [main_local.py] wraps each object of a frame in an [Inference], whose
    label is the label of the object stripped of the characters of
    [" .\t\n"] at both ends. *)

Module Driver.

(** [c in chars] for a character. *)
Fixpoint mem (c : ascii) (chars : string) : bool :=
  match chars with
  | EmptyString => false
  | String d t => Ascii.eqb d c || mem c t
  end.

(** [s.lstrip(chars)] *)
Fixpoint lstrip (chars s : string) : string :=
  match s with
  | EmptyString => EmptyString
  | String c t => if mem c chars then lstrip chars t else s
  end.

(** [s.rstrip(chars)] *)
Fixpoint rstrip (chars s : string) : string :=
  match s with
  | EmptyString => EmptyString
  | String c t =>
      match rstrip chars t with
      | EmptyString => if mem c chars then EmptyString else String c EmptyString
      | String d t' => String c (String d t')
      end
  end.

(** [s.strip(chars)] *)
Definition strip (chars s : string) : string := rstrip chars (lstrip chars s).

(** The characters of the literal [" .\t\n"]. *)
Definition junk : string :=
  String " " (String "." (String (ascii_of_nat 9) (String (ascii_of_nat 10) ""))).

(** Modelled from the spec: the objects of a frame come from the stream
    decoder, which is not part of the sources; the types of their
    identifier, confidence and coordinates are left open. *)
Module Position.
Record t (Coordinate : Type) : Type := {
  x : Coordinate; y : Coordinate; width : Coordinate; height : Coordinate
}.
Arguments x {Coordinate} _.
Arguments y {Coordinate} _.
Arguments width {Coordinate} _.
Arguments height {Coordinate} _.
End Position.

Module InferenceObject.
Record t (Id Confidence Coordinate : Type) : Type := {
  id : Id;
  label : string;
  confidence : Confidence;
  position : Position.t Coordinate
}.
Arguments id {Id Confidence Coordinate} _.
Arguments label {Id Confidence Coordinate} _.
Arguments confidence {Id Confidence Coordinate} _.
Arguments position {Id Confidence Coordinate} _.
End InferenceObject.

(** The attributes of an [Inference]. *)
Record Inference (Id Confidence Coordinate : Type) : Type := {
  id : Id;
  label : string;
  confidence : Confidence;
  position_x : Coordinate;
  position_y : Coordinate;
  width : Coordinate;
  height : Coordinate
}.
Arguments id {Id Confidence Coordinate} _.
Arguments label {Id Confidence Coordinate} _.
Arguments confidence {Id Confidence Coordinate} _.
Arguments position_x {Id Confidence Coordinate} _.
Arguments position_y {Id Confidence Coordinate} _.
Arguments width {Id Confidence Coordinate} _.
Arguments height {Id Confidence Coordinate} _.

(** [Inference.__init__] *)
Definition Inference__init__ {Id Confidence Coordinate : Type}
    (inference_object : InferenceObject.t Id Confidence Coordinate)
  : Inference Id Confidence Coordinate := {|
  id := InferenceObject.id inference_object;
  label := strip junk (InferenceObject.label inference_object);
  confidence := InferenceObject.confidence inference_object;
  position_x := Position.x (InferenceObject.position inference_object);
  position_y := Position.y (InferenceObject.position inference_object);
  width := Position.width (InferenceObject.position inference_object);
  height := Position.height (InferenceObject.position inference_object)
|}.

(** A string made of characters of [chars] only. *)
Fixpoint all_in (chars s : string) : bool :=
  match s with
  | EmptyString => true
  | String c t => mem c chars && all_in chars t
  end.

(** The first and the last character of a string, if any. *)
Definition first_char (s : string) : option ascii :=
  match s with
  | EmptyString => None
  | String c _ => Some c
  end.

Fixpoint last_char (s : string) : option ascii :=
  match s with
  | EmptyString => None
  | String c EmptyString => Some c
  | String _ t => last_char t
  end.

End Driver.

(** ** Vocabulary of the further properties *)

(** Every current value is an entry of its capability list. *)
Definition consistent (self : CameraClient) : Prop :=
  py_in String.eqb (cur_resolution self) (resolutions self) = true /\
  py_in String.eqb (cur_codec self) (encodetype self) = true /\
  py_in String.eqb (cur_bitrate self) (bitrates self) = true /\
  py_in Z.eqb (cur_framerate self) (framerates self) = true.

(** Two clients with the same transport and the same capability lists. *)
Definition same_capabilities (self self' : CameraClient) : Prop :=
  ipc_provider self' = ipc_provider self /\
  resolutions self' = resolutions self /\
  encodetype self' = encodetype self /\
  bitrates self' = bitrates self /\
  framerates self' = framerates self.

(** Two clients with the same mirrored configuration. *)
Definition same_current (self self' : CameraClient) : Prop :=
  cur_resolution self' = cur_resolution self /\
  cur_codec self' = cur_codec self /\
  cur_bitrate self' = cur_bitrate self /\
  cur_framerate self' = cur_framerate self /\
  display_out self' = display_out self.

(** A requested value that [select_index] takes: true and held by the
    capability list. *)
Definition valid_request {A} (eqb : A -> A -> bool) (truthy : option A -> bool)
    (requested : option A) (caps : list A) (v : A) : Prop :=
  requested = Some v /\ truthy requested = true /\ py_in eqb v caps = true.

(** The requests of a trace, in order. *)
Definition requests (tr : list event) : list event := filter is_request tr.

(** The entries a trace holds for [logger.error]. *)
Definition error_logs (tr : list event) : list event :=
  filter (fun ev => match ev with EvLogError _ _ => true | _ => false end) tr.

(** The entries a trace holds for [logger.info]. *)
Definition info_logs (tr : list event) : list event :=
  filter (fun ev => match ev with EvLogInfo _ _ => true | _ => false end) tr.

(** The flag [configure_preview] submits for a requested [display_out] and
    the log entry it makes on the way. *)
Definition display_choice (requested : option Z) (cur : Z) : Z * list event :=
  match requested with
  | Some d =>
      if py_in Z.eqb d [0; 1]%Z then (d, [])
      else (cur, [EvLogError "Invalid value: display_out should 0/1 got: %s"
                    [LInt d]])
  | None =>
      (cur, [EvLogError "Invalid value: display_out should 0/1 got: %s" [LNone]])
  end.

(** The client with the five mirrored values written. *)
Definition updated (self : CameraClient) (r e b : string) (f d : Z)
  : CameraClient :=
  set_display_out d (set_cur_framerate f (set_cur_bitrate b
    (set_cur_codec e (set_cur_resolution r self)))).

(** The log entries for the mirrored values that differ from [r], [e],
    [b], [f], [d]. *)
Definition changes (self : CameraClient) (r e b : string) (f d : Z)
  : list event :=
  (if cur_resolution self =? r then []
   else [EvLogInfo "resolution now: %s" [LStr r]]) ++
  (if cur_codec self =? e then []
   else [EvLogInfo "encodetype now: %s" [LStr e]]) ++
  (if cur_bitrate self =? b then []
   else [EvLogInfo "bitrate now : %s" [LStr b]]) ++
  (if (cur_framerate self =? f)%Z then []
   else [EvLogInfo "framerate now: %s" [LInt f]]) ++
  (if (display_out self =? d)%Z then []
   else [EvLogInfo "display_out now: %s" [LInt d]]).

(** The client [self] at a time when its transport answers as [ipc].  The
    attribute [ipc_provider] holds the same object all along; what the
    device answers through it at a later call need not be what it
    answered before. *)
Definition answering (ipc : IpcProvider.t) (self : CameraClient)
  : CameraClient := {|
  ipc_provider := ipc;
  preview_running := preview_running self;
  preview_url := preview_url self;
  vam_running := vam_running self;
  vam_url := vam_url self;
  record_running := record_running self;
  resolutions := resolutions self;
  encodetype := encodetype self;
  bitrates := bitrates self;
  framerates := framerates self;
  cur_resolution := cur_resolution self;
  cur_codec := cur_codec self;
  cur_bitrate := cur_bitrate self;
  cur_framerate := cur_framerate self;
  display_out := display_out self
|}.

(** Two clients with the same stream state. *)
Definition same_streams (self self' : CameraClient) : Prop :=
  preview_running self' = preview_running self /\
  preview_url self' = preview_url self /\
  vam_running self' = vam_running self /\
  vam_url self' = vam_url self /\
  record_running self' = record_running self.

(** How a [display_out] argument is shown by ["%s"]. *)
Definition opt_int (o : option Z) : logarg :=
  match o with
  | Some z => LInt z
  | None => LNone
  end.

(** The client with the capability lists of the response [r] and the
    selected entries [vr], [ve], [vb], [vf] written, in the order of
    [_get_supported_params]. *)
Definition loaded (self : CameraClient) (r : response) (vr ve vb : string)
    (vf : Z) : CameraClient :=
  set_display_out (displayOut r)
    (set_cur_framerate vf (set_framerates (fps r)
       (set_cur_bitrate vb (set_bitrates (bitRate r)
          (set_cur_codec ve (set_encodetype (encodeMode r)
             (set_cur_resolution vr (set_resolutions (resolution r) self)))))))).

(** The position that [l[i]] reads for an index [i] in range: [i] itself,
    or [len(l) + i] for a negative [i]. *)
Definition py_position {A} (l : list A) (i : Z) : nat :=
  if (0 <=? i)%Z then Z.to_nat i else Z.to_nat (Z.of_nat (List.length l) + i).

(** A token that the switches recognise, with the target it stands
    for. *)
Definition recognised (state : string) (target : bool) : Prop :=
  (PyStr.lower state = "on" /\ target = true) \/
  (PyStr.lower state = "off" /\ target = false).

(** A response whose [url], when there is one, has a colon. *)
Definition url_resolvable (r : response) : Prop :=
  match url r with
  | None => True
  | Some raw => PyStr.contains ":" raw = true
  end.

(** [keeps R m]: however [m] ends, the client it leaves is related by [R]
    to the client it started on. *)
Definition keeps (R : CameraClient -> CameraClient -> Prop) {A} (m : M A)
  : Prop :=
  forall self o self' tr, m self = (o, self', tr) -> R self self'.

(** [preserves P m]: however [m] ends, it leaves a client with the property
    [P] when it started on one. *)
Definition preserves (P : CameraClient -> Prop) {A} (m : M A) : Prop :=
  keeps (fun self self' => P self -> P self') m.

(** A client whose analytics URL is not the empty string while analytics
    are marked as running. *)
Definition vam_url_known (self : CameraClient) : Prop :=
  vam_running self = true -> vam_url self <> Some "".

(** The clients that differ at most in [preview_running] and
    [preview_url]. *)
Definition only_preview (self self' : CameraClient) : Prop :=
  same_capabilities self self' /\ same_current self self' /\
  vam_running self' = vam_running self /\ vam_url self' = vam_url self /\
  record_running self' = record_running self.

(** The clients that differ at most in [vam_running] and [vam_url]. *)
Definition only_vam (self self' : CameraClient) : Prop :=
  same_capabilities self self' /\ same_current self self' /\
  preview_running self' = preview_running self /\
  preview_url self' = preview_url self /\
  record_running self' = record_running self.

(** The clients that differ at most in [record_running]. *)
Definition only_record (self self' : CameraClient) : Prop :=
  same_capabilities self self' /\ same_current self self' /\
  preview_running self' = preview_running self /\
  preview_url self' = preview_url self /\
  vam_running self' = vam_running self /\ vam_url self' = vam_url self.

(** ** Further sample clients *)

(** The default client used in the examples of the further properties. *)
Definition sample_client : CameraClient :=
  refreshed "203.0.113.9" "rtsp://10.0.0.5:8554/live" true.

(** A client whose device lists the frame rate [0] and the resolution
    [""] next to usable values. *)
Definition zero_rate_client : CameraClient :=
  set_resolutions [""; "1080P"] (set_framerates [0; 30]%Z sample_client).

(** A camera that answers the capability query with [info] and every
    [POST] with the status [ok]. *)
Definition camera_reporting (info : response) (ok : bool) : IpcProvider.t := {|
  IpcProvider.ip_address := "203.0.113.9";
  IpcProvider.connect := Return tt;
  IpcProvider.get := fun _ _ => Return info;
  IpcProvider.post := fun _ _ => Return (ack ok);
  IpcProvider.logout := Return true
|}.

(** A capability report that selects the last frame rate by the index
    [-1]. *)
Definition video_info_last_rate : response := {|
  status := true; url := None;
  resolution := ["4K"; "1080P"; "720P"; "480P"]; resolutionSelectVal := 1;
  encodeMode := ["HEVC/H.265"; "AVC/H.264"]; encodeModeSelectVal := 1;
  bitRate := ["512Kbps"; "768Kbps"; "1Mbps"]; bitRateSelectVal := 2;
  fps := [24; 30]%Z; fpsSelectVal := (-1);
  displayOut := 1; Error := "none"; Data := ""
|}.

(** A capability report whose codec index is out of range. *)
Definition video_info_bad_codec : response := {|
  status := true; url := None;
  resolution := ["4K"; "1080P"]; resolutionSelectVal := 0;
  encodeMode := ["HEVC/H.265"; "AVC/H.264"]; encodeModeSelectVal := 2;
  bitRate := ["1Mbps"]; bitRateSelectVal := 0;
  fps := [24; 30]%Z; fpsSelectVal := 0;
  displayOut := 0; Error := "none"; Data := ""
|}.

(** A camera that accepts every switch but reports, when queried, a
    stream that is not running and has no URL. *)
Definition stalled_camera : IpcProvider.t := {|
  IpcProvider.ip_address := "203.0.113.9";
  IpcProvider.connect := Return tt;
  IpcProvider.get := fun _ _ => Return (ack false);
  IpcProvider.post := fun _ _ => Return (ack true);
  IpcProvider.logout := Return true
|}.

(** A camera that reports the stream URL ["live"], which has no colon. *)
Definition colonless_camera : IpcProvider.t := {|
  IpcProvider.ip_address := "203.0.113.9";
  IpcProvider.connect := Return tt;
  IpcProvider.get := fun _ _ => Return (stream_info true "live");
  IpcProvider.post := fun _ _ => Return (ack true);
  IpcProvider.logout := Return true
|}.

(** * Properties *)

(** ** Lists and strings *)

Lemma py_index_nth {A} (eqb : A -> A -> bool) (x : A) (l : list A) (i : nat) :
  py_index eqb x l = Some i ->
  exists y, nth_error l i = Some y /\ eqb y x = true.
Proof.
  revert i; induction l as [|y t IH]; intros i; simpl; [discriminate|].
  destruct (eqb y x) eqn:E.
  - intros [= <-]. exists y; auto.
  - destruct (py_index eqb x t) as [j|]; simpl; [|discriminate].
    intros [= <-]. simpl. apply IH; reflexivity.
Qed.

Lemma py_index_None {A} (eqb : A -> A -> bool) (x : A) (l : list A) :
  py_index eqb x l = None <-> py_in eqb x l = false.
Proof.
  unfold py_in. induction l as [|y t IH]; simpl; [tauto|].
  destruct (eqb y x); simpl.
  - split; discriminate.
  - destruct (py_index eqb x t); simpl in *.
    + split; [discriminate|]. intros H; apply IH in H; discriminate.
    + tauto.
Qed.

Lemma py_index_nth_str (x : string) (l : list string) (i : nat) :
  py_index String.eqb x l = Some i -> nth_error l i = Some x.
Proof.
  intros H. apply py_index_nth in H as (y & Hy & E).
  apply String.eqb_eq in E. congruence.
Qed.

Lemma py_index_nth_Z (x : Z) (l : list Z) (i : nat) :
  py_index Z.eqb x l = Some i -> nth_error l i = Some x.
Proof.
  intros H. apply py_index_nth in H as (y & Hy & E).
  apply Z.eqb_eq in E. congruence.
Qed.

Lemma py_getitem_of_nat {A} (l : list A) (i : nat) :
  py_getitem l (Z.of_nat i) = nth_error l i.
Proof.
  unfold py_getitem.
  destruct (Z.leb_spec 0 (Z.of_nat i)); [|lia].
  now rewrite Nat2Z.id.
Qed.

(** ** Running a method *)

Lemma bind_Return {A B} (m : M A) (k : A -> M B) self a self' tr :
  m self = (Return a, self', tr) ->
  bind m k self =
  (let '(o, self'', tr') := k a self' in (o, self'', tr ++ tr')).
Proof. unfold bind; intros ->; reflexivity. Qed.

Lemma bind_Raise {A B} (m : M A) (k : A -> M B) self e self' tr :
  m self = (Raise e, self', tr) ->
  bind m k self = (Raise e, self', tr).
Proof. unfold bind; intros ->; reflexivity. Qed.

Lemma index_of_run {A} (eqb : A -> A -> bool) (x : A) (l : list A) self :
  index_of eqb x l self =
  (match py_index eqb x l with
   | Some i => Return i
   | None => Raise ValueError
   end, self, []).
Proof. unfold index_of. destruct (py_index eqb x l); reflexivity. Qed.

Lemma select_index_run {A} (eqb : A -> A -> bool) truthy requested caps cur self :
  select_index eqb truthy requested caps cur self =
  (match py_index eqb (looked_up eqb truthy requested caps cur) caps with
   | Some i => Return i
   | None => Raise ValueError
   end, self, []).
Proof.
  unfold select_index, looked_up. destruct requested as [v|].
  - destruct (truthy (Some v) && nonempty caps && py_in eqb v caps);
      apply index_of_run.
  - apply index_of_run.
Qed.

Lemma looked_up_fallback {A} (eqb : A -> A -> bool) truthy requested caps cur :
  absent_or_not_member eqb requested caps ->
  looked_up eqb truthy requested caps cur = cur.
Proof.
  unfold absent_or_not_member, looked_up. destruct requested as [v|]; auto.
  intros ->. now rewrite andb_false_r.
Qed.

Lemma select_display_out_run requested cur self :
  exists d logs,
    select_display_out requested cur self = (Return d, self, logs) /\
    forallb (fun ev => negb (is_request ev)) logs = true.
Proof.
  unfold select_display_out. destruct requested as [d|].
  - destruct (py_in Z.eqb d [0; 1]%Z).
    + exists d, []. split; reflexivity.
    + eexists cur, _. split; reflexivity.
  - eexists cur, _. split; reflexivity.
Qed.

Lemma getitem_run {A} (l : list A) (i : nat) (x : A) self :
  nth_error l i = Some x ->
  getitem l (Z.of_nat i) self = (Return x, self, []).
Proof. intros H. unfold getitem. now rewrite py_getitem_of_nat, H. Qed.

Lemma when_assign_run (c : bool) (f : CameraClient -> CameraClient)
    (fmt : string) (args : list logarg) self :
  when c (assign f ;; log_info fmt args) self =
  (Return tt, (if c then f self else self),
   (if c then [EvLogInfo fmt args] else [])).
Proof. destruct c; reflexivity. Qed.

Lemma update_current_run self res enc bit fps d r e b f :
  nth_error (resolutions self) res = Some r ->
  nth_error (encodetype self) enc = Some e ->
  nth_error (bitrates self) bit = Some b ->
  nth_error (framerates self) fps = Some f ->
  exists infos,
    no_request infos /\
    update_current res enc bit fps d self =
    (Return tt,
     set_display_out d (set_cur_framerate f (set_cur_bitrate b
       (set_cur_codec e (set_cur_resolution r self)))),
     infos).
Proof.
  intros Hr He Hb Hf. unfold update_current.
  rewrite (bind_Return _ _ self self self [] eq_refl).
  rewrite (bind_Return _ _ _ _ _ _ (getitem_run _ _ _ self Hr)).
  rewrite (bind_Return _ _ _ _ _ _ (when_assign_run _ _ _ _ _)).
  rewrite (bind_Return _ _ _ _ _ _ (getitem_run _ _ _ _ He)).
  rewrite (bind_Return _ _ _ _ _ _ (when_assign_run _ _ _ _ _)).
  rewrite (bind_Return _ _ _ _ _ _ (getitem_run _ _ _ _ Hb)).
  rewrite (bind_Return _ _ _ _ _ _ (when_assign_run _ _ _ _ _)).
  rewrite (bind_Return _ _ _ _ _ _ (getitem_run _ _ _ _ Hf)).
  rewrite (bind_Return _ _ _ _ _ _ (when_assign_run _ _ _ _ _)).
  rewrite when_assign_run.
  cbv beta iota.
  eexists; split; cycle 1.
  - apply f_equal2; [apply f_equal2; [reflexivity|]|reflexivity].
    destruct (String.eqb_spec (cur_resolution self) r),
      (String.eqb_spec (cur_codec self) e),
      (String.eqb_spec (cur_bitrate self) b),
      (Z.eqb_spec (cur_framerate self) f),
      (Z.eqb_spec (display_out self) d);
      destruct self; simpl in *; subst; reflexivity.
  - unfold no_request.
    destruct (cur_resolution self =? r), (cur_codec self =? e),
      (cur_bitrate self =? b), (cur_framerate self =? f)%Z,
      (display_out self =? d)%Z; reflexivity.
Qed.

Lemma configure_preview_run resolution encode bitrate framerate display_out_arg self :
  let run := configure_preview resolution encode bitrate framerate
               display_out_arg self in
  let ix {A} (eqb : A -> A -> bool) truthy requested caps cur :=
    py_index eqb (looked_up eqb truthy requested caps cur) caps in
  let ires := ix String.eqb truthy_str resolution (resolutions self) (cur_resolution self) in
  let ienc := ix String.eqb truthy_str encode (encodetype self) (cur_codec self) in
  let ibit := ix String.eqb truthy_str bitrate (bitrates self) (cur_bitrate self) in
  let ifps := ix Z.eqb truthy_int framerate (framerates self) (cur_framerate self) in
  ((ires = None \/ ienc = None \/ ibit = None \/ ifps = None) /\
   run = (Raise ValueError, self, []))
  \/
  exists res enc bit fps d logs,
    ires = Some res /\ ienc = Some enc /\ ibit = Some bit /\ ifps = Some fps /\
    no_request logs /\
    let p := VideoSelect res enc bit fps d in
    let sent := logs ++ [EvPost "/video" p] in
    ((exists e, IpcProvider.post (ipc_provider self) "/video" p = Raise e /\
                run = (Raise e, self, sent))
     \/
     (exists r, IpcProvider.post (ipc_provider self) "/video" p = Return r /\
                status r = false /\ run = (Return false, self, sent))
     \/
     (exists r self' infos,
         IpcProvider.post (ipc_provider self) "/video" p = Return r /\
         status r = true /\ no_request infos /\
         mirrors self self' res enc bit fps d /\
         run = (Return true, self', sent ++ infos))).
Proof.
  cbv zeta.
  unfold configure_preview.
  rewrite (bind_Return _ _ self self self [] eq_refl).
  pose proof (select_index_run String.eqb truthy_str resolution
                (resolutions self) (cur_resolution self) self) as Hres.
  pose proof (select_index_run String.eqb truthy_str encode
                (encodetype self) (cur_codec self) self) as Henc.
  pose proof (select_index_run String.eqb truthy_str bitrate
                (bitrates self) (cur_bitrate self) self) as Hbit.
  pose proof (select_index_run Z.eqb truthy_int framerate
                (framerates self) (cur_framerate self) self) as Hfps.
  destruct (py_index String.eqb (looked_up _ _ resolution _ _) _) as [res|] eqn:Eres;
    [rewrite (bind_Return _ _ _ _ _ _ Hres)
    |rewrite (bind_Raise _ _ _ _ _ _ Hres); left; split; [auto|reflexivity]].
  destruct (py_index String.eqb (looked_up _ _ encode _ _) _) as [enc|] eqn:Eenc;
    [rewrite (bind_Return _ _ _ _ _ _ Henc)
    |rewrite (bind_Raise _ _ _ _ _ _ Henc); left; split; [auto|reflexivity]].
  destruct (py_index String.eqb (looked_up _ _ bitrate _ _) _) as [bit|] eqn:Ebit;
    [rewrite (bind_Return _ _ _ _ _ _ Hbit)
    |rewrite (bind_Raise _ _ _ _ _ _ Hbit); left; split; [auto|reflexivity]].
  destruct (py_index Z.eqb (looked_up _ _ framerate _ _) _) as [fps|] eqn:Efps;
    [rewrite (bind_Return _ _ _ _ _ _ Hfps)
    |rewrite (bind_Raise _ _ _ _ _ _ Hfps); left; split; [auto 6|reflexivity]].
  right.
  destruct (select_display_out_run display_out_arg (display_out self) self)
    as (d & logs & Hd & Hlogs).
  exists res, enc, bit, fps, d, logs.
  repeat (split; [reflexivity || assumption|]).
  rewrite (bind_Return _ _ _ _ _ _ Hd).
  cbv zeta.
  pose proof (py_index_nth_str _ _ _ Eres) as Nres.
  pose proof (py_index_nth_str _ _ _ Eenc) as Nenc.
  pose proof (py_index_nth_str _ _ _ Ebit) as Nbit.
  pose proof (py_index_nth_Z _ _ _ Efps) as Nfps.
  destruct (update_current_run self res enc bit fps d _ _ _ _ Nres Nenc Nbit Nfps)
    as (infos & Hinfos & Hupd).
  set (p := VideoSelect res enc bit fps d) in *.
  assert (Hpost : ipc_post "/video" p self =
                  (IpcProvider.post (ipc_provider self) "/video" p, self,
                   [EvPost "/video" p])) by reflexivity.
  destruct (IpcProvider.post (ipc_provider self) "/video" p) as [r|e].
  - rewrite (bind_Return _ _ _ _ _ _ Hpost).
    destruct (status r) eqn:Hst.
    + right; right. eexists r, _, infos.
      repeat (split; [reflexivity || assumption|]).
      split; [do 4 eexists; repeat (split; [eassumption|]); reflexivity|].
      unfold when. rewrite (bind_Return _ _ _ _ _ _ Hupd).
      unfold ret; cbv beta iota. cbn [app].
      now rewrite app_nil_r, <- app_assoc.
    + right; left. exists r. repeat (split; [reflexivity || assumption|]).
      unfold when, ret, bind; cbv beta iota. cbn [app].
      rewrite ?app_nil_r; reflexivity.
  - left. exists e. split; [reflexivity|].
    rewrite (bind_Raise _ _ _ _ _ _ Hpost). reflexivity.
Qed.

Lemma no_request_In tr ev : no_request tr -> In ev tr -> is_request ev = false.
Proof.
  unfold no_request. rewrite forallb_forall. intros H Hin.
  apply H in Hin. now destruct (is_request ev).
Qed.

Lemma In_sent logs infos path p ev :
  no_request logs -> no_request infos -> is_request ev = true ->
  In ev ((logs ++ [EvPost path p]) ++ infos) -> ev = EvPost path p.
Proof.
  intros Hl Hi Hev Hin.
  rewrite !in_app_iff in Hin. destruct Hin as [[Hin|[Hin|[]]]|Hin]; auto.
  - apply (no_request_In _ _ Hl) in Hin. congruence.
  - apply (no_request_In _ _ Hi) in Hin. congruence.
Qed.

(** What a [POST] found in the trace of [configure_preview] tells: it is
    the one request of the call, it carries the four looked-up indices, and
    the call ended in one of three ways. *)
Lemma configure_preview_post_inv resolution encode bitrate framerate
    display_out_arg self o self' tr path q :
  configure_preview resolution encode bitrate framerate display_out_arg self
    = (o, self', tr) ->
  In (EvPost path q) tr ->
  exists res enc bit fps d,
    path = "/video" /\ q = VideoSelect res enc bit fps d /\
    py_index String.eqb
      (looked_up String.eqb truthy_str resolution (resolutions self)
         (cur_resolution self)) (resolutions self) = Some res /\
    py_index String.eqb
      (looked_up String.eqb truthy_str encode (encodetype self)
         (cur_codec self)) (encodetype self) = Some enc /\
    py_index String.eqb
      (looked_up String.eqb truthy_str bitrate (bitrates self)
         (cur_bitrate self)) (bitrates self) = Some bit /\
    py_index Z.eqb
      (looked_up Z.eqb truthy_int framerate (framerates self)
         (cur_framerate self)) (framerates self) = Some fps /\
    (forall ev, In ev tr -> is_request ev = true -> ev = EvPost path q) /\
    ((exists e, IpcProvider.post (ipc_provider self) path q = Raise e /\
                o = Raise e /\ self' = self)
     \/
     (exists r, IpcProvider.post (ipc_provider self) path q = Return r /\
                status r = false /\ o = Return false /\ self' = self)
     \/
     (exists r, IpcProvider.post (ipc_provider self) path q = Return r /\
                status r = true /\ o = Return true /\
                mirrors self self' res enc bit fps d)).
Proof.
  intros Hrun Hin.
  destruct (configure_preview_run resolution encode bitrate framerate
              display_out_arg self)
    as [[_ Hfail]|(res & enc & bit & fps & d & logs & Hres & Henc & Hbit
                   & Hfps & Hlogs & Hcases)];
    cbv zeta in *.
  - rewrite Hrun in Hfail. injection Hfail as _ _ ->. destruct Hin.
  - exists res, enc, bit, fps, d.
    assert (Hsent : forall infos, no_request infos ->
              tr = (logs ++ [EvPost "/video" (VideoSelect res enc bit fps d)])
                   ++ infos ->
              EvPost path q = EvPost "/video" (VideoSelect res enc bit fps d) /\
              forall ev, In ev tr -> is_request ev = true ->
                         ev = EvPost "/video" (VideoSelect res enc bit fps d)).
    { intros infos Hinfos ->. split.
      - apply (In_sent logs infos); auto.
      - intros ev Hev Hreq. apply (In_sent logs infos); auto. }
    destruct Hcases as [(e & Hpost & Heq)|[(r & Hpost & Hst & Heq)
                       |(r & s & infos & Hpost & Hst & Hinfos & Hmir & Heq)]];
      rewrite Hrun in Heq; injection Heq as -> -> Htr.
    + destruct (Hsent [] eq_refl) as [[= -> ->] Hall];
        [now rewrite app_nil_r|].
      repeat (split; [reflexivity || assumption|]).
      left. exists e. auto.
    + destruct (Hsent [] eq_refl) as [[= -> ->] Hall];
        [now rewrite app_nil_r|].
      repeat (split; [reflexivity || assumption|]).
      right; left. exists r. auto.
    + destruct (Hsent infos Hinfos Htr) as [[= -> ->] Hall].
      repeat (split; [reflexivity || assumption|]).
      right; right. exists r. auto.
Qed.

(** A call whose four lookups succeed does send its request: with no
    valid replacement requested, the current values being in their lists
    is enough. *)
Lemma configure_preview_submits resolution encode bitrate framerate
    display_out_arg self res enc bit fps :
  absent_or_not_member String.eqb resolution (resolutions self) ->
  absent_or_not_member String.eqb encode (encodetype self) ->
  absent_or_not_member String.eqb bitrate (bitrates self) ->
  absent_or_not_member Z.eqb framerate (framerates self) ->
  py_index String.eqb (cur_resolution self) (resolutions self) = Some res ->
  py_index String.eqb (cur_codec self) (encodetype self) = Some enc ->
  py_index String.eqb (cur_bitrate self) (bitrates self) = Some bit ->
  py_index Z.eqb (cur_framerate self) (framerates self) = Some fps ->
  exists d,
    In (EvPost "/video" (VideoSelect res enc bit fps d))
       (snd (configure_preview resolution encode bitrate framerate
               display_out_arg self)).
Proof.
  intros Ares Aenc Abit Afps Hres Henc Hbit Hfps.
  destruct (configure_preview_run resolution encode bitrate framerate
              display_out_arg self)
    as [[Hnone _]|(res' & enc' & bit' & fps' & d & logs & Hres' & Henc'
                   & Hbit' & Hfps' & _ & Hcases)];
    cbv zeta in *;
    rewrite (looked_up_fallback _ _ _ _ _ Ares),
            (looked_up_fallback _ _ _ _ _ Aenc),
            (looked_up_fallback _ _ _ _ _ Abit),
            (looked_up_fallback _ _ _ _ _ Afps) in *.
  - destruct Hnone as [H|[H|[H|H]]]; congruence.
  - assert (res' = res) by congruence. assert (enc' = enc) by congruence.
    assert (bit' = bit) by congruence. assert (fps' = fps) by congruence.
    subst. exists d.
    destruct Hcases as [(e & _ & ->)|[(r & _ & _ & ->)
                       |(r & s & infos & _ & _ & _ & _ & ->)]];
      cbn [snd]; rewrite !in_app_iff; cbn [In]; auto.
Qed.

(** C2: in [configure_preview], for each of [resolution], [encode],
    [bitrate] and [framerate], a requested value that is absent or that the
    capability list does not hold makes the index sent in the request to
    the device the index of the current value of that field in its
    capability list. *)
Theorem configure_preview_fallback_index resolution encode bitrate framerate
    display_out_arg self o self' tr path res enc bit fps d :
  configure_preview resolution encode bitrate framerate display_out_arg self
    = (o, self', tr) ->
  In (EvPost path (VideoSelect res enc bit fps d)) tr ->
  (absent_or_not_member String.eqb resolution (resolutions self) ->
   py_index String.eqb (cur_resolution self) (resolutions self) = Some res) /\
  (absent_or_not_member String.eqb encode (encodetype self) ->
   py_index String.eqb (cur_codec self) (encodetype self) = Some enc) /\
  (absent_or_not_member String.eqb bitrate (bitrates self) ->
   py_index String.eqb (cur_bitrate self) (bitrates self) = Some bit) /\
  (absent_or_not_member Z.eqb framerate (framerates self) ->
   py_index Z.eqb (cur_framerate self) (framerates self) = Some fps).
Proof.
  intros Hrun Hin.
  destruct (configure_preview_post_inv _ _ _ _ _ _ _ _ _ _ _ Hrun Hin)
    as (res' & enc' & bit' & fps' & d' & _ & [= <- <- <- <- <-]
        & Hres & Henc & Hbit & Hfps & _).
  repeat split; intros Habs;
    rewrite (looked_up_fallback _ _ _ _ _ Habs) in *; assumption.
Qed.

Lemma configure_preview_fallback_index_witness :
  let self := refreshed "203.0.113.9" "rtsp://10.0.0.5:8554/live" true in
  let run := configure_preview None (Some "H.266") None (Some 60%Z) (Some 1%Z)
               self in
  In (EvPost "/video" (VideoSelect 1 1 2 1 1%Z)) (snd run) /\
  absent_or_not_member String.eqb None (resolutions self) /\
  absent_or_not_member String.eqb (Some "H.266") (encodetype self) /\
  absent_or_not_member Z.eqb (Some 60%Z) (framerates self) /\
  py_index String.eqb (cur_resolution self) (resolutions self) = Some 1%nat /\
  py_index String.eqb (cur_codec self) (encodetype self) = Some 1%nat /\
  py_index String.eqb (cur_bitrate self) (bitrates self) = Some 2%nat /\
  py_index Z.eqb (cur_framerate self) (framerates self) = Some 1%nat.
Proof.
  intros self run.
  assert (Hin : In (EvPost "/video" (VideoSelect 1 1 2 1 1%Z)) (snd run))
    by (vm_compute; auto).
  destruct (configure_preview_fallback_index
              None (Some "H.266") None (Some 60%Z) (Some 1%Z) self
              (fst (fst run)) (snd (fst run)) (snd run)
              "/video" 1 1 2 1 1%Z eq_refl Hin)
    as (Hres & Henc & Hbit & Hfps).
  exact (conj Hin (conj I (conj eq_refl (conj eq_refl
           (conj (Hres I) (conj (Henc eq_refl) (conj (Hbit I) (Hfps eq_refl)))))))).
Defined.

(** C10: when, for some field of [configure_preview], the capability list
    does not hold the current value and the requested value is absent or
    not a member either, the call raises the [ValueError] of the list
    lookup with no request sent and the client untouched; it does not
    return [False].  This is what every call does on the client as
    [__init__] leaves it, where the four lists are empty. *)
Theorem configure_preview_raises_without_current :
  (forall resolution encode bitrate framerate display_out_arg self,
      (py_in String.eqb (cur_resolution self) (resolutions self) = false /\
       absent_or_not_member String.eqb resolution (resolutions self)) \/
      (py_in String.eqb (cur_codec self) (encodetype self) = false /\
       absent_or_not_member String.eqb encode (encodetype self)) \/
      (py_in String.eqb (cur_bitrate self) (bitrates self) = false /\
       absent_or_not_member String.eqb bitrate (bitrates self)) \/
      (py_in Z.eqb (cur_framerate self) (framerates self) = false /\
       absent_or_not_member Z.eqb framerate (framerates self)) ->
      configure_preview resolution encode bitrate framerate display_out_arg self
      = (Raise ValueError, self, [])) /\
  (forall ipc resolution encode bitrate framerate display_out_arg,
      configure_preview resolution encode bitrate framerate display_out_arg
        (__init__ ipc)
      = (Raise ValueError, __init__ ipc, [])).
Proof.
  assert (Hgen : forall resolution encode bitrate framerate display_out_arg self,
      (py_in String.eqb (cur_resolution self) (resolutions self) = false /\
       absent_or_not_member String.eqb resolution (resolutions self)) \/
      (py_in String.eqb (cur_codec self) (encodetype self) = false /\
       absent_or_not_member String.eqb encode (encodetype self)) \/
      (py_in String.eqb (cur_bitrate self) (bitrates self) = false /\
       absent_or_not_member String.eqb bitrate (bitrates self)) \/
      (py_in Z.eqb (cur_framerate self) (framerates self) = false /\
       absent_or_not_member Z.eqb framerate (framerates self)) ->
      configure_preview resolution encode bitrate framerate display_out_arg self
      = (Raise ValueError, self, [])).
  { intros resolution encode bitrate framerate display_out_arg self H.
    destruct (configure_preview_run resolution encode bitrate framerate
                display_out_arg self)
      as [[_ Hfail]|(res & enc & bit & fps & d & logs & Hres & Henc & Hbit
                     & Hfps & _)];
      cbv zeta in *; [exact Hfail|exfalso].
    destruct H as [[Hcur Habs]|[[Hcur Habs]|[[Hcur Habs]|[Hcur Habs]]]];
      apply py_index_None in Hcur;
      rewrite (looked_up_fallback _ _ _ _ _ Habs) in *; congruence. }
  split; [exact Hgen|].
  intros ipc resolution encode bitrate framerate display_out_arg.
  apply Hgen. left. split; [reflexivity|].
  destruct resolution; exact eq_refl || exact I.
Qed.

Lemma configure_preview_raises_without_current_witness :
  let self := __init__ (sample_camera "203.0.113.9" "rtsp://10.0.0.5:8554/live" true) in
  (py_in String.eqb (cur_resolution self) (resolutions self) = false /\
   absent_or_not_member String.eqb (Some "720P") (resolutions self)) /\
  configure_preview (Some "720P") None None None (Some 1%Z) self
  = (Raise ValueError, self, []).
Proof.
  intros self.
  assert (H : py_in String.eqb (cur_resolution self) (resolutions self) = false /\
              absent_or_not_member String.eqb (Some "720P") (resolutions self))
    by (split; reflexivity).
  split; [exact H|].
  exact (proj1 configure_preview_raises_without_current
           (Some "720P") None None None (Some 1%Z) self (or_introl H)).
Defined.

(** C3: [configure_preview] leaves the mirrored configuration
    ([cur_resolution], [cur_codec], [cur_bitrate], [cur_framerate],
    [display_out]) as it was unless the device answered the request with a
    true [status]: a false [status] leaves the whole client unchanged and
    returns [False]; after a true [status] every mirrored value is the
    entry of its capability list at the index that was submitted, the flag
    is the one submitted, and no [GET] has been made. *)
Theorem configure_preview_mirror_after_ack resolution encode bitrate framerate
    display_out_arg self o self' tr :
  configure_preview resolution encode bitrate framerate display_out_arg self
    = (o, self', tr) ->
  ((cur_resolution self', cur_codec self', cur_bitrate self',
    cur_framerate self', display_out self')
   <> (cur_resolution self, cur_codec self, cur_bitrate self,
       cur_framerate self, display_out self) ->
   exists p r, In (EvPost "/video" p) tr /\
               IpcProvider.post (ipc_provider self) "/video" p = Return r /\
               status r = true) /\
  (forall p r, In (EvPost "/video" p) tr ->
               IpcProvider.post (ipc_provider self) "/video" p = Return r ->
               status r = false ->
               self' = self /\ o = Return false) /\
  (forall res enc bit fps d r,
      In (EvPost "/video" (VideoSelect res enc bit fps d)) tr ->
      IpcProvider.post (ipc_provider self) "/video"
        (VideoSelect res enc bit fps d) = Return r ->
      status r = true ->
      nth_error (resolutions self) res = Some (cur_resolution self') /\
      nth_error (encodetype self) enc = Some (cur_codec self') /\
      nth_error (bitrates self) bit = Some (cur_bitrate self') /\
      nth_error (framerates self) fps = Some (cur_framerate self') /\
      display_out self' = d /\
      o = Return true /\
      forall path p, ~ In (EvGet path p) tr).
Proof.
  intros Hrun. split; [|split].
  - intros Hneq.
    destruct (configure_preview_run resolution encode bitrate framerate
                display_out_arg self)
      as [[_ Hfail]|(res & enc & bit & fps & d & logs & _ & _ & _ & _ & _
                     & Hcases)];
      cbv zeta in *.
    + rewrite Hrun in Hfail. injection Hfail as _ -> _. now destruct Hneq.
    + destruct Hcases as [(e & _ & Heq)|[(r & _ & _ & Heq)
                         |(r & s & infos & Hpost & Hst & _ & _ & Heq)]];
        rewrite Hrun in Heq; injection Heq as Ho Hs Htr.
      * subst self'. now destruct Hneq.
      * subst self'. now destruct Hneq.
      * exists (VideoSelect res enc bit fps d), r.
        split; [|auto]. rewrite Htr, !in_app_iff. left; right; left; reflexivity.
  - intros p r Hin Hpost Hst.
    destruct (configure_preview_post_inv _ _ _ _ _ _ _ _ _ _ _ Hrun Hin)
      as (res & enc & bit & fps & d & _ & _ & _ & _ & _ & _ & _ & Hcases).
    destruct Hcases as [(e & Hp & _)|[(r' & _ & _ & Ho & Hs)
                       |(r' & Hp & Hst' & _)]]; [congruence|auto|congruence].
  - intros res enc bit fps d r Hin Hpost Hst.
    destruct (configure_preview_post_inv _ _ _ _ _ _ _ _ _ _ _ Hrun Hin)
      as (res' & enc' & bit' & fps' & d' & _ & [= <- <- <- <- <-]
          & _ & _ & _ & _ & Hall & Hcases).
    destruct Hcases as [(e & Hp & _)|[(r' & Hp & Hst' & _)
                       |(r' & _ & _ & Ho & Hmir)]]; [congruence|congruence|].
    destruct Hmir as (vr & ve & vb & vf & Hr & He & Hb & Hf & ->).
    repeat (split; [assumption || reflexivity|]).
    intros path p Hget. apply Hall in Hget; [discriminate|reflexivity].
Qed.

Lemma configure_preview_mirror_after_ack_witness :
  let self := refreshed "203.0.113.9" "rtsp://10.0.0.5:8554/live" true in
  let run := configure_preview (Some "720P") None None (Some 24%Z) (Some 1%Z)
               self in
  let self' := snd (fst run) in
  In (EvPost "/video" (VideoSelect 2 1 2 0 1%Z)) (snd run) /\
  IpcProvider.post (ipc_provider self) "/video" (VideoSelect 2 1 2 0 1%Z)
    = Return (ack true) /\
  nth_error (resolutions self) 2 = Some (cur_resolution self') /\
  nth_error (framerates self) 0 = Some (cur_framerate self') /\
  display_out self' = 1%Z /\
  fst (fst run) = Return true.
Proof.
  intros self run self'.
  assert (Hin : In (EvPost "/video" (VideoSelect 2 1 2 0 1%Z)) (snd run))
    by (vm_compute; auto).
  destruct (configure_preview_mirror_after_ack
              (Some "720P") None None (Some 24%Z) (Some 1%Z) self
              (fst (fst run)) self' (snd run) eq_refl)
    as (_ & _ & Hack).
  destruct (Hack 2%nat 1%nat 2%nat 0%nat 1%Z (ack true) Hin eq_refl eq_refl)
    as (Hr & _ & _ & Hf & Hd & Ho & _).
  exact (conj Hin (conj eq_refl (conj Hr (conj Hf (conj Hd Ho))))).
Defined.

(** C5: [get_inferences] raises [EOFError("preview not started")] when
    [preview_running] is false, with no event at all (no endpoint is
    contacted), and the different [EOFError("VAM not started")] when
    [preview_running] is true and [vam_running] is false; a trace of
    [get_inferences] that holds a [start] of the decoder comes from a client
    on which both flags were true. *)
Theorem get_inferences_preconditions {Frames B}
    (start : VideoInferenceIterator.t -> string -> outcome Frames)
    (body : Frames -> M B) (self : CameraClient) :
  (preview_running self = false ->
   get_inferences start body self
   = (Raise (EOFError "preview not started"), self, [])) /\
  (preview_running self = true -> vam_running self = false ->
   get_inferences start body self
   = (Raise (EOFError "VAM not started"), self, [])) /\
  EOFError "preview not started" <> EOFError "VAM not started" /\
  (forall o self' tr it u,
      get_inferences start body self = (o, self', tr) ->
      In (EvStart it u) tr ->
      preview_running self = true /\ vam_running self = true).
Proof.
  unfold get_inferences.
  rewrite (bind_Return _ _ self self self [] eq_refl).
  split; [|split; [|split]].
  - now intros ->.
  - now intros -> ->.
  - discriminate.
  - intros o self' tr it u Hrun Hin.
    destruct (preview_running self), (vam_running self); auto;
      cbn in Hrun; injection Hrun as _ _ <-; destruct Hin.
Qed.

Lemma get_inferences_preconditions_witness :
  let off := refreshed "203.0.113.9" "rtsp://10.0.0.5:8554/live" true in
  let on := set_preview_running true off in
  (preview_running off = false /\
   get_inferences sample_start (fun frames => ret frames) off
   = (Raise (EOFError "preview not started"), off, [])) /\
  (preview_running on = true /\ vam_running on = false /\
   get_inferences sample_start (fun frames => ret frames) on
   = (Raise (EOFError "VAM not started"), on, [])).
Proof.
  intros off on. split.
  - split; [reflexivity|].
    exact (proj1 (get_inferences_preconditions sample_start
                    (fun frames => ret frames) off) eq_refl).
  - split; [reflexivity|split; [reflexivity|]].
    exact (proj1 (proj2 (get_inferences_preconditions sample_start
                           (fun frames => ret frames) on)) eq_refl eq_refl).
Defined.

(** C8: when the device answers [captureimage], an [Error] field other
    than ["none"] makes the call log that error and return [None], and an
    [Error] field equal to ["none"] makes it return the [Data] field; in
    both cases the call returns and does not raise. *)
Theorem captureimage_result (self : CameraClient) (r : response) :
  IpcProvider.post (ipc_provider self) "/captureimage" Empty = Return r ->
  (Error r <> "none" ->
   captureimage self
   = (Return None, self,
      [EvPost "/captureimage" Empty; EvLogError (Error r) []])) /\
  (Error r = "none" ->
   captureimage self
   = (Return (Some (Data r)), self, [EvPost "/captureimage" Empty])).
Proof.
  intros Hpost.
  assert (Hp : ipc_post "/captureimage" Empty self
               = (Return r, self, [EvPost "/captureimage" Empty]))
    by (unfold ipc_post; now rewrite Hpost).
  unfold captureimage. rewrite (bind_Return _ _ _ _ _ _ Hp).
  split; intros HE.
  - apply String.eqb_neq in HE. now rewrite HE.
  - apply String.eqb_eq in HE. now rewrite HE.
Qed.

Lemma captureimage_result_witness :
  let good := __init__ (sample_camera "203.0.113.9" "rtsp://10.0.0.5:8554/live" true) in
  let busy := __init__ (busy_camera "camera busy") in
  (IpcProvider.post (ipc_provider good) "/captureimage" Empty
     = Return (capture_reply "none" "/9j/4AAQ") /\
   Error (capture_reply "none" "/9j/4AAQ") = "none" /\
   captureimage good
   = (Return (Some "/9j/4AAQ"), good, [EvPost "/captureimage" Empty])) /\
  (IpcProvider.post (ipc_provider busy) "/captureimage" Empty
     = Return (capture_reply "camera busy" "") /\
   Error (capture_reply "camera busy" "") <> "none" /\
   captureimage busy
   = (Return None, busy,
      [EvPost "/captureimage" Empty; EvLogError "camera busy" []])).
Proof.
  intros good busy.
  assert (Hbusy : Error (capture_reply "camera busy" "") <> "none")
    by (simpl; discriminate).
  split.
  - split; [reflexivity|split; [reflexivity|]].
    exact (proj2 (captureimage_result good (capture_reply "none" "/9j/4AAQ")
                    eq_refl) eq_refl).
  - split; [reflexivity|split; [exact Hbusy|]].
    exact (proj1 (captureimage_result busy (capture_reply "camera busy" "")
                    eq_refl) Hbusy).
Defined.

(** ** The four switches *)

Lemma parse_state_invalid state self :
  PyStr.lower state <> "on" -> PyStr.lower state <> "off" ->
  parse_state state self
  = (Return None, self,
     [EvLogError "Invalid state: %s should be on/off" [LStr state]]).
Proof.
  intros Hon Hoff. unfold parse_state.
  apply String.eqb_neq in Hon, Hoff. now rewrite Hon, Hoff.
Qed.

(** C6, as the code has it: a token other than ["on"] and ["off"] (in any
    case) makes each of the four switches log the error and then raise
    [UnboundLocalError] where the payload reads the local [status] that no
    branch has bound; the trace holds the log entry and nothing else, so no
    request reaches the device. *)
Theorem toggle_invalid_token_aborts (state : string) (self : CameraClient) :
  PyStr.lower state <> "on" -> PyStr.lower state <> "off" ->
  let aborted {A} : outcome A * CameraClient * list event :=
    (Raise (UnboundLocalError "status"), self,
     [EvLogError "Invalid state: %s should be on/off" [LStr state]]) in
  set_preview_state state self = aborted /\
  set_analytics_state state self = aborted /\
  set_recording_state state self = aborted /\
  set_overlay_state (Some state) self = aborted.
Proof.
  intros Hon Hoff. cbv zeta.
  pose proof (parse_state_invalid state self Hon Hoff) as Hparse.
  unfold set_preview_state, set_analytics_state, set_recording_state,
    set_overlay_state.
  rewrite !(bind_Return _ _ _ _ _ _ Hparse).
  repeat split.
Qed.

Lemma toggle_invalid_token_aborts_witness :
  let self := refreshed "203.0.113.9" "rtsp://10.0.0.5:8554/live" true in
  PyStr.lower "Maybe" <> "on" /\ PyStr.lower "Maybe" <> "off" /\
  set_recording_state "Maybe" self
  = (Raise (UnboundLocalError "status"), self,
     [EvLogError "Invalid state: %s should be on/off" [LStr "Maybe"]]).
Proof.
  intros self.
  assert (Hon : PyStr.lower "Maybe" <> "on") by (vm_compute; discriminate).
  assert (Hoff : PyStr.lower "Maybe" <> "off") by (vm_compute; discriminate).
  split; [exact Hon|split; [exact Hoff|]].
  exact (proj1 (proj2 (proj2 (toggle_invalid_token_aborts "Maybe" self Hon Hoff)))).
Defined.

(** C6, as stated, fails: on the token ["maybe"] [set_preview_state] logs
    the error and raises; no [POST] is in its trace. *)
Lemma toggle_invalid_token_sends_nothing :
  let self := refreshed "203.0.113.9" "rtsp://10.0.0.5:8554/live" true in
  let run := set_preview_state "maybe" self in
  PyStr.lower "maybe" <> "on" /\ PyStr.lower "maybe" <> "off" /\
  fst (fst run) = Raise (UnboundLocalError "status") /\
  ~ (exists path p, In (EvPost path p) (snd run)).
Proof.
  cbv zeta. repeat split; try (vm_compute; discriminate).
  intros (path & p & Hin). vm_compute in Hin.
  destruct Hin as [Hin|[]]. discriminate.
Qed.

(** [set_recording_state] on a recognised token: the flag becomes the
    [status] of the answer, whatever the target and the flag before. *)
Lemma set_recording_state_run state target self r :
  parse_state state self = (Return (Some target), self, []) ->
  IpcProvider.post (ipc_provider self) "/recording" (SwitchStatus target)
    = Return r ->
  set_recording_state state self
  = (Return (status r), set_record_running (status r) self,
     [EvPost "/recording" (SwitchStatus target)]).
Proof.
  intros Hparse Hpost. unfold set_recording_state.
  rewrite (bind_Return _ _ _ _ _ _ Hparse).
  unfold read_status.
  rewrite (bind_Return _ _ self target self [] eq_refl).
  assert (Hp : ipc_post "/recording" (SwitchStatus target) self
               = (Return r, self, [EvPost "/recording" (SwitchStatus target)]))
    by (unfold ipc_post; now rewrite Hpost).
  rewrite (bind_Return _ _ _ _ _ _ Hp).
  reflexivity.
Qed.

(** C7 at the failing inputs: an ["off"] switch that the device accepts
    leaves [record_running] true on a client where it was false, and an
    ["on"] switch that the device rejects clears a flag that was true.  The
    trace holds the one [POST]: no query follows. *)
Theorem set_recording_state_flag_is_status :
  let idle := refreshed "203.0.113.9" "rtsp://10.0.0.5:8554/live" true in
  let recording :=
    set_record_running true
      (refreshed "203.0.113.9" "rtsp://10.0.0.5:8554/live" false) in
  (record_running idle = false /\
   set_recording_state "off" idle
   = (Return true, set_record_running true idle,
      [EvPost "/recording" (SwitchStatus false)]) /\
   record_running (snd (fst (set_recording_state "off" idle))) = true) /\
  (record_running recording = true /\
   set_recording_state "on" recording
   = (Return false, set_record_running false recording,
      [EvPost "/recording" (SwitchStatus true)]) /\
   record_running (snd (fst (set_recording_state "on" recording))) = false).
Proof.
  intros idle recording. split; split; [reflexivity| |reflexivity|].
  - rewrite (set_recording_state_run "off" false idle (ack true) eq_refl eq_refl).
    split; reflexivity.
  - rewrite (set_recording_state_run "on" true recording (ack false)
               eq_refl eq_refl).
    split; reflexivity.
Qed.

(** ** Stream URLs *)

Lemma contains_prefix sub s : prefix sub s = true -> PyStr.contains sub s = true.
Proof. destruct s; simpl; intros ->; reflexivity. Qed.

(** The URL kept by [_get_preview_info] and [_get_vam_info] for a raw URL
    with a colon: rebuilt around the device address when that address does
    not contain ["172.17"], the raw URL when the address starts with it. *)
Lemma resolve_run raw_url device_ip e_idx self :
  PyStr.rfind ":" raw_url = Some e_idx ->
  (PyStr.contains DOCKER_IP_PREFIX device_ip = false ->
   resolve raw_url device_ip self
   = (Return ("rtsp://" ++ device_ip ++ PyStr.slice_from e_idx raw_url)%string,
      self, [])) /\
  (prefix DOCKER_IP_PREFIX device_ip = true ->
   resolve raw_url device_ip self = (Return raw_url, self, [])).
Proof.
  intros Hidx. unfold resolve. rewrite Hidx. split.
  - now intros ->.
  - intros Hp. now rewrite (contains_prefix _ _ Hp).
Qed.

Example resolve_public_address self :
  resolve "rtsp://10.0.0.5:8554/live" "203.0.113.9" self
  = (Return "rtsp://203.0.113.9:8554/live", self, []).
Proof. reflexivity. Qed.

Example resolve_bridge_address self :
  resolve "rtsp://10.0.0.5:8554/live" "172.17.0.2" self
  = (Return "rtsp://10.0.0.5:8554/live", self, []).
Proof. reflexivity. Qed.

(** C4 at the failing input: the device address ["10.172.17.5"] does not
    start with ["172.17"], and both [_get_preview_info] and [_get_vam_info]
    keep the raw URL for it where the rebuilt URL is
    ["rtsp://10.172.17.5:8554/live"]. *)
Theorem info_keeps_raw_url_off_the_bridge_range :
  let ip := "10.172.17.5" in
  let raw := "rtsp://10.0.0.5:8554/live" in
  let self := __init__ (sample_camera ip raw true) in
  prefix DOCKER_IP_PREFIX ip = false /\
  PyStr.rfind ":" raw = Some 15%nat /\
  ("rtsp://" ++ ip ++ PyStr.slice_from 15 raw)%string
    = "rtsp://10.172.17.5:8554/live" /\
  preview_url (snd (fst (_get_preview_info self))) = Some raw /\
  vam_url (snd (fst (_get_vam_info self))) = Some raw.
Proof. cbv zeta. repeat split. Qed.

(** With a URL already stored, the block under [try] of [get_inferences]
    is the [start] of the decoder on that URL followed by the caller's
    block: line 194 changes nothing. *)
Lemma inference_scope_run {Frames B}
    (start : VideoInferenceIterator.t -> string -> outcome Frames)
    (it : VideoInferenceIterator.t) (body : Frames -> M B) self u :
  vam_url self = Some u -> u <> "" ->
  inference_scope start it body self
  = (frames <- iterator_start start it u ;; body frames) self.
Proof.
  intros Hu Hne. unfold inference_scope.
  rewrite (bind_Return _ _ self self self [] eq_refl).
  rewrite Hu. apply String.eqb_neq in Hne. rewrite Hne.
  rewrite (bind_Return _ _ self tt self [] eq_refl).
  rewrite (bind_Return _ _ self self self [] eq_refl).
  rewrite Hu.
  assert (Hwhen : when (PyStr.contains NULL_IP u)
                    (let _ := PyStr.replace NULL_IP LOOPBACK_IP u in ret tt) self
                  = (Return tt, self, []))
    by (destruct (PyStr.contains NULL_IP u); reflexivity).
  rewrite (bind_Return _ _ _ _ _ _ Hwhen).
  cbn [app].
  destruct ((frames <- iterator_start start it u ;; body frames) self)
    as [[o s] tr].
  reflexivity.
Qed.

(** C1 at the failing input: on a client whose [vam_url] is
    ["rtsp://0.0.0.0:8900/live"], as the sample camera at ["172.17.0.2"]
    leaves it, [get_inferences] starts the decoder on that very URL; the
    URL with the loopback address, ["rtsp://127.0.0.1:8900/live"], is
    computed and dropped. *)
Theorem get_inferences_starts_on_null_address :
  let self := streaming "172.17.0.2" "rtsp://0.0.0.0:8900/live" in
  let it := {| VideoInferenceIterator.width := 1920;
               VideoInferenceIterator.height := 1080 |} in
  vam_url self = Some "rtsp://0.0.0.0:8900/live" /\
  PyStr.contains NULL_IP "rtsp://0.0.0.0:8900/live" = true /\
  PyStr.replace NULL_IP LOOPBACK_IP "rtsp://0.0.0.0:8900/live"
    = "rtsp://127.0.0.1:8900/live" /\
  get_inferences sample_start (fun frames => ret frames) self
  = (Return [7%nat], self,
     [EvStart it "rtsp://0.0.0.0:8900/live"; EvStop it]).
Proof.
  cbv zeta.
  split; [vm_compute; reflexivity|].
  split; [vm_compute; reflexivity|].
  split; [vm_compute; reflexivity|].
  vm_compute; reflexivity.
Qed.

(** ** Scoped acquisitions *)

(** C9, as the code has it.  Once [ipc_provider.connect()] has returned,
    whatever way the block of [connect] ends (it returns, or it raises
    [e]), [logout] is the last call made; the scope then ends as the block
    did when [logout] returns, and with the exception of [logout] when
    [logout] raises, whether the block had returned or raised.  Once
    [get_inferences] has passed its checks and built the iterator, [stop]
    on that iterator is the last call made and the scope ends as the block
    did.  An exception of the block is logged just before the release when
    it is an instance of [Exception], which is what the handler captures,
    and is not logged otherwise. *)
Theorem scopes_release_and_reraise :
  (forall B (ipc : IpcProvider.t) (body : M B) o self' tr,
      IpcProvider.connect ipc = Return tt ->
      connect_scope body (__init__ ipc) = (o, self', tr) ->
      connect ipc body
      = (released o (IpcProvider.logout ipc), Some self',
         EvConnect :: tr ++ captured o ++ [EvLogout])) /\
  (forall Frames B (start : VideoInferenceIterator.t -> string -> outcome Frames)
          (body : Frames -> M B) self preview_width preview_height o self' tr,
      preview_running self = true ->
      vam_running self = true ->
      preview_dimensions (cur_resolution self)
        = Some (preview_width, preview_height) ->
      let inference_iterator :=
        {| VideoInferenceIterator.width := preview_width;
           VideoInferenceIterator.height := preview_height |} in
      inference_scope start inference_iterator body self = (o, self', tr) ->
      get_inferences start body self
      = (o, self', tr ++ captured o ++ [EvStop inference_iterator])).
Proof.
  split.
  - intros B ipc body o self' tr Hconn Hscope.
    unfold connect, try_finally, try_except. rewrite Hconn, Hscope.
    unfold bind, logout_on, released.
    destruct (IpcProvider.logout ipc) as [st|e'];
      (destruct o as [b|e]; [|destruct (is_Exception e) eqn:He]);
      cbn; rewrite ?He; cbn; rewrite ?app_nil_r, <- ?app_assoc; reflexivity.
  - intros Frames B start body self w h o self' tr Hprev Hvam Hdim it Hscope.
    unfold get_inferences.
    rewrite (bind_Return _ _ self self self [] eq_refl).
    rewrite Hprev, Hvam, Hdim. cbn [negb app].
    fold it. unfold try_finally, try_except. rewrite Hscope.
    destruct o as [b|e]; [|destruct (is_Exception e) eqn:He];
      cbn; rewrite ?He; cbn; rewrite ?app_nil_r, <- ?app_assoc; reflexivity.
Qed.

Lemma scopes_release_and_reraise_witness :
  let e := CollaboratorError "connection lost" in
  let e' := CollaboratorError "session expired" in
  let ipc := sample_camera "203.0.113.9" "rtsp://10.0.0.5:8554/live" true in
  let ipc' := failing_logout e' ipc in
  let inner := connect_scope (raise (A := nat) e) (__init__ ipc) in
  let inner' := connect_scope (ret 5%nat) (__init__ ipc') in
  let self := streaming "203.0.113.9" "rtsp://10.0.0.5:8554/live" in
  let it := {| VideoInferenceIterator.width := 1920;
               VideoInferenceIterator.height := 1080 |} in
  let frames := inference_scope sample_start it (fun _ => raise (A := nat) e) self in
  (IpcProvider.connect ipc = Return tt /\
   inner = (Raise e, snd (fst inner), snd inner) /\
   connect ipc (raise (A := nat) e)
   = (Raise e, Some (snd (fst inner)),
      EvConnect :: snd inner ++ [EvLogException e; EvLogout])) /\
  (IpcProvider.connect ipc' = Return tt /\
   inner' = (Return 5%nat, snd (fst inner'), snd inner') /\
   connect ipc' (ret 5%nat)
   = (Raise e', Some (snd (fst inner')),
      EvConnect :: snd inner' ++ [EvLogout])) /\
  (preview_running self = true /\ vam_running self = true /\
   preview_dimensions (cur_resolution self) = Some (1920, 1080)%Z /\
   frames = (Raise e, snd (fst frames), snd frames) /\
   get_inferences sample_start (fun _ => raise (A := nat) e) self
   = (Raise e, snd (fst frames),
      snd frames ++ [EvLogException e; EvStop it])).
Proof.
  intros e e' ipc ipc' inner inner' self it frames.
  assert (Hinner : inner = (Raise e, snd (fst inner), snd inner))
    by (vm_compute; reflexivity).
  assert (Hinner' : inner' = (Return 5%nat, snd (fst inner'), snd inner'))
    by (vm_compute; reflexivity).
  assert (Hprev : preview_running self = true) by (vm_compute; reflexivity).
  assert (Hvam : vam_running self = true) by (vm_compute; reflexivity).
  assert (Hdim : preview_dimensions (cur_resolution self)
                 = Some (1920, 1080)%Z) by (vm_compute; reflexivity).
  assert (Hframes : frames = (Raise e, snd (fst frames), snd frames))
    by (vm_compute; reflexivity).
  split; [|split].
  - split; [reflexivity|split; [exact Hinner|]].
    exact (proj1 scopes_release_and_reraise nat ipc (raise e) (Raise e)
             (snd (fst inner)) (snd inner) eq_refl Hinner).
  - split; [reflexivity|split; [exact Hinner'|]].
    exact (proj1 scopes_release_and_reraise nat ipc' (ret 5%nat)
             (Return 5%nat) (snd (fst inner')) (snd inner') eq_refl Hinner').
  - split; [exact Hprev|split; [exact Hvam|split; [exact Hdim|split;
      [exact Hframes|]]]].
    exact (proj2 scopes_release_and_reraise (list nat) nat sample_start
             (fun _ => raise e) self 1920%Z 1080%Z (Raise e)
             (snd (fst frames)) (snd frames) Hprev Hvam Hdim Hframes).
Defined.

(** C9, as stated, fails on the logging: a [KeyboardInterrupt] raised in
    the block of [get_inferences] or of [connect] is not an [Exception];
    it leaves the scope unchanged and after the release, and no log entry
    is made for it. *)
Lemma scopes_do_not_log_keyboard_interrupt :
  let ipc := sample_camera "203.0.113.9" "rtsp://10.0.0.5:8554/live" true in
  let self := streaming "203.0.113.9" "rtsp://10.0.0.5:8554/live" in
  let it := {| VideoInferenceIterator.width := 1920;
               VideoInferenceIterator.height := 1080 |} in
  let consumed :=
    get_inferences sample_start (fun _ => raise (A := nat) KeyboardInterrupt)
      self in
  let connected := connect ipc (raise (A := nat) KeyboardInterrupt) in
  (fst (fst consumed) = Raise KeyboardInterrupt /\
   snd consumed = [EvStart it "rtsp://203.0.113.9:8554/live"; EvStop it] /\
   ~ In (EvLogException KeyboardInterrupt) (snd consumed)) /\
  (fst (fst connected) = Raise KeyboardInterrupt /\
   last (snd connected) EvConnect = EvLogout /\
   ~ In (EvLogException KeyboardInterrupt) (snd connected)).
Proof.
  cbv zeta.
  assert (Hnot : forall tr,
             existsb (fun ev => match ev with
                                | EvLogException _ => true
                                | _ => false
                                end) tr = false ->
             ~ In (EvLogException KeyboardInterrupt) tr).
  { intros tr Hex Hin.
    assert (Htrue : existsb (fun ev => match ev with
                                       | EvLogException _ => true
                                       | _ => false
                                       end) tr = true)
      by (apply existsb_exists; eexists; split; [exact Hin|reflexivity]).
    congruence. }
  split; (split; [vm_compute; reflexivity|split; [vm_compute; reflexivity|]]);
    apply Hnot; vm_compute; reflexivity.
Qed.

(** * Further properties *)

(** ** Lists *)

Lemma nth_error_py_in {A} (eqb : A -> A -> bool) (l : list A) (i : nat) (x : A) :
  (forall a, eqb a a = true) ->
  nth_error l i = Some x -> py_in eqb x l = true.
Proof.
  intros Hrefl H. unfold py_in. apply existsb_exists.
  exists x. split; [eapply nth_error_In; eassumption|apply Hrefl].
Qed.

Lemma py_getitem_nth {A} (l : list A) (i : Z) (x : A) :
  py_getitem l i = Some x -> exists n, nth_error l n = Some x.
Proof.
  unfold py_getitem. destruct (0 <=? i)%Z; [eauto|].
  destruct (- Z.of_nat (List.length l) <=? i)%Z; [eauto|discriminate].
Qed.

Lemma py_getitem_in_str (l : list string) (i : Z) (x : string) :
  py_getitem l i = Some x -> py_in String.eqb x l = true.
Proof.
  intros H. apply py_getitem_nth in H as (n & H).
  eapply nth_error_py_in; [apply String.eqb_refl|eassumption].
Qed.

Lemma py_getitem_in_Z (l : list Z) (i : Z) (x : Z) :
  py_getitem l i = Some x -> py_in Z.eqb x l = true.
Proof.
  intros H. apply py_getitem_nth in H as (n & H).
  eapply nth_error_py_in; [apply Z.eqb_refl|eassumption].
Qed.

Lemma py_in_index {A} (eqb : A -> A -> bool) (x : A) (l : list A) :
  py_in eqb x l = true -> exists i, py_index eqb x l = Some i.
Proof.
  intros H. destruct (py_index eqb x l) as [i|] eqn:E; [eauto|].
  apply py_index_None in E. congruence.
Qed.

(** In a list without repetition [index] gives back the position a value
    was read at. *)
Lemma py_index_of_nth {A} (eqb : A -> A -> bool) (l : list A) (i : nat) (x : A) :
  (forall a b, eqb a b = true <-> a = b) ->
  NoDup l -> nth_error l i = Some x -> py_index eqb x l = Some i.
Proof.
  intros Heq. revert i. induction l as [|y t IH]; intros i Hnd Hnth.
  - destruct i; discriminate.
  - inversion Hnd as [|? ? Hnotin Hnd']; subst. destruct i as [|i]; simpl in *.
    + injection Hnth as ->. now rewrite (proj2 (Heq x x) eq_refl).
    + destruct (eqb y x) eqn:E.
      * apply Heq in E. subst y. apply nth_error_In in Hnth. contradiction.
      * now rewrite (IH i Hnd' Hnth).
Qed.

Lemma requests_sent logs infos path p :
  no_request logs -> no_request infos ->
  requests (logs ++ EvPost path p :: infos) = [EvPost path p].
Proof.
  assert (Hnil : forall l, no_request l -> filter is_request l = []).
  { induction l as [|ev l IH]; [reflexivity|]. unfold no_request; simpl.
    intros H. apply andb_true_iff in H as [Hev Hl].
    destruct (is_request ev); [discriminate|]. now apply IH. }
  intros Hl Hi. unfold requests.
  rewrite filter_app, (Hnil _ Hl). simpl. now rewrite (Hnil _ Hi).
Qed.

(** ** [configure_preview], step by step *)

Lemma select_display_out_exact requested cur self :
  select_display_out requested cur self
  = (Return (fst (display_choice requested cur)), self,
     snd (display_choice requested cur)).
Proof.
  unfold select_display_out, display_choice. destruct requested as [d|].
  - destruct (py_in Z.eqb d [0; 1]%Z); reflexivity.
  - reflexivity.
Qed.

Lemma update_current_exact self res enc bit fps d r e b f :
  nth_error (resolutions self) res = Some r ->
  nth_error (encodetype self) enc = Some e ->
  nth_error (bitrates self) bit = Some b ->
  nth_error (framerates self) fps = Some f ->
  update_current res enc bit fps d self
  = (Return tt, updated self r e b f d, changes self r e b f d).
Proof.
  intros Hr He Hb Hf. unfold update_current, updated, changes.
  rewrite (bind_Return _ _ self self self [] eq_refl).
  rewrite (bind_Return _ _ _ _ _ _ (getitem_run _ _ _ self Hr)).
  rewrite (bind_Return _ _ _ _ _ _ (when_assign_run _ _ _ _ _)).
  rewrite (bind_Return _ _ _ _ _ _ (getitem_run _ _ _ _ He)).
  rewrite (bind_Return _ _ _ _ _ _ (when_assign_run _ _ _ _ _)).
  rewrite (bind_Return _ _ _ _ _ _ (getitem_run _ _ _ _ Hb)).
  rewrite (bind_Return _ _ _ _ _ _ (when_assign_run _ _ _ _ _)).
  rewrite (bind_Return _ _ _ _ _ _ (getitem_run _ _ _ _ Hf)).
  rewrite (bind_Return _ _ _ _ _ _ (when_assign_run _ _ _ _ _)).
  rewrite when_assign_run.
  cbv beta iota.
  destruct (String.eqb_spec (cur_resolution self) r),
    (String.eqb_spec (cur_codec self) e),
    (String.eqb_spec (cur_bitrate self) b),
    (Z.eqb_spec (cur_framerate self) f),
    (Z.eqb_spec (display_out self) d);
    destruct self; simpl in *; subst; reflexivity.
Qed.

(** The whole of [configure_preview] once the four lookups have given
    their indices. *)
Lemma configure_preview_exact resolution encode bitrate framerate
    display_out_arg self res enc bit fps :
  let vres := looked_up String.eqb truthy_str resolution (resolutions self)
                (cur_resolution self) in
  let venc := looked_up String.eqb truthy_str encode (encodetype self)
                (cur_codec self) in
  let vbit := looked_up String.eqb truthy_str bitrate (bitrates self)
                (cur_bitrate self) in
  let vfps := looked_up Z.eqb truthy_int framerate (framerates self)
                (cur_framerate self) in
  py_index String.eqb vres (resolutions self) = Some res ->
  py_index String.eqb venc (encodetype self) = Some enc ->
  py_index String.eqb vbit (bitrates self) = Some bit ->
  py_index Z.eqb vfps (framerates self) = Some fps ->
  let d := fst (display_choice display_out_arg (display_out self)) in
  let logs := snd (display_choice display_out_arg (display_out self)) in
  let p := VideoSelect res enc bit fps d in
  configure_preview resolution encode bitrate framerate display_out_arg self
  = match IpcProvider.post (ipc_provider self) "/video" p with
    | Raise e => (Raise e, self, logs ++ [EvPost "/video" p])
    | Return r =>
        if status r
        then (Return true, updated self vres venc vbit vfps d,
              logs ++ [EvPost "/video" p] ++ changes self vres venc vbit vfps d)
        else (Return false, self, logs ++ [EvPost "/video" p])
    end.
Proof.
  intros vres venc vbit vfps Eres Eenc Ebit Efps d logs p.
  pose proof (select_index_run String.eqb truthy_str resolution
                (resolutions self) (cur_resolution self) self) as Hres.
  pose proof (select_index_run String.eqb truthy_str encode
                (encodetype self) (cur_codec self) self) as Henc.
  pose proof (select_index_run String.eqb truthy_str bitrate
                (bitrates self) (cur_bitrate self) self) as Hbit.
  pose proof (select_index_run Z.eqb truthy_int framerate
                (framerates self) (cur_framerate self) self) as Hfps.
  fold vres in Hres; fold venc in Henc; fold vbit in Hbit; fold vfps in Hfps.
  rewrite Eres in Hres; rewrite Eenc in Henc; rewrite Ebit in Hbit;
    rewrite Efps in Hfps.
  unfold configure_preview.
  rewrite (bind_Return _ _ self self self [] eq_refl).
  rewrite (bind_Return _ _ _ _ _ _ Hres), (bind_Return _ _ _ _ _ _ Henc),
    (bind_Return _ _ _ _ _ _ Hbit), (bind_Return _ _ _ _ _ _ Hfps).
  rewrite (bind_Return _ _ _ _ _ _
             (select_display_out_exact display_out_arg (display_out self) self)).
  fold d logs. cbv zeta. fold p.
  assert (Hpost : ipc_post "/video" p self =
                  (IpcProvider.post (ipc_provider self) "/video" p, self,
                   [EvPost "/video" p])) by reflexivity.
  destruct (IpcProvider.post (ipc_provider self) "/video" p) as [r|e].
  - rewrite (bind_Return _ _ _ _ _ _ Hpost).
    destruct (status r) eqn:Hst.
    + unfold when.
      rewrite (bind_Return _ _ _ _ _ _
                 (update_current_exact self res enc bit fps d _ _ _ _
                    (py_index_nth_str _ _ _ Eres) (py_index_nth_str _ _ _ Eenc)
                    (py_index_nth_str _ _ _ Ebit) (py_index_nth_Z _ _ _ Efps))).
      unfold ret; cbv beta iota. cbn [app]. now rewrite app_nil_r.
    + unfold when, ret, bind; cbv beta iota. cbn [app]. reflexivity.
  - rewrite (bind_Raise _ _ _ _ _ _ Hpost). cbn [app]. reflexivity.
Qed.

Lemma looked_up_member {A} (eqb : A -> A -> bool) truthy requested caps cur :
  py_in eqb cur caps = true ->
  py_in eqb (looked_up eqb truthy requested caps cur) caps = true.
Proof.
  intros Hcur. unfold looked_up. destruct requested as [v|]; [|assumption].
  destruct (truthy (Some v) && nonempty caps && py_in eqb v caps) eqn:E;
    [|assumption].
  now apply andb_true_iff in E as [_ E].
Qed.

Lemma looked_up_valid {A} (eqb : A -> A -> bool) truthy requested caps cur v :
  valid_request eqb truthy requested caps v ->
  looked_up eqb truthy requested caps cur = v.
Proof.
  intros (-> & Ht & Hin). unfold looked_up. rewrite Ht, Hin.
  destruct caps; [discriminate|reflexivity].
Qed.

(** The value looked up is the requested one, when that is valid, and the
    current one otherwise. *)
Lemma looked_up_cases {A} (eqb : A -> A -> bool) truthy requested caps cur :
  valid_request eqb truthy requested caps (looked_up eqb truthy requested caps cur)
  \/ looked_up eqb truthy requested caps cur = cur.
Proof.
  unfold looked_up, valid_request. destruct requested as [v|]; [|auto].
  destruct (truthy (Some v)) eqn:Ht; [|auto].
  destruct (nonempty caps); [|auto].
  destruct (py_in eqb v caps) eqn:Hin; simpl; auto.
Qed.

Lemma consistent_lookups resolution encode bitrate framerate self :
  consistent self ->
  exists res enc bit fps,
    py_index String.eqb
      (looked_up String.eqb truthy_str resolution (resolutions self)
         (cur_resolution self)) (resolutions self) = Some res /\
    py_index String.eqb
      (looked_up String.eqb truthy_str encode (encodetype self)
         (cur_codec self)) (encodetype self) = Some enc /\
    py_index String.eqb
      (looked_up String.eqb truthy_str bitrate (bitrates self)
         (cur_bitrate self)) (bitrates self) = Some bit /\
    py_index Z.eqb
      (looked_up Z.eqb truthy_int framerate (framerates self)
         (cur_framerate self)) (framerates self) = Some fps.
Proof.
  intros (Hr & He & Hb & Hf).
  destruct (py_in_index _ _ _ (looked_up_member String.eqb truthy_str resolution _ _ Hr)) as [res Hres].
  destruct (py_in_index _ _ _ (looked_up_member String.eqb truthy_str encode _ _ He)) as [enc Henc].
  destruct (py_in_index _ _ _ (looked_up_member String.eqb truthy_str bitrate _ _ Hb)) as [bit Hbit].
  destruct (py_in_index _ _ _ (looked_up_member Z.eqb truthy_int framerate _ _ Hf)) as [fps Hfps].
  exists res, enc, bit, fps. auto.
Qed.

Lemma display_choice_no_request requested cur :
  no_request (snd (display_choice requested cur)).
Proof.
  unfold display_choice. destruct requested as [d|]; [|reflexivity].
  destruct (py_in Z.eqb d [0; 1]%Z); reflexivity.
Qed.

Lemma changes_no_request self r e b f d : no_request (changes self r e b f d).
Proof.
  unfold changes, no_request.
  destruct (cur_resolution self =? r), (cur_codec self =? e),
    (cur_bitrate self =? b), (cur_framerate self =? f)%Z,
    (display_out self =? d)%Z; reflexivity.
Qed.

Lemma updated_consistent self r e b f d :
  py_in String.eqb r (resolutions self) = true ->
  py_in String.eqb e (encodetype self) = true ->
  py_in String.eqb b (bitrates self) = true ->
  py_in Z.eqb f (framerates self) = true ->
  consistent (updated self r e b f d).
Proof. intros; repeat split; assumption. Qed.

(** Every way [configure_preview] can end, as a relation between the
    client before and after. *)
Lemma configure_preview_ends resolution encode bitrate framerate
    display_out_arg self o self' tr :
  configure_preview resolution encode bitrate framerate display_out_arg self
    = (o, self', tr) ->
  self' = self /\ o <> Return true
  \/
  exists res enc bit fps,
    let vres := looked_up String.eqb truthy_str resolution (resolutions self)
                  (cur_resolution self) in
    let venc := looked_up String.eqb truthy_str encode (encodetype self)
                  (cur_codec self) in
    let vbit := looked_up String.eqb truthy_str bitrate (bitrates self)
                  (cur_bitrate self) in
    let vfps := looked_up Z.eqb truthy_int framerate (framerates self)
                  (cur_framerate self) in
    let d := fst (display_choice display_out_arg (display_out self)) in
    py_index String.eqb vres (resolutions self) = Some res /\
    py_index String.eqb venc (encodetype self) = Some enc /\
    py_index String.eqb vbit (bitrates self) = Some bit /\
    py_index Z.eqb vfps (framerates self) = Some fps /\
    o = Return true /\
    self' = updated self vres venc vbit vfps d.
Proof.
  intros Hrun.
  destruct (configure_preview_run resolution encode bitrate framerate
              display_out_arg self)
    as [[_ Hfail]|(res & enc & bit & fps & d0 & logs0 & Hres & Henc & Hbit
                   & Hfps & _)]; cbv zeta in *.
  - rewrite Hrun in Hfail. injection Hfail as -> -> _. left. split; [reflexivity|discriminate].
  - pose proof (configure_preview_exact resolution encode bitrate framerate
                  display_out_arg self res enc bit fps Hres Henc Hbit Hfps)
      as Hex. cbv zeta in Hex. rewrite Hrun in Hex.
    destruct (IpcProvider.post _ _ _) as [r|e] in Hex.
    + destruct (status r).
      * injection Hex as -> -> _. right. exists res, enc, bit, fps.
        cbv zeta. auto 10.
      * injection Hex as -> -> _. left. split; [reflexivity|discriminate].
    + injection Hex as -> -> _. left. split; [reflexivity|discriminate].
Qed.

Lemma updated_capabilities self r e b f d :
  same_capabilities self (updated self r e b f d).
Proof. repeat split. Qed.

Lemma updated_streams self r e b f d : same_streams self (updated self r e b f d).
Proof. repeat split. Qed.

Lemma updated_same self :
  updated self (cur_resolution self) (cur_codec self) (cur_bitrate self)
    (cur_framerate self) (display_out self) = self.
Proof. destruct self; reflexivity. Qed.

Lemma changes_same self :
  changes self (cur_resolution self) (cur_codec self) (cur_bitrate self)
    (cur_framerate self) (display_out self) = [].
Proof.
  unfold changes. now rewrite !String.eqb_refl, !Z.eqb_refl.
Qed.

Lemma error_logs_changes self r e b f d : error_logs (changes self r e b f d) = [].
Proof.
  unfold changes, error_logs.
  destruct (cur_resolution self =? r), (cur_codec self =? e),
    (cur_bitrate self =? b), (cur_framerate self =? f)%Z,
    (display_out self =? d)%Z; reflexivity.
Qed.

(** What a [POST] found in the trace of [configure_preview] tells, with
    the trace in full. *)
Lemma configure_preview_trace resolution encode bitrate framerate
    display_out_arg self o self' tr path q :
  configure_preview resolution encode bitrate framerate display_out_arg self
    = (o, self', tr) ->
  In (EvPost path q) tr ->
  let vres := looked_up String.eqb truthy_str resolution (resolutions self)
                (cur_resolution self) in
  let venc := looked_up String.eqb truthy_str encode (encodetype self)
                (cur_codec self) in
  let vbit := looked_up String.eqb truthy_str bitrate (bitrates self)
                (cur_bitrate self) in
  let vfps := looked_up Z.eqb truthy_int framerate (framerates self)
                (cur_framerate self) in
  let d := fst (display_choice display_out_arg (display_out self)) in
  let logs := snd (display_choice display_out_arg (display_out self)) in
  exists res enc bit fps,
    py_index String.eqb vres (resolutions self) = Some res /\
    py_index String.eqb venc (encodetype self) = Some enc /\
    py_index String.eqb vbit (bitrates self) = Some bit /\
    py_index Z.eqb vfps (framerates self) = Some fps /\
    path = "/video" /\ q = VideoSelect res enc bit fps d /\
    ((o = Return true /\ self' = updated self vres venc vbit vfps d /\
      tr = logs ++ [EvPost path q] ++ changes self vres venc vbit vfps d /\
      exists r, IpcProvider.post (ipc_provider self) path q = Return r /\
                status r = true)
     \/
     (o <> Return true /\ self' = self /\ tr = logs ++ [EvPost path q])).
Proof.
  intros Hrun Hin. cbv zeta.
  destruct (configure_preview_run resolution encode bitrate framerate
              display_out_arg self)
    as [[_ Hfail]|(res & enc & bit & fps & d0 & logs0 & Hres & Henc & Hbit
                   & Hfps & _)]; cbv zeta in *.
  - rewrite Hrun in Hfail. injection Hfail as _ _ ->. destruct Hin.
  - pose proof (configure_preview_exact resolution encode bitrate framerate
                  display_out_arg self res enc bit fps Hres Henc Hbit Hfps)
      as Hex. cbv zeta in Hex. rewrite Hrun in Hex.
    set (d := fst (display_choice display_out_arg (display_out self))) in *.
    set (logs := snd (display_choice display_out_arg (display_out self))) in *.
    set (p := VideoSelect res enc bit fps d) in *.
    assert (Hq : forall infos, no_request infos ->
                 tr = logs ++ [EvPost "/video" p] ++ infos ->
                 EvPost path q = EvPost "/video" p).
    { intros infos Hinfos ->. rewrite app_assoc in Hin.
      apply (In_sent logs infos "/video" p); auto.
      apply display_choice_no_request. }
    exists res, enc, bit, fps.
    repeat (split; [assumption|]).
    destruct (IpcProvider.post (ipc_provider self) "/video" p) as [r|e] eqn:Hpost.
    + destruct (status r) eqn:Hst.
      * injection Hex as -> -> ->.
        pose proof (Hq _ (changes_no_request _ _ _ _ _ _) eq_refl) as Heq; injection Heq as -> ->.
        split; [reflexivity|split; [reflexivity|]].
        left. repeat (split; [reflexivity|]). exists r. auto.
      * injection Hex as -> -> Htr.
        pose proof (Hq [] eq_refl Htr) as Heq; injection Heq as -> ->.
        split; [reflexivity|split; [reflexivity|]].
        right. split; [discriminate|auto].
    + injection Hex as -> -> Htr.
      pose proof (Hq [] eq_refl Htr) as Heq; injection Heq as -> ->.
      split; [reflexivity|split; [reflexivity|]].
      right. split; [discriminate|auto].
Qed.

(** ** [configure_preview] on its own *)

(** X1: on a client whose current values are all in their capability
    lists, [configure_preview] never fails on a list lookup: whatever is
    requested, it sends exactly one request, a [POST /video], and its
    outcome is the device's answer: the [status] of the response, or the
    exception of the transport. *)
Theorem configure_preview_on_consistent_client resolution encode bitrate
    framerate display_out_arg self :
  consistent self ->
  let run := configure_preview resolution encode bitrate framerate
               display_out_arg self in
  exists res enc bit fps d,
    requests (snd run) = [EvPost "/video" (VideoSelect res enc bit fps d)] /\
    fst (fst run)
    = match IpcProvider.post (ipc_provider self) "/video"
              (VideoSelect res enc bit fps d) with
      | Return r => Return (status r)
      | Raise e => Raise e
      end.
Proof.
  intros Hcons run.
  destruct (consistent_lookups resolution encode bitrate framerate self Hcons)
    as (res & enc & bit & fps & Hres & Henc & Hbit & Hfps).
  pose proof (configure_preview_exact resolution encode bitrate framerate
                display_out_arg self res enc bit fps Hres Henc Hbit Hfps) as Hex.
  cbv zeta in Hex. subst run. rewrite Hex.
  exists res, enc, bit, fps,
    (fst (display_choice display_out_arg (display_out self))).
  pose proof (display_choice_no_request display_out_arg (display_out self))
    as Hlogs.
  destruct (IpcProvider.post _ _ _) as [r|e].
  - destruct (status r); cbn [fst snd]; split; try reflexivity.
    + apply requests_sent; [assumption|apply changes_no_request].
    + now apply requests_sent.
  - cbn [fst snd]; split; [|reflexivity]. now apply requests_sent.
Qed.

Lemma configure_preview_on_consistent_client_witness :
  consistent sample_client /\
  requests (snd (configure_preview (Some "4K") None None (Some 0%Z) None
                   sample_client))
  = [EvPost "/video" (VideoSelect 0 1 2 1 0%Z)] /\
  fst (fst (configure_preview (Some "4K") None None (Some 0%Z) None
              sample_client)) = Return true.
Proof.
  assert (Hcons : consistent sample_client) by (repeat split).
  destruct (configure_preview_on_consistent_client
              (Some "4K") None None (Some 0%Z) None sample_client Hcons)
    as (res & enc & bit & fps & d & Hreq & Hout).
  split; [exact Hcons|].
  split; [vm_compute; reflexivity|].
  rewrite Hout. vm_compute in Hreq. injection Hreq as <- <- <- <- <-.
  reflexivity.
Defined.

(** X2: [configure_preview] never touches the capability lists, the
    transport or the stream state (running flags and URLs); it keeps a
    consistent client consistent, and after an acknowledged call (result
    [True]) the client is consistent whatever it was before. *)
Theorem configure_preview_invariants resolution encode bitrate framerate
    display_out_arg self o self' tr :
  configure_preview resolution encode bitrate framerate display_out_arg self
    = (o, self', tr) ->
  same_capabilities self self' /\
  same_streams self self' /\
  (consistent self -> consistent self') /\
  (o = Return true -> consistent self').
Proof.
  intros Hrun.
  destruct (configure_preview_ends _ _ _ _ _ _ _ _ _ Hrun)
    as [[-> Hno]|(res & enc & bit & fps & Hres & Henc & Hbit & Hfps & Ho & ->)];
    cbv zeta in *.
  - split; [repeat split|]. split; [repeat split|]. split; [auto|].
    intros Ho. contradiction.
  - assert (Hcons : consistent (updated self
              (looked_up String.eqb truthy_str resolution (resolutions self)
                 (cur_resolution self))
              (looked_up String.eqb truthy_str encode (encodetype self)
                 (cur_codec self))
              (looked_up String.eqb truthy_str bitrate (bitrates self)
                 (cur_bitrate self))
              (looked_up Z.eqb truthy_int framerate (framerates self)
                 (cur_framerate self))
              (fst (display_choice display_out_arg (display_out self))))).
    { apply updated_consistent.
      - apply (nth_error_py_in _ _ res); [apply String.eqb_refl|].
        now apply py_index_nth_str.
      - apply (nth_error_py_in _ _ enc); [apply String.eqb_refl|].
        now apply py_index_nth_str.
      - apply (nth_error_py_in _ _ bit); [apply String.eqb_refl|].
        now apply py_index_nth_str.
      - apply (nth_error_py_in _ _ fps); [apply Z.eqb_refl|].
        now apply py_index_nth_Z. }
    split; [apply updated_capabilities|].
    split; [apply updated_streams|]. auto.
Qed.

Lemma configure_preview_invariants_witness :
  let run := configure_preview (Some "720P") None None None (Some 1%Z)
               sample_client in
  consistent sample_client /\
  fst (fst run) = Return true /\
  consistent (snd (fst run)) /\
  resolutions (snd (fst run)) = resolutions sample_client.
Proof.
  intros run.
  assert (Hcons : consistent sample_client) by (repeat split).
  destruct (configure_preview_invariants (Some "720P") None None None
              (Some 1%Z) sample_client (fst (fst run)) (snd (fst run))
              (snd run) eq_refl)
    as ((_ & Hres & _) & _ & Hkeep & _).
  exact (conj Hcons (conj eq_refl (conj (Hkeep Hcons) Hres))).
Defined.

(** X3: a requested value that is true and in its capability list is the
    one [configure_preview] submits (by its index in the list), and once
    the device has acknowledged the request it is the current value. *)
Theorem configure_preview_takes_valid_request resolution encode bitrate
    framerate display_out_arg self o self' tr path res enc bit fps d :
  configure_preview resolution encode bitrate framerate display_out_arg self
    = (o, self', tr) ->
  In (EvPost path (VideoSelect res enc bit fps d)) tr ->
  (forall v, valid_request String.eqb truthy_str resolution (resolutions self) v ->
             py_index String.eqb v (resolutions self) = Some res /\
             (o = Return true -> cur_resolution self' = v)) /\
  (forall v, valid_request String.eqb truthy_str encode (encodetype self) v ->
             py_index String.eqb v (encodetype self) = Some enc /\
             (o = Return true -> cur_codec self' = v)) /\
  (forall v, valid_request String.eqb truthy_str bitrate (bitrates self) v ->
             py_index String.eqb v (bitrates self) = Some bit /\
             (o = Return true -> cur_bitrate self' = v)) /\
  (forall v, valid_request Z.eqb truthy_int framerate (framerates self) v ->
             py_index Z.eqb v (framerates self) = Some fps /\
             (o = Return true -> cur_framerate self' = v)).
Proof.
  intros Hrun Hin.
  destruct (configure_preview_trace _ _ _ _ _ _ _ _ _ _ _ Hrun Hin)
    as (res' & enc' & bit' & fps' & Hres & Henc & Hbit & Hfps & _ & Hq & Hend).
  cbv zeta in *. injection Hq as <- <- <- <- _.
  split; [|split; [|split]]; intros v Hv;
    (split;
     [erewrite <- (looked_up_valid _ _ _ _ _ _ Hv); eassumption
     |intros Ho; destruct Hend as [(_ & -> & _)|(Hno & _)]; [|contradiction];
      erewrite <- (looked_up_valid _ _ _ _ _ _ Hv); reflexivity]).
Qed.

Lemma configure_preview_takes_valid_request_witness :
  let run := configure_preview (Some "480P") None None (Some 24%Z) (Some 0%Z)
               sample_client in
  In (EvPost "/video" (VideoSelect 3 1 2 0 0%Z)) (snd run) /\
  valid_request String.eqb truthy_str (Some "480P") (resolutions sample_client)
    "480P" /\
  py_index String.eqb "480P" (resolutions sample_client) = Some 3%nat /\
  cur_resolution (snd (fst run)) = "480P".
Proof.
  intros run.
  assert (Hin : In (EvPost "/video" (VideoSelect 3 1 2 0 0%Z)) (snd run))
    by (vm_compute; auto).
  assert (Hv : valid_request String.eqb truthy_str (Some "480P")
                 (resolutions sample_client) "480P") by (repeat split).
  destruct (configure_preview_takes_valid_request
              (Some "480P") None None (Some 24%Z) (Some 0%Z) sample_client
              (fst (fst run)) (snd (fst run)) (snd run) "/video" 3 1 2 0 0%Z
              eq_refl Hin) as (Hres & _).
  destruct (Hres "480P" Hv) as (Hidx & Hcur).
  exact (conj Hin (conj Hv (conj Hidx (Hcur eq_refl)))).
Defined.

Lemma valid_request_str_true requested caps v :
  valid_request String.eqb truthy_str requested caps v -> v <> "".
Proof.
  intros (-> & Ht & _) ->. discriminate.
Qed.

Lemma valid_request_int_true requested caps v :
  valid_request Z.eqb truthy_int requested caps v -> v <> 0%Z.
Proof.
  intros (-> & Ht & _) ->. discriminate.
Qed.

(** X4: [configure_preview] never makes a false value current: a current
    resolution, codec or bitrate other than [""] stays other than [""], and
    a current frame rate other than [0] stays other than [0], whatever is
    requested and whatever the capability lists hold.  A frame rate [0]
    (or a value [""]) that the device lists cannot be selected. *)
Theorem configure_preview_never_selects_false_value resolution encode bitrate
    framerate display_out_arg self o self' tr :
  configure_preview resolution encode bitrate framerate display_out_arg self
    = (o, self', tr) ->
  (cur_resolution self <> "" -> cur_resolution self' <> "") /\
  (cur_codec self <> "" -> cur_codec self' <> "") /\
  (cur_bitrate self <> "" -> cur_bitrate self' <> "") /\
  (cur_framerate self <> 0%Z -> cur_framerate self' <> 0%Z).
Proof.
  intros Hrun.
  destruct (configure_preview_ends _ _ _ _ _ _ _ _ _ Hrun)
    as [[-> _]|(res & enc & bit & fps & _ & _ & _ & _ & _ & ->)];
    cbv zeta in *; [tauto|].
  change (cur_resolution (updated self ?r ?e ?b ?f ?d)) with r.
  change (cur_codec (updated self ?r ?e ?b ?f ?d)) with e.
  change (cur_bitrate (updated self ?r ?e ?b ?f ?d)) with b.
  change (cur_framerate (updated self ?r ?e ?b ?f ?d)) with f.
  repeat split; intros Hcur.
  - destruct (looked_up_cases String.eqb truthy_str resolution
                (resolutions self) (cur_resolution self)) as [Hv| ->]; auto.
    eapply valid_request_str_true; eassumption.
  - destruct (looked_up_cases String.eqb truthy_str encode
                (encodetype self) (cur_codec self)) as [Hv| ->]; auto.
    eapply valid_request_str_true; eassumption.
  - destruct (looked_up_cases String.eqb truthy_str bitrate
                (bitrates self) (cur_bitrate self)) as [Hv| ->]; auto.
    eapply valid_request_str_true; eassumption.
  - destruct (looked_up_cases Z.eqb truthy_int framerate
                (framerates self) (cur_framerate self)) as [Hv| ->]; auto.
    eapply valid_request_int_true; eassumption.
Qed.

Lemma configure_preview_never_selects_false_value_witness :
  let run := configure_preview (Some "") None None (Some 0%Z) (Some 1%Z)
               zero_rate_client in
  py_in Z.eqb 0%Z (framerates zero_rate_client) = true /\
  py_in String.eqb "" (resolutions zero_rate_client) = true /\
  cur_framerate zero_rate_client <> 0%Z /\
  cur_resolution zero_rate_client <> "" /\
  fst (fst run) = Return true /\
  cur_framerate (snd (fst run)) <> 0%Z /\
  cur_resolution (snd (fst run)) <> "".
Proof.
  intros run.
  assert (Hf : cur_framerate zero_rate_client <> 0%Z)
    by (vm_compute; discriminate).
  assert (Hr : cur_resolution zero_rate_client <> "")
    by (vm_compute; discriminate).
  destruct (configure_preview_never_selects_false_value
              (Some "") None None (Some 0%Z) (Some 1%Z) zero_rate_client
              (fst (fst run)) (snd (fst run)) (snd run) eq_refl)
    as (Hres & _ & _ & Hfps).
  exact (conj eq_refl (conj eq_refl (conj Hf (conj Hr
           (conj eq_refl (conj (Hfps Hf) (Hres Hr))))))).
Defined.

Lemma display_choice_valid d cur :
  d = 0%Z \/ d = 1%Z -> display_choice (Some d) cur = (d, []).
Proof. intros [-> | ->]; reflexivity. Qed.

Lemma display_choice_invalid requested cur :
  requested <> Some 0%Z -> requested <> Some 1%Z ->
  display_choice requested cur
  = (cur, [EvLogError "Invalid value: display_out should 0/1 got: %s"
             [opt_int requested]]).
Proof.
  intros H0 H1. unfold display_choice. destruct requested as [d|]; [|reflexivity].
  unfold py_in; cbn [existsb].
  destruct (Z.eqb_spec 0 d); [subst; now destruct H0|].
  destruct (Z.eqb_spec 1 d); [subst; now destruct H1|]. reflexivity.
Qed.

Lemma error_logs_trace logs path p infos :
  error_logs infos = [] ->
  error_logs (logs ++ [EvPost path p] ++ infos) = error_logs logs.
Proof.
  intros Hinfos. unfold error_logs in *.
  rewrite !filter_app, Hinfos. simpl. now rewrite app_nil_r.
Qed.

(** X5: the [displayOut] that [configure_preview] submits is the requested
    [display_out] when that is [0] or [1], and nothing is logged as an
    error; for any other argument, the default [None] included, it is the
    current [display_out] and exactly one error is logged.  After an
    acknowledged call the current [display_out] is the value submitted. *)
Theorem configure_preview_display_out resolution encode bitrate framerate
    display_out_arg self o self' tr path res enc bit fps d :
  configure_preview resolution encode bitrate framerate display_out_arg self
    = (o, self', tr) ->
  In (EvPost path (VideoSelect res enc bit fps d)) tr ->
  (display_out_arg = Some 0%Z \/ display_out_arg = Some 1%Z ->
   display_out_arg = Some d /\ error_logs tr = []) /\
  (display_out_arg <> Some 0%Z -> display_out_arg <> Some 1%Z ->
   d = display_out self /\
   error_logs tr
   = [EvLogError "Invalid value: display_out should 0/1 got: %s"
        [opt_int display_out_arg]]) /\
  (o = Return true -> display_out self' = d).
Proof.
  intros Hrun Hin.
  destruct (configure_preview_trace _ _ _ _ _ _ _ _ _ _ _ Hrun Hin)
    as (res' & enc' & bit' & fps' & _ & _ & _ & _ & _ & Hq & Hend).
  cbv zeta in *. injection Hq as _ _ _ _ Hd.
  assert (Herr : error_logs tr
                 = error_logs (snd (display_choice display_out_arg
                                      (display_out self)))).
  { destruct Hend as [(_ & _ & -> & _)|(_ & _ & ->)].
    - apply error_logs_trace, error_logs_changes.
    - rewrite <- (app_nil_r [EvPost _ _]). now apply error_logs_trace. }
  split; [|split].
  - intros Hvalid.
    assert (Hc : exists z, display_out_arg = Some z /\ (z = 0 \/ z = 1)%Z)
      by (destruct Hvalid as [-> | ->]; eauto).
    destruct Hc as (z & -> & Hz).
    rewrite (display_choice_valid z _ Hz) in *. cbn [fst snd] in *.
    subst d. split; [reflexivity|exact Herr].
  - intros H0 H1.
    rewrite (display_choice_invalid _ _ H0 H1) in *. cbn [fst snd] in *.
    subst d. split; [reflexivity|exact Herr].
  - intros Ho. destruct Hend as [(_ & -> & _)|(Hno & _)]; [|contradiction].
    subst d. reflexivity.
Qed.

Lemma configure_preview_display_out_witness :
  let run := configure_preview None None None None None sample_client in
  In (EvPost "/video" (VideoSelect 1 1 2 1 0%Z)) (snd run) /\
  (None : option Z) <> Some 0%Z /\ (None : option Z) <> Some 1%Z /\
  0%Z = display_out sample_client /\
  error_logs (snd run)
  = [EvLogError "Invalid value: display_out should 0/1 got: %s" [LNone]].
Proof.
  intros run.
  assert (Hin : In (EvPost "/video" (VideoSelect 1 1 2 1 0%Z)) (snd run))
    by (vm_compute; auto).
  assert (H0 : (None : option Z) <> Some 0%Z) by discriminate.
  assert (H1 : (None : option Z) <> Some 1%Z) by discriminate.
  destruct (configure_preview_display_out None None None None None
              sample_client (fst (fst run)) (snd (fst run)) (snd run)
              "/video" 1 1 2 1 0%Z eq_refl Hin) as (_ & Hinv & _).
  destruct (Hinv H0 H1) as (Hd & Hlog).
  exact (conj Hin (conj H0 (conj H1 (conj Hd Hlog)))).
Defined.

Lemma looked_up_again {A} (eqb : A -> A -> bool) truthy requested caps cur :
  looked_up eqb truthy requested caps
    (looked_up eqb truthy requested caps cur)
  = looked_up eqb truthy requested caps cur.
Proof.
  destruct (looked_up_cases eqb truthy requested caps cur) as [Hv|E].
  - apply (looked_up_valid _ _ _ _ _ _ Hv).
  - now rewrite !E.
Qed.

Lemma display_choice_again requested cur :
  display_choice requested (fst (display_choice requested cur))
  = (fst (display_choice requested cur), snd (display_choice requested cur)).
Proof.
  unfold display_choice. destruct requested as [d|]; [|reflexivity].
  destruct (py_in Z.eqb d [0; 1]%Z); reflexivity.
Qed.

Lemma info_logs_sent logs path p :
  info_logs logs = [] -> info_logs (logs ++ [EvPost path p]) = [].
Proof.
  intros H. unfold info_logs in *. now rewrite filter_app, H.
Qed.

Lemma info_logs_display_choice requested cur :
  info_logs (snd (display_choice requested cur)) = [].
Proof.
  unfold display_choice. destruct requested as [d|]; [|reflexivity].
  destruct (py_in Z.eqb d [0; 1]%Z); reflexivity.
Qed.

(** X6: repeating an acknowledged [configure_preview] with the same
    arguments, whatever the device answers the second time.  The second
    call sends the request of the first again, logs no value as changed
    and leaves the client as the first call left it; it returns the
    [status] of the second answer, or raises the exception the transport
    raises on the second request. *)
Theorem configure_preview_twice resolution encode bitrate framerate
    display_out_arg self self1 tr1 (ipc2 : IpcProvider.t) :
  configure_preview resolution encode bitrate framerate display_out_arg self
    = (Return true, self1, tr1) ->
  exists p tr2,
    requests tr1 = [EvPost "/video" p] /\
    configure_preview resolution encode bitrate framerate display_out_arg
      (answering ipc2 self1)
    = (match IpcProvider.post ipc2 "/video" p with
       | Return r2 => Return (status r2)
       | Raise e => Raise e
       end, answering ipc2 self1, tr2) /\
    requests tr2 = [EvPost "/video" p] /\
    info_logs tr2 = [].
Proof.
  intros Hrun.
  destruct (configure_preview_ends _ _ _ _ _ _ _ _ _ Hrun)
    as [[_ Hno]|(res & enc & bit & fps & Hres & Henc & Hbit & Hfps & _ & Hs)];
    [now destruct Hno|]. cbv zeta in *.
  pose proof (configure_preview_exact resolution encode bitrate framerate
                display_out_arg self res enc bit fps Hres Henc Hbit Hfps) as Hex.
  cbv zeta in Hex. rewrite Hrun in Hex.
  set (vres := looked_up String.eqb truthy_str resolution (resolutions self)
                 (cur_resolution self)) in *.
  set (venc := looked_up String.eqb truthy_str encode (encodetype self)
                 (cur_codec self)) in *.
  set (vbit := looked_up String.eqb truthy_str bitrate (bitrates self)
                 (cur_bitrate self)) in *.
  set (vfps := looked_up Z.eqb truthy_int framerate (framerates self)
                 (cur_framerate self)) in *.
  set (d := fst (display_choice display_out_arg (display_out self))) in *.
  set (logs := snd (display_choice display_out_arg (display_out self))) in *.
  set (p := VideoSelect res enc bit fps d) in *.
  destruct (IpcProvider.post (ipc_provider self) "/video" p) as [r|e] eqn:Hpost;
    [|discriminate].
  destruct (status r) eqn:Hst; [|discriminate].
  injection Hex as _ Htr.
  set (self2 := answering ipc2 self1).
  assert (Hres2 : py_index String.eqb
            (looked_up String.eqb truthy_str resolution (resolutions self2)
               (cur_resolution self2)) (resolutions self2) = Some res).
  { subst self2 self1.
    change (resolutions (answering ipc2 (updated self vres venc vbit vfps d)))
      with (resolutions self).
    change (cur_resolution (answering ipc2 (updated self vres venc vbit vfps d)))
      with vres.
    unfold vres. now rewrite looked_up_again. }
  assert (Henc2 : py_index String.eqb
            (looked_up String.eqb truthy_str encode (encodetype self2)
               (cur_codec self2)) (encodetype self2) = Some enc).
  { subst self2 self1.
    change (encodetype (answering ipc2 (updated self vres venc vbit vfps d)))
      with (encodetype self).
    change (cur_codec (answering ipc2 (updated self vres venc vbit vfps d)))
      with venc.
    unfold venc. now rewrite looked_up_again. }
  assert (Hbit2 : py_index String.eqb
            (looked_up String.eqb truthy_str bitrate (bitrates self2)
               (cur_bitrate self2)) (bitrates self2) = Some bit).
  { subst self2 self1.
    change (bitrates (answering ipc2 (updated self vres venc vbit vfps d)))
      with (bitrates self).
    change (cur_bitrate (answering ipc2 (updated self vres venc vbit vfps d)))
      with vbit.
    unfold vbit. now rewrite looked_up_again. }
  assert (Hfps2 : py_index Z.eqb
            (looked_up Z.eqb truthy_int framerate (framerates self2)
               (cur_framerate self2)) (framerates self2) = Some fps).
  { subst self2 self1.
    change (framerates (answering ipc2 (updated self vres venc vbit vfps d)))
      with (framerates self).
    change (cur_framerate (answering ipc2 (updated self vres venc vbit vfps d)))
      with vfps.
    unfold vfps. now rewrite looked_up_again. }
  pose proof (configure_preview_exact resolution encode bitrate framerate
                display_out_arg self2 res enc bit fps Hres2 Henc2 Hbit2 Hfps2)
    as Hex2.
  cbv zeta in Hex2.
  assert (Hd2 : display_choice display_out_arg (display_out self2) = (d, logs)).
  { subst self2 self1.
    change (display_out (answering ipc2 (updated self vres venc vbit vfps d)))
      with d.
    apply display_choice_again. }
  rewrite Hd2 in Hex2. cbn [fst snd] in Hex2. fold p in Hex2.
  change (ipc_provider self2) with ipc2 in Hex2.
  assert (Hv2 : looked_up String.eqb truthy_str resolution (resolutions self2)
                  (cur_resolution self2) = cur_resolution self2
                /\ looked_up String.eqb truthy_str encode (encodetype self2)
                     (cur_codec self2) = cur_codec self2
                /\ looked_up String.eqb truthy_str bitrate (bitrates self2)
                     (cur_bitrate self2) = cur_bitrate self2
                /\ looked_up Z.eqb truthy_int framerate (framerates self2)
                     (cur_framerate self2) = cur_framerate self2
                /\ d = display_out self2).
  { subst self2 self1. repeat split; apply looked_up_again. }
  destruct Hv2 as (E1 & E2 & E3 & E4 & E5).
  rewrite E1, E2, E3, E4, E5, updated_same, changes_same, app_nil_r in Hex2.
  pose proof (display_choice_no_request display_out_arg (display_out self))
    as Hlogs. fold logs in Hlogs.
  assert (Hreq : requests (logs ++ [EvPost "/video" p]) = [EvPost "/video" p])
    by (now apply requests_sent).
  assert (Hinfo : info_logs (logs ++ [EvPost "/video" p]) = [])
    by (apply info_logs_sent; apply info_logs_display_choice).
  exists p, (logs ++ [EvPost "/video" p]).
  split; [|split; [|split; [exact Hreq|exact Hinfo]]].
  - rewrite Htr.
    apply (requests_sent logs (changes self vres venc vbit vfps d));
      [assumption|apply changes_no_request].
  - rewrite Hex2.
    destruct (IpcProvider.post ipc2 "/video" p) as [r2|e2]; [|reflexivity].
    destruct (status r2); reflexivity.
Qed.

Lemma configure_preview_twice_witness :
  let first := configure_preview (Some "720P") None None (Some 24%Z)
                 (Some 1%Z) sample_client in
  let refusing := camera_reporting video_info false in
  let p := VideoSelect 2 1 2 0 1%Z in
  first = (Return true, snd (fst first), snd first) /\
  requests (snd first) = [EvPost "/video" p] /\
  exists tr2,
    configure_preview (Some "720P") None None (Some 24%Z) (Some 1%Z)
      (answering refusing (snd (fst first)))
    = (Return false, answering refusing (snd (fst first)), tr2) /\
    requests tr2 = [EvPost "/video" p] /\
    info_logs tr2 = [].
Proof.
  intros first refusing p.
  assert (Hfirst : first = (Return true, snd (fst first), snd first))
    by (vm_compute; reflexivity).
  assert (Hsent : requests (snd first) = [EvPost "/video" p])
    by (vm_compute; reflexivity).
  destruct (configure_preview_twice (Some "720P") None None (Some 24%Z)
              (Some 1%Z) sample_client (snd (fst first)) (snd first) refusing
              Hfirst) as (p' & tr2 & Hp & Hrun & Hreq & Hinfo).
  assert (Epp : p' = p) by congruence.
  subst p'.
  exact (conj Hfirst (conj Hsent
           (ex_intro _ tr2 (conj Hrun (conj Hreq Hinfo))))).
Defined.

(** ** The capability refresh *)

Lemma getitem_py_run {A} (l : list A) (i : Z) (x : A) self :
  py_getitem l i = Some x -> getitem l i self = (Return x, self, []).
Proof. intros H. unfold getitem. now rewrite H. Qed.

Lemma refresh_exact self r vr ve vb vf :
  IpcProvider.get (ipc_provider self) "/video" Empty = Return r ->
  status r = true ->
  py_getitem (resolution r) (resolutionSelectVal r) = Some vr ->
  py_getitem (encodeMode r) (encodeModeSelectVal r) = Some ve ->
  py_getitem (bitRate r) (bitRateSelectVal r) = Some vb ->
  py_getitem (fps r) (fpsSelectVal r) = Some vf ->
  _get_supported_params self
  = (Return true, loaded self r vr ve vb vf,
     [EvGet "/video" Empty;
      EvLogInfo "resolutions: %s" [LStrList (resolution r)];
      EvLogInfo "encodetype: %s" [LStrList (encodeMode r)];
      EvLogInfo "bitrates: %s" [LStrList (bitRate r)];
      EvLogInfo "framerates: %s" [LIntList (fps r)];
      EvLogInfo "Current preview settings:" [];
      EvLogInfo "resolution: %s" [LStr vr];
      EvLogInfo "encodetype: %s" [LStr ve];
      EvLogInfo "bitrate: %s" [LStr vb];
      EvLogInfo "framerate: %s" [LInt vf];
      EvLogInfo "display_out: %s" [LInt (displayOut r)]]).
Proof.
  intros Hget Hst Hr He Hb Hf.
  unfold _get_supported_params, bind, ipc_get, when, getitem, assign,
    log_info, emit, ret, loaded.
  rewrite Hget. cbv beta iota. rewrite Hst. cbv beta iota.
  rewrite Hr. cbv beta iota. rewrite He. cbv beta iota.
  rewrite Hb. cbv beta iota. rewrite Hf. cbv beta iota.
  reflexivity.
Qed.

Lemma loaded_consistent self r vr ve vb vf :
  py_getitem (resolution r) (resolutionSelectVal r) = Some vr ->
  py_getitem (encodeMode r) (encodeModeSelectVal r) = Some ve ->
  py_getitem (bitRate r) (bitRateSelectVal r) = Some vb ->
  py_getitem (fps r) (fpsSelectVal r) = Some vf ->
  consistent (loaded self r vr ve vb vf).
Proof.
  intros Hr He Hb Hf. repeat split.
  - exact (py_getitem_in_str _ _ _ Hr).
  - exact (py_getitem_in_str _ _ _ He).
  - exact (py_getitem_in_str _ _ _ Hb).
  - exact (py_getitem_in_Z _ _ _ Hf).
Qed.

(** X7: a capability query answered with a true [status] and four indices
    in range (negative ones counting from the end) makes
    [_get_supported_params] return [True] after one [GET /video]; the
    client then holds the reported lists, the entries the indices select
    and the reported [displayOut]; every current value is in its list, and
    the stream state is untouched. *)
Theorem refresh_loads_configuration self r vr ve vb vf :
  IpcProvider.get (ipc_provider self) "/video" Empty = Return r ->
  status r = true ->
  py_getitem (resolution r) (resolutionSelectVal r) = Some vr ->
  py_getitem (encodeMode r) (encodeModeSelectVal r) = Some ve ->
  py_getitem (bitRate r) (bitRateSelectVal r) = Some vb ->
  py_getitem (fps r) (fpsSelectVal r) = Some vf ->
  exists self' tr,
    _get_supported_params self = (Return true, self', tr) /\
    requests tr = [EvGet "/video" Empty] /\
    (resolutions self', encodetype self', bitrates self', framerates self')
    = (resolution r, encodeMode r, bitRate r, fps r) /\
    (cur_resolution self', cur_codec self', cur_bitrate self',
     cur_framerate self', display_out self')
    = (vr, ve, vb, vf, displayOut r) /\
    consistent self' /\
    same_streams self self'.
Proof.
  intros Hget Hst Hr He Hb Hf.
  eexists _, _. split; [exact (refresh_exact self r vr ve vb vf Hget Hst Hr He Hb Hf)|].
  split; [reflexivity|]. split; [reflexivity|]. split; [reflexivity|].
  split; [now apply loaded_consistent|repeat split].
Qed.

Lemma refresh_loads_configuration_witness :
  let self := __init__ (camera_reporting video_info_last_rate true) in
  py_getitem (fps video_info_last_rate) (fpsSelectVal video_info_last_rate)
    = Some 30%Z /\
  exists self' tr,
    _get_supported_params self = (Return true, self', tr) /\
    requests tr = [EvGet "/video" Empty] /\
    (cur_resolution self', cur_codec self', cur_bitrate self',
     cur_framerate self', display_out self')
    = ("1080P", "AVC/H.264", "1Mbps", 30%Z, 1%Z) /\
    consistent self'.
Proof.
  intros self.
  destruct (refresh_loads_configuration self video_info_last_rate
              "1080P" "AVC/H.264" "1Mbps" 30%Z
              eq_refl eq_refl eq_refl eq_refl eq_refl eq_refl)
    as (self' & tr & Hrun & Hreq & _ & Hcur & Hcons & _).
  split; [reflexivity|].
  exists self', tr. exact (conj Hrun (conj Hreq (conj Hcur Hcons))).
Defined.

(** X8: the ways [_get_supported_params] fails.  An exception of the
    transport passes through and a false [status] returns [False], both
    with the client untouched.  A true [status] with an index out of range
    raises [IndexError] with nothing logged, after the capability lists up
    to that field have been replaced: the [resolutions] list is the
    reported one in every such case, while the current resolution is still
    the old one when it is the resolution index that is out of range. *)
Theorem refresh_failures self :
  (forall e, IpcProvider.get (ipc_provider self) "/video" Empty = Raise e ->
             _get_supported_params self
             = (Raise e, self, [EvGet "/video" Empty])) /\
  (forall r, IpcProvider.get (ipc_provider self) "/video" Empty = Return r ->
             status r = false ->
             _get_supported_params self
             = (Return false, self, [EvGet "/video" Empty])) /\
  (forall r, IpcProvider.get (ipc_provider self) "/video" Empty = Return r ->
             status r = true ->
             py_getitem (resolution r) (resolutionSelectVal r) = None \/
             py_getitem (encodeMode r) (encodeModeSelectVal r) = None \/
             py_getitem (bitRate r) (bitRateSelectVal r) = None \/
             py_getitem (fps r) (fpsSelectVal r) = None ->
             exists self',
               _get_supported_params self
               = (Raise IndexError, self', [EvGet "/video" Empty]) /\
               resolutions self' = resolution r /\
               display_out self' = display_out self /\
               same_streams self self' /\
               (py_getitem (resolution r) (resolutionSelectVal r) = None ->
                cur_resolution self' = cur_resolution self)).
Proof.
  split; [|split].
  - intros e Hget.
    unfold _get_supported_params, bind, ipc_get. now rewrite Hget.
  - intros r Hget Hst.
    unfold _get_supported_params, bind, ipc_get, when, ret.
    rewrite Hget. cbv beta iota. rewrite Hst. reflexivity.
  - intros r Hget Hst Hbad.
    unfold _get_supported_params, bind, ipc_get, when, getitem, assign,
      log_info, emit, ret.
    rewrite Hget. cbv beta iota. rewrite Hst. cbv beta iota.
    destruct (py_getitem (resolution r) (resolutionSelectVal r)) as [vr|];
      cbv beta iota;
      [|eexists; split; [reflexivity|repeat split]].
    destruct (py_getitem (encodeMode r) (encodeModeSelectVal r)) as [ve|];
      cbv beta iota;
      [|eexists; split; [reflexivity|repeat split; discriminate]].
    destruct (py_getitem (bitRate r) (bitRateSelectVal r)) as [vb|];
      cbv beta iota;
      [|eexists; split; [reflexivity|repeat split; discriminate]].
    destruct (py_getitem (fps r) (fpsSelectVal r)) as [vf|];
      cbv beta iota;
      [|eexists; split; [reflexivity|repeat split; discriminate]].
    destruct Hbad as [H|[H|[H|H]]]; discriminate.
Qed.

Lemma refresh_failures_witness :
  let self := __init__ (camera_reporting video_info_bad_codec true) in
  let r := video_info_bad_codec in
  IpcProvider.get (ipc_provider self) "/video" Empty = Return r /\
  status r = true /\
  py_getitem (encodeMode r) (encodeModeSelectVal r) = None /\
  exists self',
    _get_supported_params self
    = (Raise IndexError, self', [EvGet "/video" Empty]) /\
    resolutions self' = ["4K"; "1080P"].
Proof.
  intros self r.
  destruct (proj2 (proj2 (refresh_failures self)) r eq_refl eq_refl
              (or_intror (or_introl eq_refl)))
    as (self' & Hrun & Hres & _).
  split; [reflexivity|split; [reflexivity|split; [reflexivity|]]].
  exists self'. exact (conj Hrun Hres).
Defined.

Lemma py_getitem_position {A} (l : list A) (i : Z) (x : A) :
  py_getitem l i = Some x -> nth_error l (py_position l i) = Some x.
Proof.
  unfold py_getitem, py_position. destruct (0 <=? i)%Z; [auto|].
  destruct (- Z.of_nat (List.length l) <=? i)%Z; [auto|discriminate].
Qed.

(** X9: a capability refresh followed by a [configure_preview] that
    requests nothing is a round trip.  When the reported lists have no
    repeated entry, the one [POST /video] of the second call carries the
    positions the device itself selected (a negative index as the position
    it stands for) and the reported [displayOut]; and whatever the device
    answers to it, the client stays as the refresh left it. *)
Theorem refresh_then_configure_preview self r vr ve vb vf :
  IpcProvider.get (ipc_provider self) "/video" Empty = Return r ->
  status r = true ->
  py_getitem (resolution r) (resolutionSelectVal r) = Some vr ->
  py_getitem (encodeMode r) (encodeModeSelectVal r) = Some ve ->
  py_getitem (bitRate r) (bitRateSelectVal r) = Some vb ->
  py_getitem (fps r) (fpsSelectVal r) = Some vf ->
  NoDup (resolution r) -> NoDup (encodeMode r) ->
  NoDup (bitRate r) -> NoDup (fps r) ->
  let run := (_get_supported_params ;;
              configure_preview None None None None None) self in
  requests (snd run)
  = [EvGet "/video" Empty;
     EvPost "/video"
       (VideoSelect (py_position (resolution r) (resolutionSelectVal r))
          (py_position (encodeMode r) (encodeModeSelectVal r))
          (py_position (bitRate r) (bitRateSelectVal r))
          (py_position (fps r) (fpsSelectVal r))
          (displayOut r))] /\
  snd (fst run) = loaded self r vr ve vb vf.
Proof.
  intros Hget Hst Hr He Hb Hf Nr Ne Nb Nf run.
  pose proof (refresh_exact self r vr ve vb vf Hget Hst Hr He Hb Hf) as Href.
  set (L := loaded self r vr ve vb vf) in *.
  set (res := py_position (resolution r) (resolutionSelectVal r)).
  set (enc := py_position (encodeMode r) (encodeModeSelectVal r)).
  set (bit := py_position (bitRate r) (bitRateSelectVal r)).
  set (fps' := py_position (fps r) (fpsSelectVal r)).
  assert (Hres : py_index String.eqb
            (looked_up String.eqb truthy_str None (resolutions L)
               (cur_resolution L)) (resolutions L) = Some res)
    by exact (py_index_of_nth String.eqb _ _ _ String.eqb_eq Nr
                (py_getitem_position _ _ _ Hr)).
  assert (Henc : py_index String.eqb
            (looked_up String.eqb truthy_str None (encodetype L)
               (cur_codec L)) (encodetype L) = Some enc)
    by exact (py_index_of_nth String.eqb _ _ _ String.eqb_eq Ne
                (py_getitem_position _ _ _ He)).
  assert (Hbit : py_index String.eqb
            (looked_up String.eqb truthy_str None (bitrates L)
               (cur_bitrate L)) (bitrates L) = Some bit)
    by exact (py_index_of_nth String.eqb _ _ _ String.eqb_eq Nb
                (py_getitem_position _ _ _ Hb)).
  assert (Hfps : py_index Z.eqb
            (looked_up Z.eqb truthy_int None (framerates L)
               (cur_framerate L)) (framerates L) = Some fps')
    by exact (py_index_of_nth Z.eqb _ _ _ Z.eqb_eq Nf
                (py_getitem_position _ _ _ Hf)).
  pose proof (configure_preview_exact None None None None None L
                res enc bit fps' Hres Henc Hbit Hfps) as Hex.
  cbv zeta in Hex.
  change (fst (display_choice None (display_out L))) with (displayOut r) in Hex.
  set (logs := snd (display_choice None (display_out L))) in *.
  set (p := VideoSelect res enc bit fps' (displayOut r)) in *.
  assert (Hlogs : no_request logs) by reflexivity.
  assert (Hsame : updated L
            (looked_up String.eqb truthy_str None (resolutions L) (cur_resolution L))
            (looked_up String.eqb truthy_str None (encodetype L) (cur_codec L))
            (looked_up String.eqb truthy_str None (bitrates L) (cur_bitrate L))
            (looked_up Z.eqb truthy_int None (framerates L) (cur_framerate L))
            (displayOut r) = L)
    by exact (updated_same L).
  rewrite Hsame in Hex.
  subst run. rewrite (bind_Return _ _ _ _ _ _ Href), Hex.
  assert (Hreq : forall infos, no_request infos ->
            requests
              ([EvGet "/video" Empty;
                EvLogInfo "resolutions: %s" [LStrList (resolution r)];
                EvLogInfo "encodetype: %s" [LStrList (encodeMode r)];
                EvLogInfo "bitrates: %s" [LStrList (bitRate r)];
                EvLogInfo "framerates: %s" [LIntList (fps r)];
                EvLogInfo "Current preview settings:" [];
                EvLogInfo "resolution: %s" [LStr vr];
                EvLogInfo "encodetype: %s" [LStr ve];
                EvLogInfo "bitrate: %s" [LStr vb];
                EvLogInfo "framerate: %s" [LInt vf];
                EvLogInfo "display_out: %s" [LInt (displayOut r)]]
               ++ logs ++ EvPost "/video" p :: infos)
            = [EvGet "/video" Empty; EvPost "/video" p]).
  { intros infos Hinfos. unfold requests. rewrite filter_app.
    cbn [filter is_request app].
    f_equal. now apply requests_sent. }
  destruct (IpcProvider.post (ipc_provider L) "/video" p) as [a|e].
  - destruct (status a); cbn [fst snd]; (split; [|reflexivity]).
    + apply Hreq, changes_no_request.
    + now apply Hreq.
  - cbn [fst snd]; split; [now apply Hreq|reflexivity].
Qed.

Lemma refresh_then_configure_preview_witness :
  let self := __init__ (camera_reporting video_info_last_rate false) in
  let r := video_info_last_rate in
  let run := (_get_supported_params ;;
              configure_preview None None None None None) self in
  py_getitem (fps r) (fpsSelectVal r) = Some 30%Z /\
  requests (snd run)
  = [EvGet "/video" Empty; EvPost "/video" (VideoSelect 1 1 2 1 1%Z)] /\
  snd (fst run) = loaded self r "1080P" "AVC/H.264" "1Mbps" 30%Z.
Proof.
  intros self r run.
  assert (Nr : NoDup (resolution r))
    by (repeat constructor; simpl; intuition discriminate).
  assert (Ne : NoDup (encodeMode r))
    by (repeat constructor; simpl; intuition discriminate).
  assert (Nb : NoDup (bitRate r))
    by (repeat constructor; simpl; intuition discriminate).
  assert (Nf : NoDup (fps r))
    by (repeat constructor; simpl; intuition discriminate).
  split; [reflexivity|].
  exact (refresh_then_configure_preview self r "1080P" "AVC/H.264" "1Mbps"
           30%Z eq_refl eq_refl eq_refl eq_refl eq_refl eq_refl Nr Ne Nb Nf).
Defined.

(** ** Stream URLs, again *)

Lemma rfind_None_contains sub s :
  PyStr.rfind sub s = None <-> PyStr.contains sub s = false.
Proof.
  induction s as [|c t IH].
  - cbn [PyStr.rfind PyStr.contains]. destruct (prefix sub ""); simpl.
    + split; discriminate.
    + tauto.
  - cbn [PyStr.rfind PyStr.contains].
    destruct (PyStr.rfind sub t) as [i|].
    + split; [discriminate|]. intros H.
      apply orb_false_iff in H as [_ H]. apply IH in H. discriminate.
    + destruct (prefix sub (String c t)); simpl.
      * split; discriminate.
      * split; intros _; [now apply IH|reflexivity].
Qed.

Lemma rfind_app sub head s i :
  PyStr.rfind sub s = Some i ->
  PyStr.rfind sub (head ++ s)%string = Some (String.length head + i)%nat.
Proof.
  intros H. induction head as [|c h IH]; [exact H|].
  cbn [append PyStr.rfind String.length]. now rewrite IH.
Qed.

Lemma slice_from_app head s :
  PyStr.slice_from (String.length head + 0) (head ++ s)%string = s.
Proof.
  induction head as [|c h IH]; [now destruct s|]. exact IH.
Qed.

(** The last colon of [head ++ ":" ++ tail] when [tail] has none. *)
Lemma rfind_last_colon head tail :
  PyStr.contains ":" tail = false ->
  PyStr.rfind ":" (head ++ ":" ++ tail)%string
  = Some (String.length head + 0)%nat.
Proof.
  intros Htail. apply rfind_app.
  apply rfind_None_contains in Htail.
  change (":" ++ tail)%string with (String ":" tail).
  assert (Hp : prefix ":" (String ":" tail) = true)
    by (destruct tail; reflexivity).
  cbn [PyStr.rfind]. now rewrite Htail, Hp.
Qed.

Lemma resolve_head_tail head tail device_ip self :
  PyStr.contains ":" tail = false ->
  resolve (head ++ ":" ++ tail) device_ip self
  = (Return (if PyStr.contains DOCKER_IP_PREFIX device_ip
             then (head ++ ":" ++ tail)%string
             else ("rtsp://" ++ device_ip ++ ":" ++ tail)%string),
     self, []).
Proof.
  intros Htail. unfold resolve.
  rewrite (rfind_last_colon head tail Htail), slice_from_app.
  destruct (PyStr.contains DOCKER_IP_PREFIX device_ip); reflexivity.
Qed.

(** X10: what [_get_preview_info] and [_get_vam_info] keep of a raw URL:
    everything up to the last colon is replaced by ["rtsp://"] and the
    address of the device, and the rest, from that colon on, is kept as it
    is, unless the address contains ["172.17"], in which case the raw URL
    is kept whole.  Nothing is requested or logged on the way. *)
Theorem resolve_replaces_head head tail device_ip self :
  PyStr.contains ":" tail = false ->
  resolve (head ++ ":" ++ tail) device_ip self
  = (Return (if PyStr.contains DOCKER_IP_PREFIX device_ip
             then (head ++ ":" ++ tail)%string
             else ("rtsp://" ++ device_ip ++ ":" ++ tail)%string),
     self, []).
Proof. exact (resolve_head_tail head tail device_ip self). Qed.

Lemma resolve_replaces_head_witness :
  PyStr.contains ":" "//10.0.0.5/live" = false /\
  resolve "rtsp://10.0.0.5/live" "203.0.113.9" sample_client
  = (Return "rtsp://203.0.113.9://10.0.0.5/live", sample_client, []).
Proof.
  split; [reflexivity|].
  exact (resolve_replaces_head "rtsp" "//10.0.0.5/live" "203.0.113.9"
           sample_client eq_refl).
Defined.

(** Every string with a colon splits at its last colon. *)
Lemma split_last_colon s i :
  PyStr.rfind ":" s = Some i ->
  exists head tail,
    s = (head ++ ":" ++ tail)%string /\ PyStr.contains ":" tail = false.
Proof.
  revert i. induction s as [|c t IH]; intros i.
  - cbn. discriminate.
  - cbn [PyStr.rfind]. destruct (PyStr.rfind ":" t) as [j|] eqn:E.
    + intros _. destruct (IH j eq_refl) as (head & tail & -> & Htail).
      exists (String c head), tail. split; [reflexivity|assumption].
    + destruct (prefix ":" (String c t)) eqn:Hp; [|discriminate].
      intros _. exists "", t. split.
      * apply prefix_correct in Hp. cbn [String.length substring] in Hp.
        now injection Hp as ->.
      * now apply rfind_None_contains.
Qed.

(** X11: resolving is idempotent: a URL that [resolve] has produced for a
    device address is resolved to itself for that address, and in
    particular never raises. *)
Theorem resolve_idempotent raw_url device_ip u self self' :
  resolve raw_url device_ip self = (Return u, self', []) ->
  resolve u device_ip self = (Return u, self, []).
Proof.
  unfold resolve at 1.
  destruct (PyStr.rfind ":" raw_url) as [i|] eqn:Hidx; [|discriminate].
  destruct (split_last_colon _ _ Hidx) as (head & tail & -> & Htail).
  rewrite (rfind_last_colon head tail Htail) in Hidx.
  injection Hidx as <-. rewrite slice_from_app.
  destruct (PyStr.contains DOCKER_IP_PREFIX device_ip) eqn:Hd;
    cbn [negb]; intros [= <- _].
  - pose proof (resolve_head_tail head tail device_ip self Htail) as H.
    rewrite Hd in H. exact H.
  - pose proof (resolve_head_tail ("rtsp://" ++ device_ip) tail device_ip
                  self Htail) as H.
    rewrite Hd in H. exact H.
Qed.

Lemma resolve_idempotent_witness :
  resolve "rtsp://10.0.0.5:8554/live" "203.0.113.9" sample_client
  = (Return "rtsp://203.0.113.9:8554/live", sample_client, []) /\
  resolve "rtsp://203.0.113.9:8554/live" "203.0.113.9" sample_client
  = (Return "rtsp://203.0.113.9:8554/live", sample_client, []).
Proof.
  split; [reflexivity|].
  exact (resolve_idempotent "rtsp://10.0.0.5:8554/live" "203.0.113.9"
           "rtsp://203.0.113.9:8554/live" sample_client sample_client eq_refl).
Defined.

(** ** The info queries and the switches *)

Lemma resolve_pure raw_url device_ip self :
  resolve raw_url device_ip self = (Raise ValueError, self, []) /\
  PyStr.contains ":" raw_url = false
  \/
  exists u, resolve raw_url device_ip self = (Return u, self, []) /\
            PyStr.contains ":" raw_url = true.
Proof.
  unfold resolve.
  destruct (PyStr.rfind ":" raw_url) as [i|] eqn:E.
  - right. assert (Hc : PyStr.contains ":" raw_url = true).
    { destruct (PyStr.contains ":" raw_url) eqn:Hc; [reflexivity|].
      apply rfind_None_contains in Hc. congruence. }
    destruct (negb (PyStr.contains DOCKER_IP_PREFIX device_ip));
      eexists; (split; [reflexivity|exact Hc]).
  - left. split; [reflexivity|]. now apply rfind_None_contains.
Qed.

Lemma get_preview_info_exact self r :
  IpcProvider.get (ipc_provider self) "/preview" Empty = Return r ->
  _get_preview_info self
  = match url r with
    | None =>
        (Return None, set_preview_running (status r) (set_preview_url None self),
         [EvGet "/preview" Empty; EvLogInfo "preview url: %s" [LNone]])
    | Some raw =>
        match resolve raw (IpcProvider.ip_address (ipc_provider self)) self with
        | (Return u, _, _) =>
            (Return (Some u),
             set_preview_running (status r) (set_preview_url (Some u) self),
             [EvGet "/preview" Empty; EvLogInfo "preview url: %s" [LStr u]])
        | (Raise e, _, _) => (Raise e, self, [EvGet "/preview" Empty])
        end
    end.
Proof.
  intros Hget.
  unfold _get_preview_info, bind at 1, ipc_get. rewrite Hget. cbv beta iota.
  rewrite (bind_Return _ _ self self self [] eq_refl).
  destruct (url r) as [raw|]; [|reflexivity].
  destruct (resolve_pure raw (IpcProvider.ip_address (ipc_provider self)) self)
    as [[Hr _]|(u & Hr & _)]; rewrite Hr.
  - rewrite (bind_Raise _ _ _ _ _ _ (bind_Raise _ _ _ _ _ _ Hr)). reflexivity.
  - assert (Hin : (u <- resolve raw (IpcProvider.ip_address (ipc_provider self)) ;;
                   assign (set_preview_url (Some u))) self
                  = (Return tt, set_preview_url (Some u) self, []))
      by (rewrite (bind_Return _ _ _ _ _ _ Hr); reflexivity).
    rewrite (bind_Return _ _ _ _ _ _ Hin). reflexivity.
Qed.

Lemma get_vam_info_exact self r :
  IpcProvider.get (ipc_provider self) "/vam" Empty = Return r ->
  _get_vam_info self
  = match url r with
    | None =>
        (Return None, set_vam_running (status r) (set_vam_url None self),
         [EvGet "/vam" Empty; EvLogInfo "RESPONSE: %s: " [LResponse r];
          EvLogInfo "vam url: %s" [LNone]])
    | Some raw =>
        match resolve raw (IpcProvider.ip_address (ipc_provider self)) self with
        | (Return u, _, _) =>
            (Return (Some u),
             set_vam_running (status r) (set_vam_url (Some u) self),
             [EvGet "/vam" Empty; EvLogInfo "RESPONSE: %s: " [LResponse r];
              EvLogInfo "vam url: %s" [LStr u]])
        | (Raise e, _, _) =>
            (Raise e, self,
             [EvGet "/vam" Empty; EvLogInfo "RESPONSE: %s: " [LResponse r]])
        end
    end.
Proof.
  intros Hget.
  unfold _get_vam_info, bind at 1, ipc_get. rewrite Hget. cbv beta iota.
  unfold bind at 1. unfold log_info at 1, emit at 1. cbv beta iota.
  rewrite (bind_Return _ _ self self self [] eq_refl).
  destruct (url r) as [raw|]; [|reflexivity].
  destruct (resolve_pure raw (IpcProvider.ip_address (ipc_provider self)) self)
    as [[Hr _]|(u & Hr & _)]; rewrite Hr.
  - rewrite (bind_Raise _ _ _ _ _ _ (bind_Raise _ _ _ _ _ _ Hr)). reflexivity.
  - assert (Hin : (u <- resolve raw (IpcProvider.ip_address (ipc_provider self)) ;;
                   assign (set_vam_url (Some u))) self
                  = (Return tt, set_vam_url (Some u) self, []))
      by (rewrite (bind_Return _ _ _ _ _ _ Hr); reflexivity).
    rewrite (bind_Return _ _ _ _ _ _ Hin). reflexivity.
Qed.

(** *** What a method leaves alone *)

Section Keeps.

Variable R : CameraClient -> CameraClient -> Prop.
Hypothesis R_refl : forall s, R s s.
Hypothesis R_trans : forall s1 s2 s3, R s1 s2 -> R s2 s3 -> R s1 s3.

Lemma keeps_ret {A} (a : A) : keeps R (ret a).
Proof. intros s o s' tr [= _ <- _]. apply R_refl. Qed.

Lemma keeps_raise {A} (e : exn) : keeps R (raise (A := A) e).
Proof. intros s o s' tr [= _ <- _]. apply R_refl. Qed.

Lemma keeps_get_self : keeps R get_self.
Proof. intros s o s' tr [= _ <- _]. apply R_refl. Qed.

Lemma keeps_emit ev : keeps R (emit ev).
Proof. intros s o s' tr [= _ <- _]. apply R_refl. Qed.

Lemma keeps_ipc_get path p : keeps R (ipc_get path p).
Proof. intros s o s' tr [= _ <- _]. apply R_refl. Qed.

Lemma keeps_ipc_post path p : keeps R (ipc_post path p).
Proof. intros s o s' tr [= _ <- _]. apply R_refl. Qed.

Lemma keeps_ipc_logout : keeps R ipc_logout.
Proof. intros s o s' tr [= _ <- _]. apply R_refl. Qed.

Lemma keeps_assign f : (forall s, R s (f s)) -> keeps R (assign f).
Proof. intros Hf s o s' tr [= _ <- _]. apply Hf. Qed.

Lemma keeps_bind {A B} (m : M A) (k : A -> M B) :
  keeps R m -> (forall a, keeps R (k a)) -> keeps R (bind m k).
Proof.
  intros Hm Hk s o s' tr. unfold bind.
  destruct (m s) as [[[a|e] s1] tr1] eqn:E.
  - destruct (k a s1) as [[o2 s2] tr2] eqn:E2. intros [= _ <- _].
    eapply R_trans; [eapply Hm; eassumption|eapply Hk; eassumption].
  - intros [= _ <- _]. eapply Hm; eassumption.
Qed.

Lemma keeps_when b m : keeps R m -> keeps R (when b m).
Proof. intros Hm. destruct b; [exact Hm|apply keeps_ret]. Qed.

Lemma keeps_try_except {A} (m : M A) h :
  keeps R m -> (forall e, keeps R (h e)) -> keeps R (try_except m h).
Proof.
  intros Hm Hh s o s' tr. unfold try_except.
  destruct (m s) as [[[a|e] s1] tr1] eqn:E.
  - intros [= _ <- _]. eapply Hm; eassumption.
  - destruct (is_Exception e).
    + destruct (h e s1) as [[o2 s2] tr2] eqn:E2. intros [= _ <- _].
      eapply R_trans; [eapply Hm; eassumption|eapply Hh; eassumption].
    + intros [= _ <- _]. eapply Hm; eassumption.
Qed.

Lemma keeps_try_finally {A} (m : M A) fin :
  keeps R m -> keeps R fin -> keeps R (try_finally m fin).
Proof.
  intros Hm Hf s o s' tr. unfold try_finally.
  destruct (m s) as [[o1 s1] tr1] eqn:E.
  destruct (fin s1) as [[[u|e] s2] tr2] eqn:E2; intros [= _ <- _];
    (eapply R_trans; [eapply Hm; eassumption|eapply Hf; eassumption]).
Qed.

Lemma keeps_parse_state state : keeps R (parse_state state).
Proof.
  unfold parse_state.
  destruct (PyStr.lower state =? "on"); [apply keeps_ret|].
  destruct (PyStr.lower state =? "off"); [apply keeps_ret|].
  apply keeps_bind; [apply keeps_emit|intros; apply keeps_ret].
Qed.

Lemma keeps_read_status st : keeps R (read_status st).
Proof. destruct st; [apply keeps_ret|apply keeps_raise]. Qed.

Lemma keeps_resolve raw ip : keeps R (resolve raw ip).
Proof.
  unfold resolve. destruct (PyStr.rfind ":" raw); [|apply keeps_raise].
  destruct (negb _); apply keeps_ret.
Qed.

End Keeps.

Lemma only_preview_refl s : only_preview s s.
Proof. repeat split. Qed.

Lemma only_vam_refl s : only_vam s s.
Proof. repeat split. Qed.

Lemma only_record_refl s : only_record s s.
Proof. repeat split. Qed.

Lemma same_capabilities_trans s1 s2 s3 :
  same_capabilities s1 s2 -> same_capabilities s2 s3 -> same_capabilities s1 s3.
Proof.
  unfold same_capabilities. intros (a1 & a2 & a3 & a4 & a5) (b1 & b2 & b3 & b4 & b5).
  repeat split; congruence.
Qed.

Lemma same_current_trans s1 s2 s3 :
  same_current s1 s2 -> same_current s2 s3 -> same_current s1 s3.
Proof.
  unfold same_current. intros (a1 & a2 & a3 & a4 & a5) (b1 & b2 & b3 & b4 & b5).
  repeat split; congruence.
Qed.

Lemma only_preview_trans s1 s2 s3 :
  only_preview s1 s2 -> only_preview s2 s3 -> only_preview s1 s3.
Proof.
  intros (a1 & a2 & a3 & a4 & a5) (b1 & b2 & b3 & b4 & b5).
  split; [eapply same_capabilities_trans; eassumption|].
  split; [eapply same_current_trans; eassumption|].
  repeat split; congruence.
Qed.

Lemma only_vam_trans s1 s2 s3 :
  only_vam s1 s2 -> only_vam s2 s3 -> only_vam s1 s3.
Proof.
  intros (a1 & a2 & a3 & a4 & a5) (b1 & b2 & b3 & b4 & b5).
  split; [eapply same_capabilities_trans; eassumption|].
  split; [eapply same_current_trans; eassumption|].
  repeat split; congruence.
Qed.

Lemma only_record_trans s1 s2 s3 :
  only_record s1 s2 -> only_record s2 s3 -> only_record s1 s3.
Proof.
  intros (a1 & a2 & a3 & a4 & a5 & a6) (b1 & b2 & b3 & b4 & b5 & b6).
  split; [eapply same_capabilities_trans; eassumption|].
  split; [eapply same_current_trans; eassumption|].
  repeat split; congruence.
Qed.

Ltac keeps_step Hr Ht :=
  first
    [ apply (keeps_ret _ Hr) | apply (keeps_raise _ Hr)
    | apply (keeps_get_self _ Hr) | apply (keeps_emit _ Hr)
    | apply (keeps_ipc_get _ Hr) | apply (keeps_ipc_post _ Hr)
    | apply (keeps_ipc_logout _ Hr)
    | apply (keeps_parse_state _ Hr Ht) | apply (keeps_read_status _ Hr)
    | apply (keeps_resolve _ Hr)
    | apply (keeps_bind _ Ht) | apply (keeps_when _ Hr)
    | apply (keeps_try_except _ Ht) | apply (keeps_try_finally _ Ht)
    | apply keeps_assign; intros ?; repeat split
    | match goal with |- forall _, _ => intro end
    | match goal with |- keeps _ (match ?x with _ => _ end) => destruct x end ].

Ltac keeps_auto Hr Ht := repeat keeps_step Hr Ht.

Lemma keeps_get_preview_info : keeps only_preview _get_preview_info.
Proof.
  unfold _get_preview_info.
  keeps_auto only_preview_refl only_preview_trans.
Qed.

Lemma keeps_get_vam_info : keeps only_vam _get_vam_info.
Proof.
  unfold _get_vam_info. keeps_auto only_vam_refl only_vam_trans.
Qed.

(** X14: what the switches, the info queries, [captureimage] and [logout]
    leave alone.  However they end, [set_preview_state] and
    [_get_preview_info] change nothing but [preview_running] and
    [preview_url], [set_analytics_state] and [_get_vam_info] nothing but
    [vam_running] and [vam_url], [set_recording_state] nothing but
    [record_running], and [set_overlay_state], [captureimage] and [logout]
    nothing at all: none of them touches the capability lists or the
    mirrored configuration. *)
Theorem switches_leave_configuration_alone :
  (forall state, keeps only_preview (set_preview_state state)) /\
  keeps only_preview _get_preview_info /\
  (forall state, keeps only_vam (set_analytics_state state)) /\
  keeps only_vam _get_vam_info /\
  (forall state, keeps only_record (set_recording_state state)) /\
  (forall state, keeps eq (set_overlay_state state)) /\
  keeps eq captureimage /\
  keeps eq logout.
Proof.
  assert (Heq_trans : forall s1 s2 s3 : CameraClient,
             s1 = s2 -> s2 = s3 -> s1 = s3) by (intros; congruence).
  repeat match goal with |- _ /\ _ => split end.
  - intros state. unfold set_preview_state.
    keeps_auto only_preview_refl only_preview_trans.
  - apply keeps_get_preview_info.
  - intros state. unfold set_analytics_state.
    keeps_auto only_vam_refl only_vam_trans.
  - apply keeps_get_vam_info.
  - intros state. unfold set_recording_state.
    keeps_auto only_record_refl only_record_trans.
  - intros state. unfold set_overlay_state.
    keeps_auto (@eq_refl CameraClient) Heq_trans.
  - unfold captureimage.
    keeps_auto (@eq_refl CameraClient) Heq_trans.
  - unfold logout. keeps_auto (@eq_refl CameraClient) Heq_trans.
Qed.

Lemma switches_leave_configuration_alone_witness :
  let run := set_preview_state "on" sample_client in
  only_preview sample_client (snd (fst run)) /\
  preview_running (snd (fst run)) = true.
Proof.
  intros run. split; [|reflexivity].
  exact (proj1 switches_leave_configuration_alone "on" sample_client
           (fst (fst run)) (snd (fst run)) (snd run) eq_refl).
Defined.

Lemma parse_state_recognised state target self :
  recognised state target ->
  parse_state state self = (Return (Some target), self, []).
Proof.
  unfold parse_state. intros [[E ->]|[E ->]]; rewrite E; reflexivity.
Qed.

Lemma info_result_preview self r :
  IpcProvider.get (ipc_provider self) "/preview" Empty = Return r ->
  url_resolvable r ->
  exists u logs,
    _get_preview_info self
    = (Return u, set_preview_running (status r) (set_preview_url u self),
       EvGet "/preview" Empty :: logs) /\
    no_request logs /\ (u = None <-> url r = None).
Proof.
  intros Hget Hurl. rewrite (get_preview_info_exact self r Hget).
  unfold url_resolvable in Hurl. destruct (url r) as [raw|].
  - destruct (resolve_pure raw (IpcProvider.ip_address (ipc_provider self)) self)
      as [[_ Hc]|(u & -> & _)]; [congruence|].
    eexists (Some u), _. split; [reflexivity|]. split; [reflexivity|].
    split; discriminate.
  - eexists None, _. split; [reflexivity|]. split; [reflexivity|tauto].
Qed.

Lemma info_result_vam self r :
  IpcProvider.get (ipc_provider self) "/vam" Empty = Return r ->
  url_resolvable r ->
  exists u logs,
    _get_vam_info self
    = (Return u, set_vam_running (status r) (set_vam_url u self),
       EvGet "/vam" Empty :: logs) /\
    no_request logs /\ (u = None <-> url r = None).
Proof.
  intros Hget Hurl. rewrite (get_vam_info_exact self r Hget).
  unfold url_resolvable in Hurl. destruct (url r) as [raw|].
  - destruct (resolve_pure raw (IpcProvider.ip_address (ipc_provider self)) self)
      as [[_ Hc]|(u & -> & _)]; [congruence|].
    eexists (Some u), _. split; [reflexivity|]. split; [reflexivity|].
    split; discriminate.
  - eexists None, _. split; [reflexivity|]. split; [reflexivity|tauto].
Qed.

Lemma requests_post_get path p path' p' logs :
  no_request logs ->
  requests (EvPost path p :: EvGet path' p' :: logs)
  = [EvPost path p; EvGet path' p'].
Proof.
  intros H. unfold requests. cbn [filter is_request].
  do 2 f_equal. apply (requests_sent [] logs "" Empty) in H; [|reflexivity].
  unfold requests in H. cbn [app filter is_request] in H. now injection H.
Qed.

(** X12: [set_preview_state] and [set_analytics_state] on a recognised
    token, when the device answers both requests: the switch is posted
    with the target the token stands for, the info query follows whatever
    the [status] of the switch was, the value returned is the [status] of
    the switch response, and the running flag is the [status] of the info
    response; the URL is [None] exactly when the info response carries
    none. *)
Theorem switch_result_and_running_flag state target self r1 r2 :
  recognised state target ->
  (IpcProvider.post (ipc_provider self) "/preview" (SwitchStatus target)
     = Return r1 ->
   IpcProvider.get (ipc_provider self) "/preview" Empty = Return r2 ->
   url_resolvable r2 ->
   exists self' tr,
     set_preview_state state self = (Return (status r1), self', tr) /\
     requests tr
     = [EvPost "/preview" (SwitchStatus target); EvGet "/preview" Empty] /\
     preview_running self' = status r2 /\
     (preview_url self' = None <-> url r2 = None)) /\
  (IpcProvider.post (ipc_provider self) "/vam" (SwitchStatusVam target "MD")
     = Return r1 ->
   IpcProvider.get (ipc_provider self) "/vam" Empty = Return r2 ->
   url_resolvable r2 ->
   exists self' tr,
     set_analytics_state state self = (Return (status r1), self', tr) /\
     requests tr
     = [EvPost "/vam" (SwitchStatusVam target "MD"); EvGet "/vam" Empty] /\
     vam_running self' = status r2 /\
     (vam_url self' = None <-> url r2 = None)).
Proof.
  intros Hrec. pose proof (parse_state_recognised state target self Hrec) as Hp.
  split; intros Hpost Hget Hurl.
  - destruct (info_result_preview self r2 Hget Hurl) as (u & logs & Hinfo & Hlogs & Hu).
    assert (Hpost' : ipc_post "/preview" (SwitchStatus target) self
                     = (Return r1, self, [EvPost "/preview" (SwitchStatus target)]))
      by (unfold ipc_post; now rewrite Hpost).
    unfold set_preview_state.
    rewrite (bind_Return _ _ _ _ _ _ Hp).
    rewrite (bind_Return _ _ self target self [] eq_refl).
    rewrite (bind_Return _ _ _ _ _ _ Hpost').
    rewrite (bind_Return _ _ _ _ _ _ Hinfo).
    eexists _, _. split; [reflexivity|].
    split; [|split; [reflexivity|exact Hu]].
    cbn [app]. rewrite app_nil_r. now apply requests_post_get.
  - destruct (info_result_vam self r2 Hget Hurl) as (u & logs & Hinfo & Hlogs & Hu).
    assert (Hpost' : ipc_post "/vam" (SwitchStatusVam target "MD") self
                     = (Return r1, self,
                        [EvPost "/vam" (SwitchStatusVam target "MD")]))
      by (unfold ipc_post; now rewrite Hpost).
    unfold set_analytics_state.
    rewrite (bind_Return _ _ _ _ _ _ Hp).
    rewrite (bind_Return _ _ self target self [] eq_refl).
    rewrite (bind_Return _ _ _ _ _ _ Hpost').
    rewrite (bind_Return _ _ _ _ _ _ Hinfo).
    eexists _, _. split; [reflexivity|].
    split; [|split; [reflexivity|exact Hu]].
    cbn [app]. rewrite app_nil_r. now apply requests_post_get.
Qed.

Lemma switch_result_and_running_flag_witness :
  let self := __init__ stalled_camera in
  recognised "ON" true /\
  IpcProvider.post (ipc_provider self) "/preview" (SwitchStatus true)
    = Return (ack true) /\
  IpcProvider.get (ipc_provider self) "/preview" Empty = Return (ack false) /\
  url_resolvable (ack false) /\
  exists self' tr,
    set_preview_state "ON" self = (Return true, self', tr) /\
    preview_running self' = false /\
    preview_url self' = None.
Proof.
  intros self.
  assert (Hrec : recognised "ON" true) by (left; split; reflexivity).
  destruct (proj1 (switch_result_and_running_flag "ON" true self
                     (ack true) (ack false) Hrec) eq_refl eq_refl I)
    as (self' & tr & Hrun & _ & Hflag & Hurl).
  split; [exact Hrec|]. split; [reflexivity|]. split; [reflexivity|].
  split; [exact I|].
  exists self', tr. exact (conj Hrun (conj Hflag (proj2 Hurl eq_refl))).
Defined.

(** X13: how [set_preview_state] and [set_analytics_state] fail on a
    recognised token.  When the transport raises on the switch, the
    exception passes through, no info query is made and the client is
    untouched.  When the switch has been answered and the info response
    carries a URL without a colon, the call raises [ValueError] after both
    requests: the [status] of the switch is lost to the caller, and neither
    the URL nor the running flag is written. *)
Theorem switch_failures state target self :
  recognised state target ->
  (forall e,
      IpcProvider.post (ipc_provider self) "/preview" (SwitchStatus target)
        = Raise e ->
      set_preview_state state self
      = (Raise e, self, [EvPost "/preview" (SwitchStatus target)])) /\
  (forall e,
      IpcProvider.post (ipc_provider self) "/vam" (SwitchStatusVam target "MD")
        = Raise e ->
      set_analytics_state state self
      = (Raise e, self, [EvPost "/vam" (SwitchStatusVam target "MD")])) /\
  (forall r1 r2 raw,
      IpcProvider.post (ipc_provider self) "/preview" (SwitchStatus target)
        = Return r1 ->
      IpcProvider.get (ipc_provider self) "/preview" Empty = Return r2 ->
      url r2 = Some raw -> PyStr.contains ":" raw = false ->
      set_preview_state state self
      = (Raise ValueError, self,
         [EvPost "/preview" (SwitchStatus target); EvGet "/preview" Empty])) /\
  (forall r1 r2 raw,
      IpcProvider.post (ipc_provider self) "/vam" (SwitchStatusVam target "MD")
        = Return r1 ->
      IpcProvider.get (ipc_provider self) "/vam" Empty = Return r2 ->
      url r2 = Some raw -> PyStr.contains ":" raw = false ->
      set_analytics_state state self
      = (Raise ValueError, self,
         [EvPost "/vam" (SwitchStatusVam target "MD"); EvGet "/vam" Empty;
          EvLogInfo "RESPONSE: %s: " [LResponse r2]])).
Proof.
  intros Hrec. pose proof (parse_state_recognised state target self Hrec) as Hp.
  assert (Hpv : forall o,
             IpcProvider.post (ipc_provider self) "/preview" (SwitchStatus target) = o ->
             ipc_post "/preview" (SwitchStatus target) self
             = (o, self, [EvPost "/preview" (SwitchStatus target)]))
    by (intros o <-; reflexivity).
  assert (Hva : forall o,
             IpcProvider.post (ipc_provider self) "/vam" (SwitchStatusVam target "MD") = o ->
             ipc_post "/vam" (SwitchStatusVam target "MD") self
             = (o, self, [EvPost "/vam" (SwitchStatusVam target "MD")]))
    by (intros o <-; reflexivity).
  repeat match goal with |- _ /\ _ => split end.
  - intros e Hpost. unfold set_preview_state.
    rewrite (bind_Return _ _ _ _ _ _ Hp).
    rewrite (bind_Return _ _ self target self [] eq_refl).
    rewrite (bind_Raise _ _ _ _ _ _ (Hpv _ Hpost)). reflexivity.
  - intros e Hpost. unfold set_analytics_state.
    rewrite (bind_Return _ _ _ _ _ _ Hp).
    rewrite (bind_Return _ _ self target self [] eq_refl).
    rewrite (bind_Raise _ _ _ _ _ _ (Hva _ Hpost)). reflexivity.
  - intros r1 r2 raw Hpost Hget Hurl Hraw.
    pose proof (get_preview_info_exact self r2 Hget) as Hinfo.
    rewrite Hurl in Hinfo.
    destruct (resolve_pure raw (IpcProvider.ip_address (ipc_provider self)) self)
      as [[Hr _]|(u & _ & Hc)]; [|congruence].
    rewrite Hr in Hinfo.
    unfold set_preview_state.
    rewrite (bind_Return _ _ _ _ _ _ Hp).
    rewrite (bind_Return _ _ self target self [] eq_refl).
    rewrite (bind_Return _ _ _ _ _ _ (Hpv _ Hpost)).
    rewrite (bind_Raise _ _ _ _ _ _ Hinfo). reflexivity.
  - intros r1 r2 raw Hpost Hget Hurl Hraw.
    pose proof (get_vam_info_exact self r2 Hget) as Hinfo.
    rewrite Hurl in Hinfo.
    destruct (resolve_pure raw (IpcProvider.ip_address (ipc_provider self)) self)
      as [[Hr _]|(u & _ & Hc)]; [|congruence].
    rewrite Hr in Hinfo.
    unfold set_analytics_state.
    rewrite (bind_Return _ _ _ _ _ _ Hp).
    rewrite (bind_Return _ _ self target self [] eq_refl).
    rewrite (bind_Return _ _ _ _ _ _ (Hva _ Hpost)).
    rewrite (bind_Raise _ _ _ _ _ _ Hinfo). reflexivity.
Qed.

Lemma switch_failures_witness :
  let self := __init__ colonless_camera in
  recognised "off" false /\
  PyStr.contains ":" "live" = false /\
  set_preview_state "off" self
  = (Raise ValueError, self,
     [EvPost "/preview" (SwitchStatus false); EvGet "/preview" Empty]).
Proof.
  intros self.
  assert (Hrec : recognised "off" false) by (right; split; reflexivity).
  split; [exact Hrec|]. split; [reflexivity|].
  exact (proj1 (proj2 (proj2 (switch_failures "off" false self Hrec)))
           (ack true) (stream_info true "live") "live"
           eq_refl eq_refl eq_refl eq_refl).
Defined.

(** ** [get_inferences], case by case *)

Lemma preview_dimensions_None cur :
  ~ In cur ["4K"; "1080P"; "720P"; "480P"] -> preview_dimensions cur = None.
Proof.
  intros Hnot. unfold preview_dimensions.
  destruct (String.eqb_spec cur "4K") as [->|_]; [destruct Hnot; simpl; auto|].
  destruct (String.eqb_spec cur "1080P") as [->|_]; [destruct Hnot; simpl; auto|].
  destruct (String.eqb_spec cur "720P") as [->|_]; [destruct Hnot; simpl; auto|].
  destruct (String.eqb_spec cur "480P") as [->|_]; [destruct Hnot; simpl; auto|].
  reflexivity.
Qed.

(** X15: [get_inferences] works for the four resolution names of its
    table only.  With preview and analytics running, a current resolution
    other than ["4K"], ["1080P"], ["720P"] and ["480P"] (compared as they
    are written) makes it raise [UnboundLocalError] for [preview_width]
    before the iterator exists: nothing is requested, started, stopped or
    logged. *)
Theorem get_inferences_needs_known_resolution {Frames B}
    (start : VideoInferenceIterator.t -> string -> outcome Frames)
    (body : Frames -> M B) (self : CameraClient) :
  preview_running self = true -> vam_running self = true ->
  ~ In (cur_resolution self) ["4K"; "1080P"; "720P"; "480P"] ->
  get_inferences start body self
  = (Raise (UnboundLocalError "preview_width"), self, []).
Proof.
  intros Hp Hv Hnot. unfold get_inferences.
  rewrite (bind_Return _ _ self self self [] eq_refl).
  now rewrite Hp, Hv, (preview_dimensions_None _ Hnot).
Qed.

Lemma get_inferences_needs_known_resolution_witness :
  let self :=
    set_cur_resolution "1080p"
      (streaming "203.0.113.9" "rtsp://10.0.0.5:8554/live") in
  preview_running self = true /\ vam_running self = true /\
  ~ In (cur_resolution self) ["4K"; "1080P"; "720P"; "480P"] /\
  get_inferences sample_start (fun frames => ret frames) self
  = (Raise (UnboundLocalError "preview_width"), self, []).
Proof.
  intros self.
  assert (Hp : preview_running self = true) by (vm_compute; reflexivity).
  assert (Hv : vam_running self = true) by (vm_compute; reflexivity).
  assert (Hnot : ~ In (cur_resolution self) ["4K"; "1080P"; "720P"; "480P"])
    by (vm_compute; intuition discriminate).
  exact (conj Hp (conj Hv (conj Hnot
           (get_inferences_needs_known_resolution sample_start
              (fun frames => ret frames) self Hp Hv Hnot)))).
Defined.

(** [get_inferences] past its checks, in terms of the block under
    [try]. *)
Lemma get_inferences_entered {Frames B}
    (start : VideoInferenceIterator.t -> string -> outcome Frames)
    (body : Frames -> M B) self w h :
  preview_running self = true -> vam_running self = true ->
  preview_dimensions (cur_resolution self) = Some (w, h) ->
  let it := {| VideoInferenceIterator.width := w;
               VideoInferenceIterator.height := h |} in
  get_inferences start body self
  = (let '(o, self', tr) := inference_scope start it body self in
     (o, self', tr ++ captured o ++ [EvStop it])).
Proof.
  intros Hp Hv Hd it. unfold get_inferences.
  rewrite (bind_Return _ _ self self self [] eq_refl).
  rewrite Hp, Hv, Hd. cbn [negb app]. fold it.
  unfold try_finally, try_except.
  destruct (inference_scope start it body self) as [[[b|e] s] tr];
    [|destruct (is_Exception e) eqn:He];
    cbn; rewrite ?He; cbn; rewrite ?app_nil_r, <- ?app_assoc; reflexivity.
Qed.

(** X16: [get_inferences] on a client that has a URL stored makes no
    request of its own: it starts the decoder, built with the dimensions
    of the table, on the stored URL.  When [start] raises, the caller's
    block never runs, and the iterator is stopped all the same; when
    [start] returns, the block runs on the client as it was and the
    iterator is stopped after it. *)
Theorem get_inferences_on_stored_url {Frames B}
    (start : VideoInferenceIterator.t -> string -> outcome Frames)
    (body : Frames -> M B) self w h u :
  preview_running self = true -> vam_running self = true ->
  preview_dimensions (cur_resolution self) = Some (w, h) ->
  vam_url self = Some u -> u <> "" ->
  let it := {| VideoInferenceIterator.width := w;
               VideoInferenceIterator.height := h |} in
  (forall e, start it u = Raise e ->
             get_inferences start body self
             = (Raise e, self,
                EvStart it u :: captured (Raise (A := B) e) ++ [EvStop it])) /\
  (forall frames, start it u = Return frames ->
                  get_inferences start body self
                  = (let '(o, self', tr) := body frames self in
                     (o, self', EvStart it u :: tr ++ captured o ++ [EvStop it]))).
Proof.
  intros Hp Hv Hd Hu Hne it.
  pose proof (get_inferences_entered start body self w h Hp Hv Hd) as Hrun.
  cbv zeta in Hrun. fold it in Hrun.
  rewrite (inference_scope_run start it body self u Hu Hne) in Hrun.
  split.
  - intros e He. rewrite Hrun.
    unfold bind, iterator_start. rewrite He. reflexivity.
  - intros frames Hf. rewrite Hrun.
    unfold bind, iterator_start. rewrite Hf.
    destruct (body frames self) as [[o s] tr]. reflexivity.
Qed.

Lemma get_inferences_on_stored_url_witness :
  let self := streaming "203.0.113.9" "rtsp://10.0.0.5:8554/live" in
  let failing (_ : VideoInferenceIterator.t) (_ : string) : outcome (list nat) :=
    Raise (CollaboratorError "no stream") in
  let it := {| VideoInferenceIterator.width := 1920;
               VideoInferenceIterator.height := 1080 |} in
  vam_url self = Some "rtsp://203.0.113.9:8554/live" /\
  get_inferences failing (fun frames => ret frames) self
  = (Raise (CollaboratorError "no stream"), self,
     [EvStart it "rtsp://203.0.113.9:8554/live";
      EvLogException (CollaboratorError "no stream"); EvStop it]).
Proof.
  intros self failing it.
  assert (Hp : preview_running self = true) by (vm_compute; reflexivity).
  assert (Hv : vam_running self = true) by (vm_compute; reflexivity).
  assert (Hd : preview_dimensions (cur_resolution self) = Some (1920, 1080)%Z)
    by (vm_compute; reflexivity).
  assert (Hu : vam_url self = Some "rtsp://203.0.113.9:8554/live")
    by (vm_compute; reflexivity).
  assert (Hne : "rtsp://203.0.113.9:8554/live" <> "") by discriminate.
  split; [exact Hu|].
  exact (proj1 (get_inferences_on_stored_url failing
                  (fun frames => ret frames) self 1920%Z 1080%Z
                  "rtsp://203.0.113.9:8554/live" Hp Hv Hd Hu Hne)
           (CollaboratorError "no stream") eq_refl).
Defined.

(** The end of the block under [try], from the second reading of
    [self.vam_url] on. *)
Lemma inference_scope_tail {Frames B}
    (start : VideoInferenceIterator.t -> string -> outcome Frames)
    (it : VideoInferenceIterator.t) (body : Frames -> M B) self :
  (self0 <- get_self ;;
   match vam_url self0 with
   | None => raise TypeError
   | Some u =>
       when (PyStr.contains NULL_IP u)
         (let _ := PyStr.replace NULL_IP LOOPBACK_IP u in ret tt) ;;
       frames <- iterator_start start it u ;;
       body frames
   end) self
  = match vam_url self with
    | None => (Raise TypeError, self, [])
    | Some u => (frames <- iterator_start start it u ;; body frames) self
    end.
Proof.
  rewrite (bind_Return _ _ self self self [] eq_refl).
  destruct (vam_url self) as [u|]; [|reflexivity].
  assert (Hwhen : when (PyStr.contains NULL_IP u)
                    (let _ := PyStr.replace NULL_IP LOOPBACK_IP u in ret tt) self
                  = (Return tt, self, []))
    by (destruct (PyStr.contains NULL_IP u); reflexivity).
  rewrite (bind_Return _ _ _ _ _ _ Hwhen). cbn [app].
  destruct ((frames <- iterator_start start it u ;; body frames) self)
    as [[o s] tr]. reflexivity.
Qed.

(** The block under [try] on a client whose [vam_url] is not [""]. *)
Lemma inference_scope_stored {Frames B}
    (start : VideoInferenceIterator.t -> string -> outcome Frames)
    (it : VideoInferenceIterator.t) (body : Frames -> M B) self :
  vam_url self <> Some "" ->
  inference_scope start it body self
  = match vam_url self with
    | None => (Raise TypeError, self, [])
    | Some u => (frames <- iterator_start start it u ;; body frames) self
    end.
Proof.
  intros Hne. unfold inference_scope.
  rewrite (bind_Return _ _ self self self [] eq_refl).
  assert (Hskip : match vam_url self with
                  | Some u => u =? ""
                  | None => false
                  end = false).
  { destruct (vam_url self) as [u|]; [|reflexivity].
    apply String.eqb_neq. congruence. }
  rewrite Hskip.
  rewrite (bind_Return _ _ self tt self [] eq_refl).
  cbv beta zeta.
  pose proof (inference_scope_tail start it body self) as Htail.
  cbv beta zeta in Htail.
  destruct (vam_url self) as [u|]; rewrite Htail; cbn [app].
  - destruct ((frames <- iterator_start start it u ;; body frames) self)
      as [[o s] tr]. reflexivity.
  - reflexivity.
Qed.

(** The block under [try] on a client whose [vam_url] is [""]: the info
    query comes first. *)
Lemma inference_scope_refresh {Frames B}
    (start : VideoInferenceIterator.t -> string -> outcome Frames)
    (it : VideoInferenceIterator.t) (body : Frames -> M B) self :
  vam_url self = Some "" ->
  inference_scope start it body self
  = match _get_vam_info self with
    | (Return _, self1, tr1) =>
        let '(o, self2, tr2) :=
          match vam_url self1 with
          | None => (Raise TypeError, self1, [])
          | Some u => (frames <- iterator_start start it u ;; body frames) self1
          end in
        (o, self2, tr1 ++ tr2)
    | (Raise e, self1, tr1) => (Raise e, self1, tr1)
    end.
Proof.
  intros Hu. unfold inference_scope.
  rewrite (bind_Return _ _ self self self [] eq_refl).
  rewrite Hu. cbn [String.eqb when].
  destruct (_get_vam_info self) as [[[v|e] self1] tr1] eqn:Hinfo.
  - assert (Hfirst : (_get_vam_info ;; ret tt) self = (Return tt, self1, tr1)).
    { rewrite (bind_Return _ _ _ _ _ _ Hinfo). cbn. now rewrite app_nil_r. }
    rewrite (bind_Return _ _ _ _ _ _ Hfirst).
    cbv beta zeta.
    pose proof (inference_scope_tail start it body self1) as Htail.
    cbv beta zeta in Htail. rewrite Htail. cbn [app].
    destruct (vam_url self1) as [u|];
      [destruct ((frames <- iterator_start start it u ;; body frames) self1)
         as [[o s] tr]|]; reflexivity.
  - assert (Hfirst : (_get_vam_info ;; ret tt) self = (Raise e, self1, tr1))
      by (now rewrite (bind_Raise _ _ _ _ _ _ Hinfo)).
    rewrite (bind_Raise _ _ _ _ _ _ Hfirst). reflexivity.
Qed.

(** X17: [get_inferences] never starts the decoder without a URL.  On a
    client whose [vam_url] is [None], and on a client whose [vam_url] is
    [""] when the info query it then makes is answered without a [url],
    the test of line 193 raises [TypeError]: the decoder is not started and
    the caller's block does not run; the exception is logged and the
    iterator is stopped. *)
Theorem get_inferences_without_url {Frames B}
    (start : VideoInferenceIterator.t -> string -> outcome Frames)
    (body : Frames -> M B) self w h :
  preview_running self = true -> vam_running self = true ->
  preview_dimensions (cur_resolution self) = Some (w, h) ->
  let it := {| VideoInferenceIterator.width := w;
               VideoInferenceIterator.height := h |} in
  (vam_url self = None ->
   get_inferences start body self
   = (Raise TypeError, self, [EvLogException TypeError; EvStop it])) /\
  (forall r,
      vam_url self = Some "" ->
      IpcProvider.get (ipc_provider self) "/vam" Empty = Return r ->
      url r = None ->
      get_inferences start body self
      = (Raise TypeError, set_vam_running (status r) (set_vam_url None self),
         [EvGet "/vam" Empty; EvLogInfo "RESPONSE: %s: " [LResponse r];
          EvLogInfo "vam url: %s" [LNone];
          EvLogException TypeError; EvStop it])).
Proof.
  intros Hp Hv Hd it.
  pose proof (get_inferences_entered start body self w h Hp Hv Hd) as Hrun.
  cbv zeta in Hrun. fold it in Hrun. split.
  - intros Hu. rewrite Hrun, inference_scope_stored by congruence.
    now rewrite Hu.
  - intros r Hu Hget Hurl.
    rewrite Hrun, (inference_scope_refresh start it body self Hu).
    rewrite (get_vam_info_exact self r Hget), Hurl. reflexivity.
Qed.

Lemma get_inferences_without_url_witness :
  let self :=
    set_vam_running true (set_preview_running true
      (set_cur_resolution "720P" (__init__ stalled_camera))) in
  let it := {| VideoInferenceIterator.width := 1280;
               VideoInferenceIterator.height := 720 |} in
  vam_url self = Some "" /\
  get_inferences sample_start (fun frames => ret frames) self
  = (Raise TypeError, set_vam_running false (set_vam_url None self),
     [EvGet "/vam" Empty; EvLogInfo "RESPONSE: %s: " [LResponse (ack false)];
      EvLogInfo "vam url: %s" [LNone];
      EvLogException TypeError; EvStop it]).
Proof.
  intros self it. split; [reflexivity|].
  exact (proj2 (get_inferences_without_url sample_start
                  (fun frames => ret frames) self 1280%Z 720%Z
                  eq_refl eq_refl eq_refl)
           (ack false) eq_refl eq_refl eq_refl).
Defined.

(** *** The branch of [get_inferences] that queries the device *)

Lemma resolve_nonempty raw_url device_ip self u self' tr :
  resolve raw_url device_ip self = (Return u, self', tr) -> u <> "".
Proof.
  unfold resolve. destruct (PyStr.rfind ":" raw_url) as [i|] eqn:E;
    [|discriminate].
  destruct (negb (PyStr.contains DOCKER_IP_PREFIX device_ip));
    intros [= <- _ _].
  - discriminate.
  - intros ->. discriminate E.
Qed.

Lemma get_vam_info_settles self o self' tr :
  _get_vam_info self = (o, self', tr) ->
  self' = self \/ vam_url self' <> Some "".
Proof.
  destruct (IpcProvider.get (ipc_provider self) "/vam" Empty) as [r|e] eqn:Hget.
  - rewrite (get_vam_info_exact self r Hget).
    destruct (url r) as [raw|].
    + destruct (resolve raw (IpcProvider.ip_address (ipc_provider self)) self)
        as [[[u|e] s1] t1] eqn:Hr; intros [= _ <- _].
      * right. intros [= Hu]. exact (resolve_nonempty _ _ _ _ _ _ Hr Hu).
      * now left.
    + intros [= _ <- _]. right. discriminate.
  - unfold _get_vam_info, bind at 1, ipc_get. rewrite Hget.
    intros [= _ <- _]. now left.
Qed.

Lemma preserves_get_vam_info : preserves vam_url_known _get_vam_info.
Proof.
  intros self o self' tr Hrun Hknown.
  destruct (get_vam_info_settles self o self' tr Hrun) as [-> |Hne];
    [exact Hknown|intros _; exact Hne].
Qed.

Ltac preserves_step Hr Ht :=
  first
    [ apply keeps_assign; intros ? ?; assumption
    | apply preserves_get_vam_info
    | keeps_step Hr Ht ].

Ltac preserves_auto Hr Ht := unfold preserves; repeat preserves_step Hr Ht.

(** X18: the branch of [get_inferences] that queries the device for the
    analytics URL (lines 191-192) is never taken on a client that only the
    methods have written.  [vam_url] is [""] in a client as [__init__]
    makes it, where [vam_running] is false; [_get_vam_info], the one
    method that writes the two attributes, stores a URL that has a colon,
    or [None], before it writes [vam_running].  So a client with
    [vam_running] true has a [vam_url] other than [""]: this holds after
    [__init__], is kept by every method however it ends, by
    [get_inferences] and by [connect] when the caller's block keeps it, and
    on such a client [get_inferences] sends no request of its own: past
    its checks it raises [TypeError] for the URL [None] and starts the
    decoder on the stored URL otherwise. *)
Theorem get_inferences_never_queries :
  (forall ipc, vam_url_known (__init__ ipc)) /\
  (forall resolution_arg encode_arg bitrate_arg framerate_arg display_out_arg,
      preserves vam_url_known
        (configure_preview resolution_arg encode_arg bitrate_arg
           framerate_arg display_out_arg)) /\
  preserves vam_url_known _get_supported_params /\
  preserves vam_url_known _get_preview_info /\
  preserves vam_url_known _get_vam_info /\
  (forall state, preserves vam_url_known (set_preview_state state)) /\
  (forall state, preserves vam_url_known (set_analytics_state state)) /\
  (forall state, preserves vam_url_known (set_recording_state state)) /\
  (forall state, preserves vam_url_known (set_overlay_state state)) /\
  preserves vam_url_known captureimage /\
  preserves vam_url_known logout /\
  (forall Frames B (start : VideoInferenceIterator.t -> string -> outcome Frames)
          (body : Frames -> M B),
      (forall frames, preserves vam_url_known (body frames)) ->
      preserves vam_url_known (get_inferences start body)) /\
  (forall B (ipc : IpcProvider.t) (body : M B) o self' tr,
      preserves vam_url_known body ->
      connect ipc body = (o, Some self', tr) ->
      vam_url_known self') /\
  (forall Frames B (start : VideoInferenceIterator.t -> string -> outcome Frames)
          (body : Frames -> M B) self w h,
      vam_url_known self ->
      preview_running self = true -> vam_running self = true ->
      preview_dimensions (cur_resolution self) = Some (w, h) ->
      let it := {| VideoInferenceIterator.width := w;
                   VideoInferenceIterator.height := h |} in
      get_inferences start body self
      = match vam_url self with
        | None =>
            (Raise TypeError, self, [EvLogException TypeError; EvStop it])
        | Some u =>
            let '(o, self', tr) :=
              (frames <- iterator_start start it u ;; body frames) self in
            (o, self', tr ++ captured o ++ [EvStop it])
        end).
Proof.
  pose (R := fun self self' : CameraClient =>
               vam_url_known self -> vam_url_known self').
  assert (Hr : forall s, R s s) by (intros s H; exact H).
  assert (Ht : forall s1 s2 s3, R s1 s2 -> R s2 s3 -> R s1 s3)
    by (intros s1 s2 s3 H1 H2 H; exact (H2 (H1 H))).
  assert (Hlogout : forall ipc, keeps R (logout_on ipc))
    by (intros ipc s o s' tr [= _ <- _]; apply Hr).
  assert (Hscope : forall Frames B
            (start : VideoInferenceIterator.t -> string -> outcome Frames)
            (body : Frames -> M B),
            (forall frames, keeps R (body frames)) ->
            keeps R (get_inferences start body)).
  { intros Frames B start body Hbody.
    assert (Hstart : forall it u, keeps R (iterator_start start it u))
      by (intros it u s o s' tr [= _ <- _]; apply Hr).
    assert (Hstop : forall it, keeps R (iterator_stop it))
      by (intros it s o s' tr [= _ <- _]; apply Hr).
    unfold get_inferences.
    apply (keeps_bind _ Ht); [apply (keeps_get_self _ Hr)|]. intros self.
    destruct (negb (preview_running self)); [apply (keeps_raise _ Hr)|].
    destruct (negb (vam_running self)); [apply (keeps_raise _ Hr)|].
    destruct (preview_dimensions (cur_resolution self)) as [[w h]|];
      [|apply (keeps_raise _ Hr)].
    apply (keeps_try_finally _ Ht); [|apply Hstop].
    apply (keeps_try_except _ Ht).
    - unfold inference_scope.
      apply (keeps_bind _ Ht); [apply (keeps_get_self _ Hr)|]. intros s0.
      apply (keeps_bind _ Ht).
      + apply (keeps_when _ Hr).
        apply (keeps_bind _ Ht);
          [exact preserves_get_vam_info|intros; apply (keeps_ret _ Hr)].
      + intros _. apply (keeps_bind _ Ht); [apply (keeps_get_self _ Hr)|].
        intros s1. destruct (vam_url s1) as [u|]; [|apply (keeps_raise _ Hr)].
        apply (keeps_bind _ Ht).
        * apply (keeps_when _ Hr), (keeps_ret _ Hr).
        * intros _. apply (keeps_bind _ Ht); [apply Hstart|exact Hbody].
    - intros e. apply (keeps_bind _ Ht);
        [apply (keeps_emit _ Hr)|intros; apply (keeps_raise _ Hr)]. }
  assert (Hparams : keeps R _get_supported_params)
    by (unfold _get_supported_params, getitem; preserves_auto Hr Ht).
  repeat match goal with |- _ /\ _ => split end.
  - intros ipc Hrun. discriminate Hrun.
  - intros. unfold configure_preview, select_index, index_of,
      select_display_out, update_current, getitem.
    preserves_auto Hr Ht.
  - exact Hparams.
  - unfold _get_preview_info. preserves_auto Hr Ht.
  - exact preserves_get_vam_info.
  - intros state. unfold set_preview_state, _get_preview_info.
    preserves_auto Hr Ht.
  - intros state. unfold set_analytics_state. preserves_auto Hr Ht.
  - intros state. unfold set_recording_state. preserves_auto Hr Ht.
  - intros state. unfold set_overlay_state. preserves_auto Hr Ht.
  - unfold captureimage. preserves_auto Hr Ht.
  - unfold logout. preserves_auto Hr Ht.
  - intros Frames B start body Hbody. exact (Hscope Frames B start body Hbody).
  - intros B ipc body o self' tr Hbody. unfold connect.
    destruct (IpcProvider.connect ipc) as [u|e]; [|discriminate].
    destruct (try_finally
                (try_except (connect_scope body)
                   (fun e => log_exception e ;; raise e))
                (logout_on ipc ;; ret tt) (__init__ ipc))
      as [[o1 s1] tr1] eqn:Hrun.
    intros [= _ <- _].
    assert (Hkeeps : keeps R
              (try_finally
                 (try_except (connect_scope body)
                    (fun e => log_exception e ;; raise e))
                 (logout_on ipc ;; ret tt))).
    { apply (keeps_try_finally _ Ht).
      - apply (keeps_try_except _ Ht).
        + unfold connect_scope.
          apply (keeps_bind _ Ht); [exact Hparams|intros _; exact Hbody].
        + intros e. apply (keeps_bind _ Ht);
            [apply (keeps_emit _ Hr)|intros; apply (keeps_raise _ Hr)].
      - apply (keeps_bind _ Ht);
          [apply Hlogout|intros; apply (keeps_ret _ Hr)]. }
    apply (Hkeeps _ _ _ _ Hrun). intros Hv. discriminate Hv.
  - intros Frames B start body self w h Hknown Hp Hv Hd it.
    pose proof (get_inferences_entered start body self w h Hp Hv Hd) as Hrun.
    cbv zeta in Hrun. fold it in Hrun.
    rewrite Hrun, (inference_scope_stored start it body self (Hknown Hv)).
    destruct (vam_url self) as [u|]; reflexivity.
Qed.

Lemma get_inferences_never_queries_witness :
  let ipc := sample_camera "203.0.113.9" "rtsp://10.0.0.5:8554/live" true in
  let c0 := __init__ ipc in
  let r1 := _get_supported_params c0 in
  let r2 := set_preview_state "on" (snd (fst r1)) in
  let r3 := set_analytics_state "on" (snd (fst r2)) in
  let self := snd (fst r3) in
  let it := {| VideoInferenceIterator.width := 1920;
               VideoInferenceIterator.height := 1080 |} in
  vam_url c0 = Some "" /\
  vam_url_known self /\
  preview_running self = true /\ vam_running self = true /\
  get_inferences sample_start (fun frames => ret frames) self
  = (Return [7%nat], self,
     [EvStart it "rtsp://203.0.113.9:8554/live"; EvStop it]).
Proof.
  intros ipc c0 r1 r2 r3 self it.
  destruct get_inferences_never_queries
    as (Hinit & _ & Hparams & _ & _ & Hpreview & Hvam & _ & _ & _ & _ & _ & _
        & Hstored).
  assert (E1 : _get_supported_params c0 = (fst (fst r1), snd (fst r1), snd r1))
    by (vm_compute; reflexivity).
  assert (E2 : set_preview_state "on" (snd (fst r1))
               = (fst (fst r2), snd (fst r2), snd r2))
    by (vm_compute; reflexivity).
  assert (E3 : set_analytics_state "on" (snd (fst r2))
               = (fst (fst r3), self, snd r3))
    by (vm_compute; reflexivity).
  assert (Hp : preview_running self = true) by (vm_compute; reflexivity).
  assert (Hv : vam_running self = true) by (vm_compute; reflexivity).
  assert (Hd : preview_dimensions (cur_resolution self)
               = Some (1920, 1080)%Z) by (vm_compute; reflexivity).
  assert (Hknown : vam_url_known self)
    by exact (Hvam "on" _ _ _ _ E3
                (Hpreview "on" _ _ _ _ E2 (Hparams _ _ _ _ E1 (Hinit ipc)))).
  pose proof (Hstored (list nat) (list nat) sample_start
                (fun frames => ret frames) self 1920%Z 1080%Z Hknown Hp Hv Hd)
    as Hrun.
  cbv zeta in Hrun.
  split; [reflexivity|]. split; [exact Hknown|].
  split; [exact Hp|]. split; [exact Hv|].
  rewrite Hrun. vm_compute. reflexivity.
Defined.

(** ** [connect], case by case *)

Lemma refresh_refused self r :
  IpcProvider.get (ipc_provider self) "/video" Empty = Return r ->
  status r = false ->
  _get_supported_params self = (Return false, self, [EvGet "/video" Empty]).
Proof.
  intros Hget Hst.
  unfold _get_supported_params, bind, ipc_get, when, ret.
  rewrite Hget. cbv beta iota. rewrite Hst. reflexivity.
Qed.

Lemma configure_preview_fresh ipc resolution encode bitrate framerate
    display_out_arg :
  configure_preview resolution encode bitrate framerate display_out_arg
    (__init__ ipc)
  = (Raise ValueError, __init__ ipc, []).
Proof.
  destruct (configure_preview_run resolution encode bitrate framerate
              display_out_arg (__init__ ipc))
    as [[_ Hfail]|(res & _ & _ & _ & _ & _ & Hres & _)]; cbv zeta in *.
  - exact Hfail.
  - discriminate Hres.
Qed.

Lemma connect_entered {B} (ipc : IpcProvider.t) (body : M B) :
  IpcProvider.connect ipc = Return tt ->
  connect ipc body
  = (let '(o, self', tr) := connect_scope body (__init__ ipc) in
     (released o (IpcProvider.logout ipc), Some self',
      EvConnect :: tr ++ captured o ++ [EvLogout])).
Proof.
  intros Hc. unfold connect, try_finally, try_except. rewrite Hc.
  unfold bind, logout_on, released.
  destruct (connect_scope body (__init__ ipc)) as [[[b|e] s] tr];
    [|destruct (is_Exception e) eqn:He];
    destruct (IpcProvider.logout ipc) as [st|e'];
    cbn; rewrite ?He; cbn; rewrite ?app_nil_r, <- ?app_assoc; reflexivity.
Qed.

(** X19: [connect] does not look at the result of the capability refresh.
    When the device answers the query with a false [status], the caller's
    block still runs, on the client as [__init__] made it, with empty
    capability lists, and the session is logged out after it.  A
    [configure_preview] as the first call of such a session raises
    [ValueError], which is logged; the session then raises that
    [ValueError] when [logout] returns, and the exception of [logout] when
    [logout] raises. *)
Theorem connect_ignores_refused_refresh {B} (ipc : IpcProvider.t)
    (body : M B) (r : response) :
  IpcProvider.connect ipc = Return tt ->
  IpcProvider.get ipc "/video" Empty = Return r ->
  status r = false ->
  connect ipc body
  = (let '(o, self', tr) := body (__init__ ipc) in
     (released o (IpcProvider.logout ipc), Some self',
      EvConnect :: EvGet "/video" Empty :: tr ++ captured o ++ [EvLogout])) /\
  (forall resolution encode bitrate framerate display_out_arg,
      connect ipc (configure_preview resolution encode bitrate framerate
                     display_out_arg)
      = (released (Raise ValueError) (IpcProvider.logout ipc),
         Some (__init__ ipc),
         [EvConnect; EvGet "/video" Empty; EvLogException ValueError;
          EvLogout])).
Proof.
  intros Hc Hget Hst.
  assert (Href : _get_supported_params (__init__ ipc)
                 = (Return false, __init__ ipc, [EvGet "/video" Empty]))
    by (apply (refresh_refused (__init__ ipc) r); assumption).
  assert (Hgen : forall C (m : M C),
             connect ipc m
             = (let '(o, self', tr) := m (__init__ ipc) in
                (released o (IpcProvider.logout ipc), Some self',
                 EvConnect :: EvGet "/video" Empty :: tr ++ captured o
                 ++ [EvLogout]))).
  { intros C m. rewrite (connect_entered ipc m Hc). unfold connect_scope.
    rewrite (bind_Return _ _ _ _ _ _ Href).
    destruct (m (__init__ ipc)) as [[o s] tr]. reflexivity. }
  split; [apply Hgen|].
  intros. rewrite Hgen, configure_preview_fresh. reflexivity.
Qed.

Lemma connect_ignores_refused_refresh_witness :
  let e' := CollaboratorError "session expired" in
  let ipc := stalled_camera in
  let ipc' := failing_logout e' stalled_camera in
  (IpcProvider.connect ipc = Return tt /\
   IpcProvider.get ipc "/video" Empty = Return (ack false) /\
   status (ack false) = false /\
   connect ipc (configure_preview (Some "1080P") None None None (Some 1%Z))
   = (Raise ValueError, Some (__init__ ipc),
      [EvConnect; EvGet "/video" Empty; EvLogException ValueError;
       EvLogout])) /\
  (IpcProvider.connect ipc' = Return tt /\
   IpcProvider.get ipc' "/video" Empty = Return (ack false) /\
   connect ipc' (configure_preview (Some "1080P") None None None (Some 1%Z))
   = (Raise e', Some (__init__ ipc'),
      [EvConnect; EvGet "/video" Empty; EvLogException ValueError;
       EvLogout])).
Proof.
  intros e' ipc ipc'. split.
  - split; [reflexivity|split; [reflexivity|split; [reflexivity|]]].
    exact (proj2 (connect_ignores_refused_refresh (B := bool) ipc (ret true)
                    (ack false) eq_refl eq_refl eq_refl)
             (Some "1080P") None None None (Some 1%Z)).
  - split; [reflexivity|split; [reflexivity|]].
    exact (proj2 (connect_ignores_refused_refresh (B := bool) ipc' (ret true)
                    (ack false) eq_refl eq_refl eq_refl)
             (Some "1080P") None None None (Some 1%Z)).
Defined.

(** X20: when the session does not come to the caller's block.  If
    [ipc_provider.connect()] raises, [connect] raises the same exception
    and nothing else is called: no client is made and there is no
    [logout].  If the capability refresh raises (the transport fails, or
    an index of the response is out of range), the block never runs: the
    exception is logged when it is an [Exception] and the session is
    logged out; the session then raises the exception of the refresh when
    [logout] returns, and the exception of [logout] when [logout]
    raises. *)
Theorem connect_without_block {B} (ipc : IpcProvider.t) (body : M B) :
  (forall e, IpcProvider.connect ipc = Raise e ->
             connect ipc body = (Raise e, None, [EvConnect])) /\
  (forall e self' tr,
      IpcProvider.connect ipc = Return tt ->
      _get_supported_params (__init__ ipc) = (Raise e, self', tr) ->
      connect ipc body
      = (released (Raise e) (IpcProvider.logout ipc), Some self',
         EvConnect :: tr ++ captured (Raise (A := B) e) ++ [EvLogout])).
Proof.
  split.
  - intros e Hc. unfold connect. now rewrite Hc.
  - intros e self' tr Hc Href.
    rewrite (connect_entered ipc body Hc). unfold connect_scope.
    now rewrite (bind_Raise _ _ _ _ _ _ Href).
Qed.

Lemma connect_without_block_witness :
  let e' := CollaboratorError "session expired" in
  let ipc := camera_reporting video_info_bad_codec true in
  let ipc' := failing_logout e' ipc in
  (IpcProvider.connect ipc = Return tt /\
   fst (fst (_get_supported_params (__init__ ipc))) = Raise IndexError /\
   fst (fst (connect ipc (ret 0%nat))) = Raise IndexError /\
   snd (connect ipc (ret 0%nat))
   = [EvConnect; EvGet "/video" Empty; EvLogException IndexError; EvLogout]) /\
  (IpcProvider.connect ipc' = Return tt /\
   fst (fst (_get_supported_params (__init__ ipc'))) = Raise IndexError /\
   fst (fst (connect ipc' (ret 0%nat))) = Raise e' /\
   snd (connect ipc' (ret 0%nat))
   = [EvConnect; EvGet "/video" Empty; EvLogException IndexError; EvLogout]).
Proof.
  intros e' ipc ipc'.
  pose proof (proj2 (connect_without_block ipc (ret 0%nat)) IndexError
                (snd (fst (_get_supported_params (__init__ ipc))))
                (snd (_get_supported_params (__init__ ipc)))
                eq_refl eq_refl) as Hrun.
  pose proof (proj2 (connect_without_block ipc' (ret 0%nat)) IndexError
                (snd (fst (_get_supported_params (__init__ ipc'))))
                (snd (_get_supported_params (__init__ ipc')))
                eq_refl eq_refl) as Hrun'.
  split.
  - split; [reflexivity|split; [reflexivity|]].
    rewrite Hrun. split; reflexivity.
  - split; [reflexivity|split; [reflexivity|]].
    rewrite Hrun'. split; reflexivity.
Defined.

Lemma keeps_weaken (R R' : CameraClient -> CameraClient -> Prop) {A} (m : M A) :
  (forall s s', R s s' -> R' s s') -> keeps R m -> keeps R' m.
Proof. intros Hsub Hm s o s' tr Hrun. apply Hsub. eapply Hm; eassumption. Qed.

(** X21: apart from what the caller's block does, [get_inferences] writes
    nothing but [vam_running] and [vam_url] (through the info query it may
    make), however it ends: for every relation on clients that is reflexive
    and transitive, that allows changes of these two attributes and that
    the block respects, the client after [get_inferences] is related to the
    client before. *)
Theorem get_inferences_writes_vam_only {Frames B}
    (start : VideoInferenceIterator.t -> string -> outcome Frames)
    (body : Frames -> M B) (R : CameraClient -> CameraClient -> Prop) :
  (forall s, R s s) ->
  (forall s1 s2 s3, R s1 s2 -> R s2 s3 -> R s1 s3) ->
  (forall s s', only_vam s s' -> R s s') ->
  (forall frames, keeps R (body frames)) ->
  keeps R (get_inferences start body).
Proof.
  intros Hr Ht Hsub Hbody.
  assert (Hinfo : keeps R _get_vam_info)
    by exact (keeps_weaken only_vam R _ Hsub keeps_get_vam_info).
  assert (Hstart : forall it u, keeps R (iterator_start start it u))
    by (intros it u s o s' tr [= _ <- _]; apply Hr).
  assert (Hstop : forall it, keeps R (iterator_stop it))
    by (intros it s o s' tr [= _ <- _]; apply Hr).
  unfold get_inferences.
  apply (keeps_bind _ Ht); [apply (keeps_get_self _ Hr)|]. intros self.
  destruct (negb (preview_running self)); [apply (keeps_raise _ Hr)|].
  destruct (negb (vam_running self)); [apply (keeps_raise _ Hr)|].
  destruct (preview_dimensions (cur_resolution self)) as [[w h]|];
    [|apply (keeps_raise _ Hr)].
  apply (keeps_try_finally _ Ht); [|apply Hstop].
  apply (keeps_try_except _ Ht).
  - unfold inference_scope.
    apply (keeps_bind _ Ht); [apply (keeps_get_self _ Hr)|]. intros s0.
    apply (keeps_bind _ Ht).
    + apply (keeps_when _ Hr).
      apply (keeps_bind _ Ht); [exact Hinfo|intros; apply (keeps_ret _ Hr)].
    + intros _. apply (keeps_bind _ Ht); [apply (keeps_get_self _ Hr)|].
      intros s1. destruct (vam_url s1) as [u|]; [|apply (keeps_raise _ Hr)].
      apply (keeps_bind _ Ht).
      * apply (keeps_when _ Hr), (keeps_ret _ Hr).
      * intros _. apply (keeps_bind _ Ht); [apply Hstart|exact Hbody].
  - intros e. apply (keeps_bind _ Ht);
      [apply (keeps_emit _ Hr)|intros; apply (keeps_raise _ Hr)].
Qed.

Lemma get_inferences_writes_vam_only_witness :
  let self :=
    set_vam_url (Some "")
      (streaming "203.0.113.9" "rtsp://10.0.0.5:8554/live") in
  let run := get_inferences sample_start (fun frames => ret frames) self in
  only_vam self (snd (fst run)) /\
  vam_url (snd (fst run)) = Some "rtsp://203.0.113.9:8554/live".
Proof.
  intros self run. split; [|vm_compute; reflexivity].
  exact (get_inferences_writes_vam_only sample_start
           (fun frames => ret frames) only_vam
           only_vam_refl only_vam_trans (fun s s' H => H)
           (fun frames => keeps_ret only_vam only_vam_refl frames)
           self (fst (fst run)) (snd (fst run)) (snd run) eq_refl).
Defined.

(** ** The tokens of the switches *)

Lemma lower_ascii_o c : PyStr.lower_ascii c = "o"%char -> c = "o"%char \/ c = "O"%char.
Proof.
  destruct c as [[] [] [] [] [] [] [] []]; vm_compute; intros H;
    try discriminate H; auto.
Qed.

Lemma lower_ascii_n c : PyStr.lower_ascii c = "n"%char -> c = "n"%char \/ c = "N"%char.
Proof.
  destruct c as [[] [] [] [] [] [] [] []]; vm_compute; intros H;
    try discriminate H; auto.
Qed.

Lemma lower_ascii_f c : PyStr.lower_ascii c = "f"%char -> c = "f"%char \/ c = "F"%char.
Proof.
  destruct c as [[] [] [] [] [] [] [] []]; vm_compute; intros H;
    try discriminate H; auto.
Qed.

(** X22: the tokens the four switches recognise.  The token is compared
    after [lower()] and nothing else is done to it (it is not trimmed), so
    exactly the four spellings of ["on"] stand for the target [True] and
    exactly the eight spellings of ["off"] for the target [False]. *)
Theorem recognised_tokens (state : string) :
  (recognised state true <-> In state ["on"; "On"; "oN"; "ON"]) /\
  (recognised state false
   <-> In state ["off"; "Off"; "oFf"; "ofF"; "OFf"; "OfF"; "oFF"; "OFF"]).
Proof.
  unfold recognised. split; split.
  - intros [[H _]|[_ H]]; [|discriminate].
    destruct state as [|c1 [|c2 [|c3 t]]]; try discriminate H.
    cbn [PyStr.lower] in H. injection H as H1 H2.
    destruct (lower_ascii_o _ H1) as [-> | ->],
      (lower_ascii_n _ H2) as [-> | ->]; simpl; auto.
  - intros H. left. split; [|reflexivity].
    simpl in H. decompose [or] H; subst; try reflexivity. contradiction.
  - intros [[_ H]|[H _]]; [discriminate|].
    destruct state as [|c1 [|c2 [|c3 [|c4 t]]]]; try discriminate H.
    cbn [PyStr.lower] in H. injection H as H1 H2 H3.
    destruct (lower_ascii_o _ H1) as [-> | ->],
      (lower_ascii_f _ H2) as [-> | ->],
      (lower_ascii_f _ H3) as [-> | ->]; simpl; auto 10.
  - intros H. right. split; [|reflexivity].
    simpl in H. decompose [or] H; subst; try reflexivity. contradiction.
Qed.

Lemma recognised_tokens_witness :
  recognised "oN" true /\ ~ recognised " on" true /\ ~ recognised "on " true.
Proof.
  split; [|split].
  - apply (proj2 (proj1 (recognised_tokens "oN"))). simpl; auto.
  - intros H. apply (proj1 (proj1 (recognised_tokens " on"))) in H.
    simpl in H. decompose [or] H; try discriminate; contradiction.
  - intros H. apply (proj1 (proj1 (recognised_tokens "on "))) in H.
    simpl in H. decompose [or] H; try discriminate; contradiction.
Defined.

(** ** The overlay configuration *)

(** X23: what the result of [configure_overlay] tells.  The result is
    [None] exactly when the type is neither ["inference"] nor ["text"]
    (as written: the comparison is exact), and then nothing is posted and
    one error is logged.  Otherwise exactly one request is made, a [POST
    /overlayconfig]: with overlay type [5] and the fixed caption ["Text"]
    for ["inference"], whatever [text] is given, and with overlay type [0]
    and the caller's [text] for ["text"]; the result is then the [status]
    of the answer, or the exception of the transport. *)
Theorem configure_overlay_result
    (post : string -> Overlay.payload -> outcome response)
    (type text : option string) :
  let o := fst (Overlay.configure_overlay post type text) in
  let tr := snd (Overlay.configure_overlay post type text) in
  (o = Return None <-> type <> Some "inference" /\ type <> Some "text") /\
  (o = Return None ->
   tr = [Overlay.EvLogError "Invalid overlay type use (inference/text)"]) /\
  (o <> Return None ->
   exists p,
     tr = [Overlay.EvPost "/overlayconfig" p] /\
     o = match post "/overlayconfig" p with
         | Return r => Return (Some (status r))
         | Raise e => Raise e
         end /\
     ((type = Some "inference" /\ Overlay.ov_type_SelectVal p = 5%Z /\
       Overlay.ov_usertext p = Some "Text")
      \/
      (type = Some "text" /\ Overlay.ov_type_SelectVal p = 0%Z /\
       Overlay.ov_usertext p = text))).
Proof.
  cbv zeta. unfold Overlay.configure_overlay.
  destruct type as [kind|].
  - destruct (String.eqb_spec kind "inference") as [->|Hni].
    + unfold Overlay._configure_inference_overlay.
      destruct (post "/overlayconfig" _) as [r|e] eqn:Hpost; cbn [fst snd Overlay.returned].
      * split; [split; [discriminate|intros [H _]; now destruct H]|].
        split; [discriminate|]. intros _. eexists. split; [reflexivity|].
        rewrite Hpost. split; [reflexivity|left; repeat split].
      * split; [split; [discriminate|intros [H _]; now destruct H]|].
        split; [discriminate|]. intros _. eexists. split; [reflexivity|].
        rewrite Hpost. split; [reflexivity|left; repeat split].
    + destruct (String.eqb_spec kind "text") as [->|Hnt].
      * unfold Overlay._configure_text_overlay.
        destruct (post "/overlayconfig" _) as [r|e] eqn:Hpost; cbn [fst snd Overlay.returned].
        -- split; [split; [discriminate|intros [_ H]; now destruct H]|].
           split; [discriminate|]. intros _. eexists. split; [reflexivity|].
           rewrite Hpost. split; [reflexivity|right; repeat split].
        -- split; [split; [discriminate|intros [_ H]; now destruct H]|].
           split; [discriminate|]. intros _. eexists. split; [reflexivity|].
           rewrite Hpost. split; [reflexivity|right; repeat split].
      * cbn [fst snd]. split; [split; [intros _; split; congruence|reflexivity]|].
        split; [reflexivity|]. intros H. now destruct H.
  - cbn [fst snd]. split; [split; [intros _; split; discriminate|reflexivity]|].
    split; [reflexivity|]. intros H. now destruct H.
Qed.

Lemma configure_overlay_result_witness :
  let post (_ : string) (_ : Overlay.payload) := Return (ack false) in
  fst (Overlay.configure_overlay post (Some "Text") (Some "hello")) = Return None /\
  snd (Overlay.configure_overlay post (Some "Text") (Some "hello"))
  = [Overlay.EvLogError "Invalid overlay type use (inference/text)"] /\
  fst (Overlay.configure_overlay post (Some "text") None) <> Return None /\
  exists p,
    snd (Overlay.configure_overlay post (Some "text") None)
    = [Overlay.EvPost "/overlayconfig" p] /\
    Overlay.ov_usertext p = None.
Proof.
  intros post.
  destruct (configure_overlay_result post (Some "Text") (Some "hello"))
    as (_ & Hnone & _).
  destruct (configure_overlay_result post (Some "text") None)
    as (_ & _ & Hsome).
  assert (Hne : fst (Overlay.configure_overlay post (Some "text") None)
                <> Return None) by (vm_compute; discriminate).
  split; [reflexivity|]. split; [exact (Hnone eq_refl)|]. split; [exact Hne|].
  destruct (Hsome Hne) as (p & Htr & _ & [(H & _)|(_ & _ & Htext)]);
    [discriminate H|].
  exists p. exact (conj Htr Htext).
Defined.

(** ** The label of an [Inference] *)

Lemma lstrip_spec chars s :
  exists pre,
    s = (pre ++ Driver.lstrip chars s)%string /\
    Driver.all_in chars pre = true /\
    (forall c, Driver.first_char (Driver.lstrip chars s) = Some c ->
               Driver.mem c chars = false).
Proof.
  induction s as [|c t IH].
  - exists "". repeat split. discriminate.
  - cbn [Driver.lstrip]. destruct (Driver.mem c chars) eqn:Hc.
    + destruct IH as (pre & Hs & Hpre & Hfirst).
      exists (String c pre). cbn [append Driver.all_in].
      rewrite <- Hs, Hc, Hpre. repeat split. exact Hfirst.
    + exists "". repeat split. intros d [= <-]. exact Hc.
Qed.

Lemma rstrip_spec chars s :
  exists post,
    s = (Driver.rstrip chars s ++ post)%string /\
    Driver.all_in chars post = true /\
    (forall c, Driver.last_char (Driver.rstrip chars s) = Some c ->
               Driver.mem c chars = false) /\
    (Driver.rstrip chars s <> "" ->
     Driver.first_char (Driver.rstrip chars s) = Driver.first_char s).
Proof.
  induction s as [|c t IH].
  - exists "". repeat split. discriminate.
  - destruct IH as (post & Hs & Hpost & Hlast & _).
    cbn [Driver.rstrip]. destruct (Driver.rstrip chars t) as [|d t'] eqn:E.
    + cbn [append] in Hs. subst post.
      destruct (Driver.mem c chars) eqn:Hc.
      * exists (String c t). cbn [append Driver.all_in].
        rewrite Hc, Hpost.
        split; [reflexivity|]. split; [reflexivity|].
        split; [discriminate|]. intros H. now destruct H.
      * exists t. cbn [append].
        split; [reflexivity|]. split; [exact Hpost|].
        split; [intros a [= <-]; exact Hc|reflexivity].
    + exists post. cbn [append] in *. rewrite <- Hs.
      split; [reflexivity|]. split; [exact Hpost|].
      split; [exact Hlast|reflexivity].
Qed.

(** X24: the label of an [Inference] is the label of the object with
    characters of [" .\t\n"] removed at both ends and nothing else: the
    label of the object is the label of the [Inference] between two
    strings made of these characters only, and the label of the
    [Inference] neither starts nor ends with one of them. *)
Theorem inference_label_stripped {Id Confidence Coordinate}
    (inference_object : Driver.InferenceObject.t Id Confidence Coordinate) :
  let l := Driver.label (Driver.Inference__init__ inference_object) in
  exists pre post,
    Driver.InferenceObject.label inference_object = (pre ++ l ++ post)%string /\
    Driver.all_in Driver.junk pre = true /\
    Driver.all_in Driver.junk post = true /\
    (forall c, Driver.first_char l = Some c -> Driver.mem c Driver.junk = false) /\
    (forall c, Driver.last_char l = Some c -> Driver.mem c Driver.junk = false).
Proof.
  cbv zeta. cbn [Driver.label Driver.Inference__init__]. unfold Driver.strip.
  set (s := Driver.InferenceObject.label inference_object).
  destruct (lstrip_spec Driver.junk s) as (pre & Hs & Hpre & Hfirst).
  destruct (rstrip_spec Driver.junk (Driver.lstrip Driver.junk s))
    as (post & Hl & Hpost & Hlast & Hkeep).
  exists pre, post. split; [now rewrite <- Hl|].
  split; [exact Hpre|]. split; [exact Hpost|]. split; [|exact Hlast].
  intros c Hc. apply Hfirst. rewrite <- Hkeep; [exact Hc|].
  intros E. rewrite E in Hc. discriminate.
Qed.

Lemma inference_label_stripped_witness :
  let object : Driver.InferenceObject.t nat nat nat := {|
    Driver.InferenceObject.id := 7%nat;
    Driver.InferenceObject.label := " .person. x.
";
    Driver.InferenceObject.confidence := 60%nat;
    Driver.InferenceObject.position :=
      {| Driver.Position.x := 1%nat; Driver.Position.y := 2%nat;
         Driver.Position.width := 3%nat; Driver.Position.height := 4%nat |} |} in
  Driver.label (Driver.Inference__init__ object) = "person. x" /\
  exists pre post,
    Driver.InferenceObject.label object = (pre ++ "person. x" ++ post)%string /\
    Driver.all_in Driver.junk pre = true /\
    Driver.all_in Driver.junk post = true.
Proof.
  intros object.
  destruct (inference_label_stripped object)
    as (pre & post & Hs & Hpre & Hpost & _).
  split; [reflexivity|].
  exists pre, post. exact (conj Hs (conj Hpre Hpost)).
Defined.

(** ** A whole session *)

Lemma requests_app tr1 tr2 : requests (tr1 ++ tr2) = requests tr1 ++ requests tr2.
Proof. apply filter_app. Qed.

Lemma requests_captured {A} (o : outcome A) : requests (captured o) = [].
Proof. destruct o as [a|e]; [reflexivity|]. simpl. now destruct (is_Exception e). Qed.

(** X25: a session whose capability refresh succeeded cannot fail on a
    list lookup.  When [ipc_provider.connect()] returns and the capability
    query is answered with a true [status] and indices in range, a
    [configure_preview] run as the block of [connect], whatever it
    requests, sends exactly one [POST /video] after the [GET /video] of the
    refresh, and [logout] is the last call made.  When [logout] returns,
    the outcome of the session is the device's answer to the request (the
    [status], or the exception of the transport); when [logout] raises,
    it is the exception of [logout]. *)
Theorem session_configure_preview (ipc : IpcProvider.t) (r : response)
    vr ve vb vf resolution_arg encode_arg bitrate_arg framerate_arg
    display_out_arg :
  IpcProvider.connect ipc = Return tt ->
  IpcProvider.get ipc "/video" Empty = Return r ->
  status r = true ->
  py_getitem (resolution r) (resolutionSelectVal r) = Some vr ->
  py_getitem (encodeMode r) (encodeModeSelectVal r) = Some ve ->
  py_getitem (bitRate r) (bitRateSelectVal r) = Some vb ->
  py_getitem (fps r) (fpsSelectVal r) = Some vf ->
  let run := connect ipc (configure_preview resolution_arg encode_arg
                            bitrate_arg framerate_arg display_out_arg) in
  exists res enc bit fps d,
    requests (snd run)
    = [EvGet "/video" Empty; EvPost "/video" (VideoSelect res enc bit fps d)] /\
    fst (fst run)
    = released
        match IpcProvider.post ipc "/video" (VideoSelect res enc bit fps d) with
        | Return a => Return (status a)
        | Raise e => Raise e
        end
        (IpcProvider.logout ipc) /\
    last (snd run) EvConnect = EvLogout.
Proof.
  intros Hc Hget Hst Hr He Hb Hf run.
  pose proof (refresh_exact (__init__ ipc) r vr ve vb vf Hget Hst Hr He Hb Hf)
    as Href.
  set (L := loaded (__init__ ipc) r vr ve vb vf) in *.
  set (trr := snd (_get_supported_params (__init__ ipc))).
  assert (Htrr : requests trr = [EvGet "/video" Empty])
    by (unfold trr; rewrite Href; reflexivity).
  assert (Href' : _get_supported_params (__init__ ipc) = (Return true, L, trr))
    by (unfold trr; rewrite Href; reflexivity).
  destruct (consistent_lookups resolution_arg encode_arg bitrate_arg
              framerate_arg L
              (loaded_consistent (__init__ ipc) r vr ve vb vf Hr He Hb Hf))
    as (res & enc & bit & rate & Hres & Henc & Hbit & Hfps).
  pose proof (configure_preview_exact resolution_arg encode_arg bitrate_arg
                framerate_arg display_out_arg L res enc bit rate Hres Henc Hbit
                Hfps) as Hex.
  cbv zeta in Hex.
  set (d := fst (display_choice display_out_arg (display_out L))) in *.
  set (logs := snd (display_choice display_out_arg (display_out L))) in *.
  set (p := VideoSelect res enc bit rate d) in *.
  assert (Hlogs : no_request logs) by apply display_choice_no_request.
  change (ipc_provider L) with ipc in Hex.
  exists res, enc, bit, rate, d. fold p.
  assert (Hlast : forall (x : event) l, last (x :: l ++ [EvLogout]) EvConnect = EvLogout).
  { intros x l. change (x :: l ++ [EvLogout]) with ((x :: l) ++ [EvLogout]).
    apply last_last. }
  assert (Hcp : exists o s cp,
             configure_preview resolution_arg encode_arg bitrate_arg
               framerate_arg display_out_arg L = (o, s, cp) /\
             requests cp = [EvPost "/video" p] /\
             o = match IpcProvider.post ipc "/video" p with
                 | Return a => Return (status a)
                 | Raise e => Raise e
                 end).
  { rewrite Hex. destruct (IpcProvider.post ipc "/video" p) as [a|e].
    - destruct (status a); eexists _, _, _;
        (split; [reflexivity|split; [|reflexivity]]).
      + apply requests_sent; [assumption|apply changes_no_request].
      + now apply requests_sent.
    - eexists _, _, _. split; [reflexivity|split; [|reflexivity]].
      now apply requests_sent. }
  destruct Hcp as (o & s & cp & Hrun & Hreq & Ho).
  subst run. rewrite (connect_entered ipc _ Hc). unfold connect_scope.
  rewrite (bind_Return _ _ _ _ _ _ Href'), Hrun. cbn [fst snd].
  split; [|split; [now rewrite Ho|]].
  - change (requests (EvConnect :: ?l)) with (requests l).
    rewrite !requests_app, Htrr, Hreq, requests_captured. reflexivity.
  - rewrite app_assoc. apply Hlast.
Qed.

Lemma session_configure_preview_witness :
  let e' := CollaboratorError "session expired" in
  let ipc := camera_reporting video_info_last_rate false in
  let ipc' := failing_logout e' ipc in
  let run := connect ipc (configure_preview (Some "4K") None None None None) in
  let run' := connect ipc' (configure_preview (Some "4K") None None None None) in
  (IpcProvider.connect ipc = Return tt /\
   status video_info_last_rate = true /\
   fst (fst run) = Return false /\
   requests (snd run)
   = [EvGet "/video" Empty; EvPost "/video" (VideoSelect 0 1 2 1 1%Z)] /\
   last (snd run) EvConnect = EvLogout) /\
  (IpcProvider.connect ipc' = Return tt /\
   fst (fst run') = Raise e' /\
   requests (snd run')
   = [EvGet "/video" Empty; EvPost "/video" (VideoSelect 0 1 2 1 1%Z)] /\
   last (snd run') EvConnect = EvLogout).
Proof.
  intros e' ipc ipc' run run'.
  destruct (session_configure_preview ipc video_info_last_rate
              "1080P" "AVC/H.264" "1Mbps" 30%Z (Some "4K") None None None None
              eq_refl eq_refl eq_refl eq_refl eq_refl eq_refl eq_refl)
    as (res & enc & bit & fps & d & Hreq & _ & Hlast).
  destruct (session_configure_preview ipc' video_info_last_rate
              "1080P" "AVC/H.264" "1Mbps" 30%Z (Some "4K") None None None None
              eq_refl eq_refl eq_refl eq_refl eq_refl eq_refl eq_refl)
    as (res' & enc' & bit' & fps' & d' & Hreq' & Hout' & Hlast').
  split.
  - split; [reflexivity|]. split; [reflexivity|].
    split; [vm_compute; reflexivity|].
    split; [vm_compute; reflexivity|exact Hlast].
  - split; [reflexivity|].
    split; [exact Hout'|].
    split; [vm_compute; reflexivity|exact Hlast'].
Defined.
